(** * covid_no2_viewer: the data-preparation pipeline

    A shallow embedding of [src/data_preparation/data_utils.py],
    [postprocess_data.py] and the timepoint assembly of
    [calculate_city_data.py].

    Numbers are IEEE-754 binary floating-point values, as in the Python
    code: raster pixels are 32-bit floats (numpy [float32]), statistics are
    64-bit floats (Python [float], numpy [float64]).  Both are
    [spec_float] values, with the operations of [SpecFloat] taken at the
    precision of the format. *)

From Stdlib Require Import ZArith List Bool String Ascii Lia PeanoNat.
From Stdlib Require Import SpecFloat Permutation.
Import ListNotations.

Local Open Scope Z_scope.

(** ** Floating-point formats *)

(** Values of either format; a value is kept in the canonical form that the
    rounding functions of [SpecFloat] produce. *)
Definition float := spec_float.

Definition is_nan (x : float) : bool :=
  match x with S754_nan => true | _ => false end.

Definition is_zero (x : float) : bool :=
  match x with S754_zero _ => true | _ => false end.

Definition is_finite (x : float) : bool :=
  match x with S754_zero _ | S754_finite _ _ _ => true | _ => false end.

(** The sign bit; [None] for NaN. *)
Definition signbit (x : float) : option bool :=
  match x with
  | S754_zero s | S754_infinity s | S754_finite s _ _ => Some s
  | S754_nan => None
  end.

(** Numeric identity: the same value, the two zeros identified.  NaN is
    identified with NaN (this is not Python's [==]). *)
Definition same_value (x y : float) : Prop :=
  x = y \/ (is_zero x = true /\ is_zero y = true).

(** Python's [x == y], [x != y], [x < y], [x > y] on floats. *)
Definition feqb (x y : float) : bool := SFeqb x y.
Definition fneb (x y : float) : bool := negb (SFeqb x y).
Definition fltb (x y : float) : bool := SFltb x y.
Definition fgtb (x y : float) : bool := SFltb y x.

Definition fzero : float := S754_zero false.
Definition fnan : float := S754_nan.
Definition fopp : float -> float := SFopp.
Definition fabs : float -> float := SFabs.

(** numpy [float32]: 24 bits of precision. *)
Module F32.
Definition prec := 24.
Definition emax := 128.
Definition add : float -> float -> float := SFadd prec emax.
Definition sub : float -> float -> float := SFsub prec emax.
Definition mul : float -> float -> float := SFmul prec emax.
Definition div : float -> float -> float := SFdiv prec emax.
Definition of_Z (z : Z) : float := binary_normalize prec emax z 0 false.
Definition of_nat (n : nat) : float := of_Z (Z.of_nat n).
(** A Python [float] stored into, or compared with, a [float32] array:
    rounded to the narrower format. *)
Definition of_f64 (x : float) : float :=
  match x with
  | S754_finite s m e => binary_round prec emax s m e
  | _ => x
  end.
End F32.

(** Python [float] and numpy [float64]: 53 bits of precision. *)
Module F64.
Definition prec := 53.
Definition emax := 1024.
Definition add : float -> float -> float := SFadd prec emax.
Definition sub : float -> float -> float := SFsub prec emax.
Definition mul : float -> float -> float := SFmul prec emax.
Definition div : float -> float -> float := SFdiv prec emax.
Definition sqrt : float -> float := SFsqrt prec emax.
Definition of_Z (z : Z) : float := binary_normalize prec emax z 0 false.
Definition of_nat (n : nat) : float := of_Z (Z.of_nat n).
(** [float(x)] of a [float32] value: the same number in the canonical
    form of the wider format (exact, nothing is rounded away). *)
Definition of_f32 (x : float) : float :=
  match x with
  | S754_finite s m e => binary_round prec emax s m e
  | _ => x
  end.
End F64.

(** ** Python values, exceptions and strings *)

Inductive exn :=
  | ValueError
  | TypeError
  | AttributeError
  | OSError
  | OverflowError.

(** The outcome of a call that may raise. *)
Inductive exc (A : Type) :=
  | Ok (a : A)
  | Raise (e : exn).
Arguments Ok {A} a.
Arguments Raise {A} e.

Definition bind {A B} (m : exc A) (k : A -> exc B) : exc B :=
  match m with
  | Ok a => k a
  | Raise e => Raise e
  end.

Notation "x <- m ;; k" := (bind m (fun x => k))
  (at level 61, m at next level, right associativity).

(** [c in s] for a one-character [c]. *)
Fixpoint contains (c : ascii) (s : string) : bool :=
  match s with
  | EmptyString => false
  | String a r => if Ascii.eqb a c then true else contains c r
  end.

(** [s.split(c)] for a one-character separator. *)
Fixpoint split (c : ascii) (s : string) : list string :=
  match s with
  | EmptyString => [EmptyString]
  | String a r =>
      if Ascii.eqb a c then EmptyString :: split c r
      else match split c r with
           | [] => [String a EmptyString]
           | p :: ps => String a p :: ps
           end
  end.

(** Characters that [int()] strips around a literal (ASCII strings). *)
Definition is_space (a : ascii) : bool :=
  let n := nat_of_ascii a in
  ((9 <=? n) && (n <=? 13) || (28 <=? n) && (n <=? 32))%nat.

Definition digit_val (a : ascii) : option Z :=
  let n := nat_of_ascii a in
  if ((48 <=? n) && (n <=? 57))%nat then Some (Z.of_nat (n - 48)) else None.

Fixpoint lstrip (s : list ascii) : list ascii :=
  match s with
  | a :: r => if is_space a then lstrip r else s
  | [] => []
  end.

Definition strip (s : list ascii) : list ascii :=
  rev (lstrip (rev (lstrip s))).

(** Digits of a decimal literal after its first digit: a digit, or one
    underscore followed by a digit. [acc] is the value read so far. *)
Fixpoint int_digits (s : list ascii) (acc : Z) : option Z :=
  match s with
  | [] => Some acc
  | a :: r =>
      match digit_val a with
      | Some d => int_digits r (10 * acc + d)
      | None =>
          if Ascii.eqb a "_"%char then
            match r with
            | b :: r' =>
                match digit_val b with
                | Some d => int_digits r' (10 * acc + d)
                | None => None
                end
            | [] => None
            end
          else None
      end
  end.

Definition int_unsigned (s : list ascii) : option Z :=
  match s with
  | a :: r =>
      match digit_val a with
      | Some d => int_digits r d
      | None => None
      end
  | [] => None
  end.

(** [int(s)] for a string [s], base 10: surrounding white space, an
    optional sign, digits with single underscores between them; anything
    else raises ValueError. *)
Definition int_of_str (s : string) : exc Z :=
  let body := strip (list_ascii_of_string s) in
  let r := match body with
           | "+"%char :: r => int_unsigned r
           | "-"%char :: r => option_map Z.opp (int_unsigned r)
           | _ => int_unsigned body
           end in
  match r with
  | Some z => Ok z
  | None => Raise ValueError
  end.

Definition digit_char (d : Z) : ascii := ascii_of_nat (48 + Z.to_nat d).

(** Decimal digits of a non-negative integer, most significant first;
    [fuel] bounds the number of digits. *)
Fixpoint dec_digits (fuel : nat) (z : Z) (acc : list ascii) : list ascii :=
  match fuel with
  | O => acc
  | S f =>
      let acc' := digit_char (z mod 10) :: acc in
      if z <? 10 then acc' else dec_digits f (z / 10) acc'
  end.

Definition str_of_nonneg (z : Z) : list ascii :=
  dec_digits (S (Z.to_nat (Z.log2 z))) z [].

(** [str(z)] of an integer. *)
Definition str_of_int (z : Z) : string :=
  string_of_list_ascii
    (if z <? 0 then "-"%char :: str_of_nonneg (- z) else str_of_nonneg z).

(** The format [{z:0wd}] for [z >= 0]: decimal, padded with zeros on the
    left to at least [w] characters. *)
Definition zfill (w : nat) (z : Z) : string :=
  let ds := str_of_nonneg z in
  string_of_list_ascii (repeat "0"%char (w - List.length ds) ++ ds).

(** The format [{z:0wd}] for any integer: the sign counts in the width. *)
Definition format_0wd (w : nat) (z : Z) : string :=
  if z <? 0 then ("-" ++ zfill (w - 1) (- z))%string else zfill w z.

(** ** Dates *)

(** [datetime.datetime]; the pipeline only builds dates at midnight. *)
Record datetime := { year : Z; month : Z; day : Z }.

Definition isleap (y : Z) : bool :=
  (y mod 4 =? 0) && (negb (y mod 100 =? 0) || (y mod 400 =? 0)).

(** [calendar.monthrange(year, month)[1]], for a month of 1..12. *)
Definition monthrange (y m : Z) : Z :=
  if m =? 2 then (if isleap y then 29 else 28)
  else if (m =? 4) || (m =? 6) || (m =? 9) || (m =? 11) then 30
  else 31.

(** The values of a C [int], as which the constructor of a date reads its
    arguments. *)
Definition c_int (z : Z) : bool :=
  (-2147483648 <=? z) && (z <=? 2147483647).

(** The constructor [datetime(y, m, d)]: OverflowError for an argument
    that is no C [int], ValueError outside the calendar. *)
Definition mk_datetime (y m d : Z) : exc datetime :=
  if negb (c_int y && c_int m && c_int d) then Raise OverflowError
  else if (1 <=? y) && (y <=? 9999) && (1 <=? m) && (m <=? 12)
          && (1 <=? d) && (d <=? monthrange y m)
  then Ok {| year := y; month := m; day := d |}
  else Raise ValueError.

(** [strftime] with the formats the pipeline uses.  [%Y] is the year as
    the C library prints it, not padded: a year before 1000 has fewer than
    four digits.  [%m] and [%d] have two digits. *)
Definition strftime_Y_m (sep : string) (d : datetime) : string :=
  (str_of_int (year d) ++ sep ++ zfill 2 (month d))%string.

Definition strftime_Y_m_d (d : datetime) : string :=
  (str_of_int (year d) ++ "-" ++ zfill 2 (month d) ++ "-"
   ++ zfill 2 (day d))%string.

(** [str(d)] of a date at midnight: the ISO format, with a year of four
    digits. *)
Definition isoformat (d : datetime) : string :=
  (zfill 4 (year d) ++ "-" ++ zfill 2 (month d) ++ "-"
   ++ zfill 2 (day d) ++ " 00:00:00")%string.

(** A period argument as the callers pass it: a string, a [datetime], or
    some other Python value. *)
Inductive pyval :=
  | PyStr (s : string)
  | PyDatetime (d : datetime)
  | PyInt (z : Z)
  | PyNone.

(** [str(v)]. *)
Definition py_str (v : pyval) : string :=
  match v with
  | PyStr s => s
  | PyDatetime d => isoformat d
  | PyInt z => str_of_int z
  | PyNone => "None"
  end.

(** [int(v)]. *)
Definition py_int (v : pyval) : exc Z :=
  match v with
  | PyStr s => int_of_str s
  | PyInt z => Ok z
  | PyDatetime _ | PyNone => Raise TypeError
  end.

(** [year, month = period.split(sep)] followed by
    [datetime(int(year), int(month), 1)]. *)
Definition parse_two_parts (sep : ascii) (period : string) : exc datetime :=
  match split sep period with
  | [y; m] =>
      yi <- int_of_str y ;;
      mi <- int_of_str m ;;
      mk_datetime yi mi 1
  | _ => Raise ValueError
  end.

Definition _parse_period (period : pyval) : exc datetime :=
  match period with
  | PyDatetime d => Ok d
  | PyStr s =>
      if contains "_" s then parse_two_parts "_" s
      else if contains "-" s then parse_two_parts "-" s
      else Raise ValueError
  | _ => Raise ValueError
  end.

(** The resolution of one baseline period in [calculate_no2_significance]:
    a representation of four characters is a bare year and takes the month
    of the target. *)
Definition resolve_baseline (target_dt : datetime) (baseline_p : pyval)
  : exc datetime :=
  if (String.length (py_str baseline_p) =? 4)%nat then
    y <- py_int baseline_p ;;
    mk_datetime y (month target_dt) 1
  else _parse_period baseline_p.

(** ** Rasters and folders *)

(** A single-band GeoTIFF as [rasterio] reads it: the band [src.read(1)]
    as a flat row-major array of [float32] pixels with its shape, and the
    file's nodata value [src.nodata] (a Python [float], or [None]).  All
    rasters of the pipeline are cut on one pixel grid, so the
    affine transform is left out. *)
Record raster := {
  pixels : list float;
  shape : nat * nat;
  nodata : option float
}.

(** What is found under a file name: a raster, or a file that
    [rasterio.open] (or the statistics on it) fails on. *)
Inductive file :=
  | Readable (r : raster)
  | Unreadable.

(** A folder: file name to content, [None] when the file does not exist. *)
Definition folder := string -> option file.

(** A city polygon, through the only use the pipeline makes of it: the
    pixels of the grid that [rasterstats] rasterises it to (pixel centre
    inside the geometry), by flat pixel index. *)
Definition polygon := nat -> bool.

(** ** rasterstats.zonal_stats *)

(** The dictionary of one feature, for [stats=['mean']]. *)
Record stats := { mean : option float }.

(** *** numpy's sum of a contiguous array

    [np.add.reduce] starts from 0 and adds the pairwise sum of the array:
    fewer than eight values are added in turn; up to 128 values are added
    into eight running sums, each taking every eighth value, which are
    then added two by two, the values left over being added in turn; a
    longer array is cut in two, at a multiple of eight.  The reduction is
    written for any addition [add]: it is run on floats, and read on the
    terms it builds. *)
Section AddReduce.

Context {T : Type}.
Variable add : T -> T -> T.
Variable zero : T.

(** [r[j] += a[j]] for the running sums. *)
Fixpoint add_each (r a : list T) : list T :=
  match r, a with
  | x :: r', y :: a' => add x y :: add_each r' a'
  | _, _ => r
  end.

(** The unrolled loop: as long as eight values are left they are added to
    the eight running sums.  The sums, and the values left over. *)
Fixpoint unrolled (r a : list T) : list T * list T :=
  match a with
  | a0 :: a1 :: a2 :: a3 :: a4 :: a5 :: a6 :: a7 :: rest =>
      unrolled (add_each r [a0; a1; a2; a3; a4; a5; a6; a7]) rest
  | _ => (r, a)
  end.

(** A block of at most 128 values.  (The loop keeps eight running sums;
    the last case of the inner [match] is never taken.) *)
Definition block_sum (a : list T) : T :=
  match a with
  | a0 :: a1 :: a2 :: a3 :: a4 :: a5 :: a6 :: a7 :: rest =>
      match unrolled [a0; a1; a2; a3; a4; a5; a6; a7] rest with
      | ([r0; r1; r2; r3; r4; r5; r6; r7], left_over) =>
          fold_left add left_over
            (add (add (add r0 r1) (add r2 r3))
                 (add (add r4 r5) (add r6 r7)))
      | _ => zero
      end
  | _ => fold_left add a zero
  end.

(** [fuel] bounds the depth of the cuts; the length of the array is
    enough. *)
Fixpoint pairwise_sum (fuel : nat) (a : list T) : T :=
  match fuel with
  | O => block_sum a
  | S fuel' =>
      let n := List.length a in
      if (n <=? 128)%nat then block_sum a
      else
        let n2 := (n / 2 - (n / 2) mod 8)%nat in
        add (pairwise_sum fuel' (firstn n2 a))
            (pairwise_sum fuel' (skipn n2 a))
  end.

Definition add_reduce (a : list T) : T :=
  add zero (pairwise_sum (List.length a) a).

End AddReduce.

(** [np.sum] of a [float64] array. *)
Definition np_sum (l : list float) : float := add_reduce F64.add fzero l.

(** [rasterstats] replaces a missing [nodata] of an array by -999. *)
Definition rasterstats_default_nodata : float := F64.of_Z (-999).

(** The mask of [zonal_stats]: outside the rasterised geometry, equal to
    the nodata value (compared in [float32], the type of the band), or
    NaN. *)
Definition pixel_masked (coord_polygon : polygon) (nd : float)
  (ip : nat * float) : bool :=
  negb (coord_polygon (fst ip)) || feqb (snd ip) nd || is_nan (snd ip).

(** [zonal_stats(coord_polygon, array, affine=..., stats=['mean'],
    nodata=...)] for one geometry and an array.  The window keeps the
    [float32] type of the band.  The mean of the masked array is [None]
    when nothing is left; otherwise it is the [float32] sum of the window
    with the masked entries filled by 0, divided as a [float64] by the
    number of unmasked entries. *)
Definition zonal_stats (coord_polygon : polygon) (arr : list float)
  (nodata : option float) : list stats :=
  let nd := F32.of_f64 match nodata with
                       | Some v => v
                       | None => rasterstats_default_nodata
                       end in
  let window := combine (seq 0 (List.length arr)) arr in
  let masked := pixel_masked coord_polygon nd in
  let cnt := List.length (filter (fun ip => negb (masked ip)) window) in
  let filled := map (fun ip => if masked ip then fzero else snd ip) window in
  [ {| mean :=
         if (cnt =? 0)%nat then None
         else Some (F64.div (F64.of_f32 (add_reduce F32.add fzero filled))
                      (F64.of_nat cnt)) |} ].

(** ** data_utils.py: the monthly lookup *)

Definition calculate_period_no2_coord_polygon (coord_polygon : polygon)
  (period : pyval) (no2_data_folder : folder) : exc (option float) :=
  period_str <- match period with
                | PyStr s => Ok s
                | PyDatetime d => Ok (strftime_Y_m "_" d)
                | _ => Raise AttributeError
                end ;;
  match no2_data_folder ("no2_data_" ++ period_str ++ ".tif")%string with
  | None => Ok None
  | Some Unreadable => Ok None
  | Some (Readable src) =>
      match zonal_stats coord_polygon (pixels src) None with
      | s :: _ => Ok (mean s)
      | [] => Ok None
      end
  end.

(** ** data_utils.py: the daily series *)

(** The body of the loop over the days of the month: the value appended to
    [daily_values] for [day], or [None] when the day is skipped.  [day]
    ranges over the days of the month, so building the date cannot fail. *)
Definition daily_mean (coord_polygon : polygon) (period_dt : datetime)
  (daily_data_folder : folder) (day : Z) : option float :=
  let date := {| year := year period_dt; month := month period_dt;
                 day := day |} in
  let date_str := strftime_Y_m_d date in
  match daily_data_folder ("no2_data_" ++ date_str ++ ".tif")%string with
  | None => None
  | Some Unreadable => None
  | Some (Readable src) =>
      match zonal_stats coord_polygon (pixels src) (nodata src) with
      | [] => None
      | s :: _ =>
          match mean s with
          | None => None
          | Some m => if is_nan m then None else Some m
          end
      end
  end.

Fixpoint daily_loop (coord_polygon : polygon) (period_dt : datetime)
  (daily_data_folder : folder) (days : list Z) (daily_values : list float)
  : list float :=
  match days with
  | [] => daily_values
  | day :: rest =>
      match daily_mean coord_polygon period_dt daily_data_folder day with
      | None =>
          daily_loop coord_polygon period_dt daily_data_folder rest
            daily_values
      | Some m =>
          daily_loop coord_polygon period_dt daily_data_folder rest
            (daily_values ++ [m])
      end
  end.

(** [range(1, num_days + 1)]. *)
Definition month_days (period_dt : datetime) : list Z :=
  map Z.of_nat
    (seq 1 (Z.to_nat (monthrange (year period_dt) (month period_dt)))).

Definition _extract_daily_no2_for_month (coord_polygon : polygon)
  (period_dt : datetime) (daily_data_folder : folder)
  : option (list float) :=
  let daily_values :=
    daily_loop coord_polygon period_dt daily_data_folder
      (month_days period_dt) [] in
  if (List.length daily_values =? 0)%nat then None else Some daily_values.

(** ** data_utils.py: the significance test *)

(** A decimal literal [n/d] of the source, as the nearest [float]. *)
Definition literal (n d : Z) : float := F64.div (F64.of_Z n) (F64.of_Z d).

Definition fone : float := F64.of_Z 1.
Definition ftwo : float := F64.of_Z 2.

(** [np.mean(a)]. *)
Definition np_mean (a : list float) : float :=
  F64.div (np_sum a) (F64.of_nat (List.length a)).

(** [np.var(a, ddof=ddof)]: the mean of the squared deviations from the
    mean, over [max(n - ddof, 0)]. *)
Definition np_var (a : list float) (ddof : nat) : float :=
  let arrmean := np_mean a in
  let x := map (fun v => F64.sub v arrmean) a in
  let x := map (fun v => F64.mul v v) x in
  F64.div (np_sum x) (F64.of_nat (List.length a - ddof)).

(** [np.std(a, ddof=ddof)]. *)
Definition np_std (a : list float) (ddof : nat) : float :=
  F64.sqrt (np_var a ddof).

(** The variance of [scipy.stats] ([_var(a, ddof=ddof)]): the mean of the
    squared deviations from the mean, times [n / (n - ddof)] when [ddof]
    is not 0. *)
Definition scipy_var (a : list float) (ddof : nat) : float :=
  let mean := np_mean a in
  let a_zero_mean := map (fun v => F64.sub v mean) a in
  let s := map (fun v => F64.mul v v) a_zero_mean in
  let var := np_mean s in
  if (ddof =? 0)%nat then var
  else F64.mul var
         (F64.div (F64.of_nat (List.length a))
            (F64.of_Z (Z.of_nat (List.length a) - Z.of_nat ddof))).

(** The verdict dictionary.  The keys [significant], [p_value] and
    [interpretation] are in every verdict; the others only in the verdict
    of a test that was run. *)
Record test_details := {
  t_statistic : float;
  target_mean : float;
  baseline_mean : float;
  target_std : float;
  baseline_std : float;
  percent_change : float;
  cohens_d : float;
  n_target : nat;
  n_baseline : nat;
  target_period : string;
  baseline_period : string
}.

Record verdict := {
  significant : bool;
  p_value : float;
  interpretation : string;
  details : option test_details
}.

(** The verdict returned when a group is too small. *)
Definition insufficient_data : verdict := {|
  significant := false;
  p_value := fone;
  interpretation := "Insufficient data for this month for a statistical test.";
  details := None
|}.

(** [baseline_period]: one period, or a list or tuple of periods. *)
Inductive baseline_arg :=
  | Single (p : pyval)
  | Several (ps : list pyval).

Section Significance.

(** [scipy.special.stdtr df t], the distribution function of Student's t
    with [df] degrees of freedom, is left to the library. *)
Variable stdtr : float -> float -> float.

(** The float formats ['{:.3f}'] and ['{:.2f}'] of Python. *)
Variable format_3f : float -> string.
Variable format_2f : float -> string.

(** *** scipy.stats.ttest_ind *)

Definition _equal_var_ttest_denom (v1 : float) (n1 : nat) (v2 : float)
  (n2 : nat) : float * float :=
  let df := F64.of_Z (Z.of_nat n1 + Z.of_nat n2 - 2) in
  let svar :=
    F64.div
      (F64.add (F64.mul (F64.of_Z (Z.of_nat n1 - 1)) v1)
               (F64.mul (F64.of_Z (Z.of_nat n2 - 1)) v2))
      df in
  let denom :=
    F64.sqrt
      (F64.mul svar
         (F64.add (F64.div fone (F64.of_nat n1))
                  (F64.div fone (F64.of_nat n2)))) in
  (df, denom).

Definition _unequal_var_ttest_denom (v1 : float) (n1 : nat) (v2 : float)
  (n2 : nat) : float * float :=
  let vn1 := F64.div v1 (F64.of_nat n1) in
  let vn2 := F64.div v2 (F64.of_nat n2) in
  let s := F64.add vn1 vn2 in
  let df :=
    F64.div (F64.mul s s)
      (F64.add
         (F64.div (F64.mul vn1 vn1) (F64.of_Z (Z.of_nat n1 - 1)))
         (F64.div (F64.mul vn2 vn2) (F64.of_Z (Z.of_nat n2 - 1)))) in
  let df := if is_nan df then fone else df in
  let denom := F64.sqrt s in
  (df, denom).

(** [ttest_ind(a, b, equal_var=...)], two-sided: the statistic and the
    p-value.  [equal_var=True] is the library's default: Student's test
    with the pooled variance; [equal_var=False] is Welch's test. *)
Definition ttest_ind (a b : list float) (equal_var : bool)
  : float * float :=
  let v1 := scipy_var a 1 in
  let v2 := scipy_var b 1 in
  let n1 := List.length a in
  let n2 := List.length b in
  let '(df, denom) :=
    if equal_var then _equal_var_ttest_denom v1 n1 v2 n2
    else _unequal_var_ttest_denom v1 n1 v2 n2 in
  let d := F64.sub (np_mean a) (np_mean b) in
  let t := F64.div d denom in
  let prob := F64.mul (stdtr df (fopp (fabs t))) ftwo in
  (t, prob).

(** *** _generate_interpretation *)

Definition _generate_interpretation (is_significant : bool)
  (p_value percent_change cohens_d : float) : string :=
  let sig_text :=
    if is_significant then
      if fltb p_value (literal 1 1000) then
        "highly significant (p < 0.001)"%string
      else if fltb p_value (literal 1 100) then
        "very significant (p < 0.01)"%string
      else ("significant (p = " ++ format_3f p_value ++ ")")%string
    else
      ("not statistically significant (p = " ++ format_3f p_value
         ++ ")")%string in
  let abs_d := fabs cohens_d in
  let effect_text :=
    if fltb abs_d (literal 2 10) then "negligible effect size"%string
    else if fltb abs_d (literal 5 10) then "small effect size"%string
    else if fltb abs_d (literal 8 10) then "medium effect size"%string
    else "large effect size"%string in
  (sig_text ++ ", " ++ effect_text ++ " (d=" ++ format_2f cohens_d
     ++ ")")%string.

(** *** calculate_no2_significance *)

(** The pooled standard deviation of the two groups. *)
Definition pooled_std_of (baseline_daily_all target_daily : list float)
  : float :=
  let baseline_std := np_std baseline_daily_all 1 in
  let target_std := np_std target_daily 1 in
  let nb := Z.of_nat (List.length baseline_daily_all) in
  let nt := Z.of_nat (List.length target_daily) in
  F64.sqrt
    (F64.div
       (F64.add
          (F64.mul (F64.of_Z (nb - 1)) (F64.mul baseline_std baseline_std))
          (F64.mul (F64.of_Z (nt - 1)) (F64.mul target_std target_std)))
       (F64.of_Z (nb + nt - 2))).

(** From the check of the target series to the end of the function: the
    verdict for a target series (or [None]) and the pooled baseline.  The
    integer 0 of the two guarded divisions is the float zero. *)
Definition verdict_of_series (target_daily : option (list float))
  (baseline_daily_all : list float) (target_dt : datetime)
  (baseline_dts : list datetime) (alpha : float) : verdict :=
  match target_daily with
  | None => insufficient_data
  | Some target_daily =>
      if (List.length baseline_daily_all <? 3)%nat
         || (List.length target_daily <? 3)%nat
      then insufficient_data
      else
        let '(t_stat, p_value) :=
          ttest_ind baseline_daily_all target_daily true in
        let target_mean := np_mean target_daily in
        let baseline_mean := np_mean baseline_daily_all in
        let target_std := np_std target_daily 1 in
        let baseline_std := np_std baseline_daily_all 1 in
        let pooled_std := pooled_std_of baseline_daily_all target_daily in
        let cohens_d :=
          if fgtb pooled_std fzero
          then F64.div (F64.sub target_mean baseline_mean) pooled_std
          else fzero in
        let percent_change :=
          if fneb baseline_mean fzero
          then F64.mul
                 (F64.div (F64.sub target_mean baseline_mean)
                    baseline_mean)
                 (F64.of_Z 100)
          else fzero in
        let is_significant := fltb p_value alpha in
        let interpretation :=
          _generate_interpretation is_significant p_value percent_change
            cohens_d in
        let baseline_periods_str :=
          String.concat ", " (map (strftime_Y_m "-") baseline_dts) in
        {| significant := is_significant;
           p_value := p_value;
           interpretation := interpretation;
           details := Some {|
             t_statistic := t_stat;
             target_mean := target_mean;
             baseline_mean := baseline_mean;
             target_std := target_std;
             baseline_std := baseline_std;
             percent_change := percent_change;
             cohens_d := cohens_d;
             n_target := List.length target_daily;
             n_baseline := List.length baseline_daily_all;
             target_period := strftime_Y_m "-" target_dt;
             baseline_period := baseline_periods_str |} |}
  end.

(** The loop over the baseline periods. *)
Fixpoint baseline_loop (coord_polygon : polygon) (target_dt : datetime)
  (daily_data_folder : folder) (baseline_periods : list pyval)
  (baseline_daily_all : list float) (baseline_dts : list datetime)
  : exc (list float * list datetime) :=
  match baseline_periods with
  | [] => Ok (baseline_daily_all, baseline_dts)
  | baseline_p :: rest =>
      baseline_dt <- resolve_baseline target_dt baseline_p ;;
      match _extract_daily_no2_for_month coord_polygon baseline_dt
              daily_data_folder with
      | Some baseline_daily =>
          baseline_loop coord_polygon target_dt daily_data_folder rest
            (baseline_daily_all ++ baseline_daily)
            (baseline_dts ++ [baseline_dt])
      | None =>
          baseline_loop coord_polygon target_dt daily_data_folder rest
            baseline_daily_all baseline_dts
      end
  end.

Definition calculate_no2_significance (coord_polygon : polygon)
  (target_period : pyval) (baseline_period : baseline_arg)
  (daily_data_folder : folder) (alpha : float) : exc verdict :=
  target_dt <- _parse_period target_period ;;
  let baseline_periods :=
    match baseline_period with
    | Several ps => ps
    | Single p => [p]
    end in
  baseline <- baseline_loop coord_polygon target_dt daily_data_folder
                baseline_periods [] [] ;;
  let target_daily :=
    _extract_daily_no2_for_month coord_polygon target_dt
      daily_data_folder in
  Ok (verdict_of_series target_daily (fst baseline) target_dt
        (snd baseline) alpha).

End Significance.

(** The default [alpha=0.05]. *)
Definition default_alpha : float := literal 5 100.

(** ** calculate_city_data.py: the timepoint of a city *)

Record timepoint := {
  cityName : string;
  timestamp : string;
  value : float;
  incidence : float;
  pValue : float;
  tp_interpretation : string
}.

Definition is_covid_era (year month : Z) : bool :=
  (year >? 2020) || ((year =? 2020) && (month >=? 3)).

Definition get_baseline_periods (month : Z) : list pyval :=
  let baseline_periods := [PyStr ("2019_" ++ format_0wd 2 month)] in
  if month =? 1 then baseline_periods ++ [PyStr "2020_01"]
  else if month =? 2 then baseline_periods ++ [PyStr "2020_02"]
  else baseline_periods.

(** Python's truth value of the lookup result: [None] and zero are false. *)
Definition truthy (no2_value : option float) : bool :=
  match no2_value with
  | None => false
  | Some v => fneb v fzero
  end.

(** [no2_value if no2_value else 0.0]. *)
Definition value_or_zero (no2_value : option float) : float :=
  match no2_value with
  | Some v => if truthy no2_value then v else fzero
  | None => fzero
  end.

(** The month of the incidence data, with pandas: [period_start] is
    [pd.Timestamp(year=year, month=month, day=1)], a date like
    [datetime(year, month, 1)]; [period_start + pd.DateOffset(months=1)]
    is the first day of the next month, which does not exist after
    December 9999; [period_end] is the day before it. *)
Definition month_window (year month : Z) : exc (datetime * datetime) :=
  period_start <- mk_datetime year month 1 ;;
  next_month <- (if month =? 12 then mk_datetime (year + 1) 1 1
                 else mk_datetime year (month + 1) 1) ;;
  Ok (period_start,
      {| year := year; month := month; day := monthrange year month |}).

Section Timepoints.

Variable stdtr : float -> float -> float.
Variable format_3f : float -> string.
Variable format_2f : float -> string.

(** The record appended to [city_timepoints] for one city and one
    period; [incidence_value] is the city's mean incidence, from the
    incidence table, over the days of the month window. *)
Definition city_timepoint (city_name : string) (geometry : polygon)
  (incidence_value : float) (period_str : string)
  (no2_daily_folder no2_monthly_folder : folder) : exc timepoint :=
  match split "_" period_str with
  | [y; m] =>
      year <- int_of_str y ;;
      month <- int_of_str m ;;
      let timestamp :=
        (format_0wd 4 year ++ "-" ++ format_0wd 2 month)%string in
      if is_covid_era year month then
        window <- month_window year month ;;
        no2_value <- calculate_period_no2_coord_polygon geometry
                       (PyStr period_str) no2_monthly_folder ;;
        stat_test <- calculate_no2_significance stdtr format_3f format_2f
                       geometry (PyStr period_str)
                       (Several (get_baseline_periods month))
                       no2_daily_folder default_alpha ;;
        Ok {| cityName := city_name;
              timestamp := timestamp;
              value := value_or_zero no2_value;
              incidence := incidence_value;
              pValue := p_value stat_test;
              tp_interpretation := interpretation stat_test |}
      else
        no2_value <- calculate_period_no2_coord_polygon geometry
                       (PyStr period_str) no2_monthly_folder ;;
        Ok {| cityName := city_name;
              timestamp := timestamp;
              value := value_or_zero no2_value;
              incidence := fzero;
              pValue := fone;
              tp_interpretation := "Precovid baseline" |}
  | _ => Raise ValueError
  end.

End Timepoints.

(** ** postprocess_data.py: monthly aggregation *)

(** The nodata value of the monthly composites. *)
Definition nodata_value : float := F64.of_Z (-9999).

(** One daily band, as [float32], with the file's nodata turned into NaN. *)
Definition read_daily (src : raster) : list float :=
  match nodata src with
  | Some nd =>
      map (fun v => if feqb v (F32.of_f64 nd) then fnan else v) (pixels src)
  | None => pixels src
  end.

(** [np.nanmean(stacked, axis=0)] for the samples of one pixel along the
    time axis, in [float32]: the sum with NaN replaced by 0, over the
    number of samples that are not NaN (0/0 is NaN when there is none).
    On a grid of more than one pixel the days are added in turn, grid
    by grid; the stack of a grid of a single pixel is one contiguous
    array, which numpy adds pairwise. *)
Definition nanmean (single_pixel : bool) (samples : list float) : float :=
  let arr := map (fun v => if is_nan v then fzero else v) samples in
  let tot :=
    if single_pixel then add_reduce F32.add fzero arr
    else fold_left F32.add arr fzero in
  let cnt := List.length (filter (fun v => negb (is_nan v)) samples) in
  F32.div tot (F32.of_nat cnt).

(** The order of [sorted(daily_files)]: by date. *)
Definition date_leb (a b : datetime) : bool :=
  (year a <? year b)
  || ((year a =? year b)
      && ((month a <? month b)
          || ((month a =? month b) && (day a <=? day b)))).

Fixpoint insert_by_date (x : datetime * file) (l : list (datetime * file))
  : list (datetime * file) :=
  match l with
  | [] => [x]
  | y :: r =>
      if date_leb (fst y) (fst x) then y :: insert_by_date x r else x :: l
  end.

Definition sorted (l : list (datetime * file)) : list (datetime * file) :=
  fold_left (fun acc x => insert_by_date x acc) l [].

(** Opening the files of a month in turn; the first one that cannot be
    read raises. *)
Fixpoint open_all (l : list (datetime * file)) : exc (list raster) :=
  match l with
  | [] => Ok []
  | (_, Unreadable) :: _ => Raise OSError
  | (_, Readable src) :: r => srcs <- open_all r ;; Ok (src :: srcs)
  end.

Definition shape_eqb (a b : nat * nat) : bool :=
  ((fst a =? fst b) && (snd a =? snd b))%nat.

(** [np.stack(daily_arrays, axis=0)]: ValueError when the list is empty or
    the shapes differ. *)
Definition np_stack (srcs : list raster)
  : exc (nat * nat * list (list float)) :=
  match srcs with
  | [] => Raise ValueError
  | first :: _ =>
      if forallb (fun src => shape_eqb (shape src) (shape first)) srcs
      then Ok (shape first, map read_daily srcs)
      else Raise ValueError
  end.

(** The samples of pixel [i] along the time axis. *)
Definition samples_at (i : nat) (stacked : list (list float)) : list float :=
  map (fun a => nth i a fnan) stacked.

(** The pixel of the monthly composite: the mean, or the nodata value
    when the mean is NaN. *)
Definition monthly_pixel (single_pixel : bool) (samples : list float)
  : float :=
  let m := nanmean single_pixel samples in
  if is_nan m then F32.of_f64 nodata_value else m.

(** The body of the loop over the months: the composite written for the
    month, or [None] when the month is skipped. *)
Definition aggregate_month (require_all_days : bool) (year_month : Z * Z)
  (daily_files : list (datetime * file)) : option raster :=
  let '(year, month) := year_month in
  let num_days_in_month := monthrange year month in
  if require_all_days
     && negb (Z.of_nat (List.length daily_files) =? num_days_in_month)
  then None
  else
    match (srcs <- open_all (sorted daily_files) ;; np_stack srcs) with
    | Raise _ => None
    | Ok (shp, stacked) =>
        let monthly_avg :=
          map (fun i =>
                 monthly_pixel (fst shp * snd shp =? 1)%nat
                   (samples_at i stacked))
            (seq 0 (fst shp * snd shp)) in
        Some {| pixels := monthly_avg;
                shape := shp;
                nodata := Some nodata_value |}
    end.

(** The loop over the months of [monthly_groups], in the order of the
    keys: the composites created. *)
Fixpoint aggregate_loop (require_all_days : bool)
  (monthly_groups : list ((Z * Z) * list (datetime * file)))
  (created_files : list ((Z * Z) * raster)) : list ((Z * Z) * raster) :=
  match monthly_groups with
  | [] => created_files
  | (year_month, daily_files) :: rest =>
      match aggregate_month require_all_days year_month daily_files with
      | None => aggregate_loop require_all_days rest created_files
      | Some r =>
          aggregate_loop require_all_days rest
            (created_files ++ [(year_month, r)])
      end
  end.

Definition aggregate_daily_to_monthly
  (monthly_groups : list ((Z * Z) * list (datetime * file)))
  (require_all_days : bool) : list ((Z * Z) * raster) :=
  aggregate_loop require_all_days monthly_groups [].

(** ** Notions used in the statements, and sample data *)

(** A folder without any file. *)
Definition empty_folder : folder := fun _ => None.

(** The nodata value that [zonal_stats] works with, as a [float32]. *)
Definition nodata_in_force (nodata : option float) : float :=
  F32.of_f64 match nodata with
             | Some v => v
             | None => rasterstats_default_nodata
             end.

(** The pixels that count for a polygon, following the specification:
    inside the polygon, not equal to the nodata value, not NaN. *)
Definition counted_pixels (coord_polygon : polygon) (arr : list float)
  (nd : float) : list float :=
  map snd
    (filter
       (fun ip => coord_polygon (fst ip) && negb (feqb (snd ip) nd)
                  && negb (is_nan (snd ip)))
       (combine (seq 0 (List.length arr)) arr)).

(** The pixels inside the polygon. *)
Definition pixels_inside (coord_polygon : polygon) (arr : list float)
  : list float :=
  map snd
    (filter (fun ip => coord_polygon (fst ip))
       (combine (seq 0 (List.length arr)) arr)).

(** The pixel is NaN or an ordinary value of the composite: neither the
    nodata value of the raster nor the default nodata value of
    [rasterstats]. *)
Definition nan_or_data (src : raster) (px : float) : bool :=
  is_nan px
  || (negb (feqb px (nodata_in_force (nodata src)))
      && negb (feqb px (nodata_in_force None))).

(** [sum_of add l s]: [s] is a sum of the values [l], each taken once,
    added two by two in some order, possibly starting from zeros.  The
    order in which numpy adds depends on the length and the layout of the
    array; a statement made with [sum_of] holds in every order. *)
Inductive sum_of (add : float -> float -> float)
  : list float -> float -> Prop :=
  | sum_of_nil : forall z, is_zero z = true -> sum_of add [] z
  | sum_of_one : forall x, sum_of add [x] x
  | sum_of_add : forall l1 l2 s1 s2,
      sum_of add l1 s1 -> sum_of add l2 s2 ->
      sum_of add (l1 ++ l2) (add s1 s2)
  | sum_of_perm : forall l l' s,
      Permutation l l' -> sum_of add l s -> sum_of add l' s.

(** The terms that a reduction builds: the values of the array, the
    starting value 0, and additions. *)
Inductive sumtree (A : Type) :=
  | Leaf (a : A)
  | Start
  | Plus (t1 t2 : sumtree A).
Arguments Leaf {A} a.
Arguments Start {A}.
Arguments Plus {A} t1 t2.

Fixpoint leaves {A : Type} (t : sumtree A) : list A :=
  match t with
  | Leaf a => [a]
  | Start => []
  | Plus t1 t2 => leaves t1 ++ leaves t2
  end.

Fixpoint eval {A : Type} (add : float -> float -> float) (v : A -> float)
  (t : sumtree A) : float :=
  match t with
  | Leaf a => v a
  | Start => fzero
  | Plus t1 t2 => add (eval add v t1) (eval add v t2)
  end.

(** The name of the daily file of a day of the month of [period_dt]. *)
Definition daily_name (period_dt : datetime) (day : Z) : string :=
  ("no2_data_"
   ++ strftime_Y_m_d {| year := year period_dt; month := month period_dt;
                        day := day |}
   ++ ".tif")%string.

(** The name of the monthly composite of a period. *)
Definition monthly_name (period_str : string) : string :=
  ("no2_data_" ++ period_str ++ ".tif")%string.

Definition april_2021 : datetime := {| year := 2021; month := 4; day := 1 |}.

(** A polygon that covers every pixel. *)
Definition whole_grid : polygon := fun _ => true.

(** A folder with one file. *)
Definition one_file (name : string) (f : file) : folder :=
  fun n => if String.eqb n name then Some f else None.

(** A raster of one row. *)
Definition row_raster (px : list float) (nd : option float) : raster :=
  {| pixels := px; shape := (1%nat, List.length px); nodata := nd |}.

(** The defined zonal means of the days of a list, in the order of the
    days. *)
Definition defined_means (coord_polygon : polygon) (period_dt : datetime)
  (daily_data_folder : folder) (days : list Z) : list float :=
  flat_map
    (fun day =>
       match daily_mean coord_polygon period_dt daily_data_folder day with
       | Some m => [m]
       | None => []
       end)
    days.

(** The days whose raster file exists. *)
Definition days_with_file (period_dt : datetime)
  (daily_data_folder : folder) (days : list Z) : list Z :=
  filter
    (fun day =>
       match daily_data_folder (daily_name period_dt day) with
       | Some _ => true
       | None => false
       end)
    days.

(** The formats of the specification: ["YYYY_MM"] and ["YYYY-MM"] are four
    digits, the separator and two digits; a bare year is four digits. *)
Definition format_period (sep : ascii) (y m : Z) : string :=
  (zfill 4 y ++ String sep (zfill 2 m))%string.

(** The character at which a period string is cut: the underscore if it
    has one, else the dash if it has one. *)
Definition separator_of (s : string) : option ascii :=
  if contains "_" s then Some "_"%char
  else if contains "-" s then Some "-"%char
  else None.

(** Every character is a decimal digit. *)
Definition all_digits (s : string) : bool :=
  forallb (fun a => match digit_val a with Some _ => true | None => false end)
    (list_ascii_of_string s).

(** [s] has the format ["YYYY_MM"] (or ["YYYY-MM"], by [sep]). *)
Definition is_YYYY_sep_MM (sep : ascii) (s : string) : bool :=
  match split sep s with
  | [y; m] =>
      all_digits y && (String.length y =? 4)%nat
      && all_digits m && (String.length m =? 2)%nat
  | _ => false
  end.

(** [s] is a bare year of four digits. *)
Definition is_bare_year (s : string) : bool :=
  all_digits s && (String.length s =? 4)%nat.

(** A range of integers, for checks by enumeration. *)
Definition Z_range (lo n : Z) : list Z :=
  map (fun k => lo + Z.of_nat k) (seq 0 (Z.to_nat n)).

(** A field of [w] digits is read back by [int()] and holds no
    separator. *)
Definition field_ok (w : nat) (z : Z) : bool :=
  match int_of_str (zfill w z) with
  | Ok z' => z' =? z
  | Raise _ => false
  end
  && negb (contains "_" (zfill w z))
  && negb (contains "-" (zfill w z))
  && (String.length (zfill w z) =? w)%nat
  && all_digits (zfill w z).

(** The series 10, 10, 10 of the specification. *)
Definition ten_thrice : list float := map F64.of_Z [10; 10; 10].

(** The daily folder of the scenario of the specification: three days of
    April 2019 and of April 2021, the zonal mean of each being 10. *)
Definition tens_folder : folder :=
  fun n =>
    if existsb (String.eqb n)
         ["no2_data_2019-04-01.tif"; "no2_data_2019-04-02.tif";
          "no2_data_2019-04-03.tif"; "no2_data_2021-04-01.tif";
          "no2_data_2021-04-02.tif"; "no2_data_2021-04-03.tif"]%string
    then Some (Readable (row_raster [F32.of_Z 10] (Some nodata_value)))
    else None.

Definition april_2019 : datetime := {| year := 2019; month := 4; day := 1 |}.

(** Two groups of unequal size and variance. *)
Definition one_two_three : list float := map F64.of_Z [1; 2; 3].

Definition ten_to_forty : list float := map F64.of_Z [10; 20; 30; 40].

(** Every numeric field of a verdict is finite. *)
Definition verdict_finite (v : verdict) : bool :=
  is_finite (p_value v)
  && match details v with
     | None => true
     | Some d =>
         is_finite (t_statistic d) && is_finite (target_mean d)
         && is_finite (baseline_mean d) && is_finite (target_std d)
         && is_finite (baseline_std d) && is_finite (percent_change d)
         && is_finite (cohens_d d)
     end.

(** The percent change of a group of mean [x] against a group of mean
    [y]. *)
Definition percent_of (x y : float) : float :=
  F64.mul (F64.div (F64.sub x y) y) (F64.of_Z 100).

(** The target and baseline series of the end-to-end scenario of the
    specification. *)
Definition spec_target : list float := map F64.of_Z [10; 12; 11; 13; 9].

Definition spec_baseline : list float := map F64.of_Z [20; 22; 19; 21; 20].

(** A series of negative values. *)
Definition minus_three_to_minus_one : list float := map F64.of_Z [-3; -2; -1].

(** The sign of [y] is the opposite of the sign of [x] (two zeros
    count). *)
Definition sign_negated (x y : float) : bool :=
  (is_zero x && is_zero y)
  || match signbit x, signbit y with
     | Some a, Some b => xorb a b
     | _, _ => false
     end.

(** The mean of a list of [float32] values, added in turn, in
    [float32]. *)
Definition mean32 (l : list float) : float :=
  F32.div (fold_left F32.add l fzero) (F32.of_nat (List.length l)).

(** The number of samples [n] is a positive finite [float32]. *)
Definition small_count_is_finite (n : nat) : bool :=
  match F32.of_nat n with
  | S754_finite false _ _ => true
  | _ => false
  end.

(** A daily sample is missing when it is NaN or the nodata value of its
    file. *)
Definition is_missing (src : raster) (v : float) : bool :=
  is_nan v
  || match nodata src with
     | Some nd => feqb v (F32.of_f64 nd)
     | None => false
     end.

(** The samples of pixel [i] that count, following the specification: the
    pixel of each daily grid, in the order of the grids, where it is not
    missing. *)
Definition valid_samples (i : nat) (srcs : list raster) : list float :=
  map (fun src => nth i (pixels src) fnan)
    (filter (fun src => negb (is_missing src (nth i (pixels src) fnan)))
       srcs).

(** All the files of the month can be read and have the shape [shp]. *)
Definition all_readable (shp : nat * nat) (files : list (datetime * file))
  : bool :=
  forallb
    (fun f => match snd f with
              | Readable r => shape_eqb (shape r) shp
              | Unreadable => false
              end)
    files.

(** The nodata value as it is stored in the [float32] composite. *)
Definition sentinel32 : float := F32.of_Z (-9999).

(** The daily files of a month, each holding the given raster. *)
Definition month_of (year month days : Z) (r : raster)
  : list (datetime * file) :=
  map (fun d => ({| year := year; month := month; day := d |}, Readable r))
    (Z_range 1 days).

(** ** Further functions of the pipeline: file names and dates *)

(** [s.startswith(p)]. *)
Definition startswith (p s : string) : bool := prefix p s.

(** [s.endswith(p)]. *)
Definition endswith (p s : string) : bool :=
  (String.length p <=? String.length s)%nat
  && String.eqb
       (substring (String.length s - String.length p) (String.length p) s) p.

(** [s.replace(old, new)] for a non-empty [old]: the occurrences of [old]
    are replaced from left to right; [skip] counts the characters of an
    occurrence that are still to be passed over. *)
Fixpoint replace_from (old new : string) (skip : nat) (s : string)
  : string :=
  match s with
  | EmptyString => EmptyString
  | String a r =>
      match skip with
      | S k => replace_from old new k r
      | O =>
          if prefix old s
          then (new ++ replace_from old new (String.length old - 1) r)%string
          else String a (replace_from old new 0 r)
      end
  end.

Definition str_replace (old new s : string) : string :=
  replace_from old new 0 s.

(** The character lies between two characters, bounds included. *)
Definition char_between (lo hi a : ascii) : bool :=
  ((nat_of_ascii lo <=? nat_of_ascii a)
   && (nat_of_ascii a <=? nat_of_ascii hi))%nat.

(** The fields that [strptime] accepts for [%Y], [%m] and [%d]: four
    digits; 1..12 with an optional leading zero; 1..31 with an optional
    leading zero or space. *)
Definition year_field (s : string) : bool :=
  match list_ascii_of_string s with
  | [a; b; c; d] =>
      char_between "0" "9" a && char_between "0" "9" b
      && char_between "0" "9" c && char_between "0" "9" d
  | _ => false
  end.

Definition month_field (s : string) : bool :=
  match list_ascii_of_string s with
  | [a] => char_between "1" "9" a
  | [a; b] =>
      (Ascii.eqb a "1" && char_between "0" "2" b)
      || (Ascii.eqb a "0" && char_between "1" "9" b)
  | _ => false
  end.

Definition day_field (s : string) : bool :=
  match list_ascii_of_string s with
  | [a] => char_between "1" "9" a
  | [a; b] =>
      (Ascii.eqb a "3" && char_between "0" "1" b)
      || (char_between "1" "2" a && char_between "0" "9" b)
      || (Ascii.eqb a "0" && char_between "1" "9" b)
      || (Ascii.eqb a " " && char_between "1" "9" b)
  | _ => false
  end.

(** [datetime.strptime(date_str, '%Y-%m-%d')]: the whole string has to be
    a year, a month and a day field separated by dashes, and the date has
    to exist; ValueError otherwise.  No field holds a dash, so the fields
    are the parts of the string between the dashes. *)
Definition strptime_Y_m_d (date_str : string) : exc datetime :=
  match split "-" date_str with
  | [y; m; d] =>
      if year_field y && month_field m && day_field d then
        yi <- int_of_str y ;;
        mi <- int_of_str m ;;
        di <- int_of_str d ;;
        mk_datetime yi mi di
      else Raise ValueError
  | _ => Raise ValueError
  end.

(** ** postprocess_data.py: grouping the daily files by month *)

(** The names that [glob("no2_data_*.tif")] matches. *)
Definition glob_daily (name : string) : bool :=
  startswith "no2_data_" name && endswith ".tif" name
  && (13 <=? String.length name)%nat.

(** The date in the name of a daily file. *)
Definition date_of_filename (filename : string) : exc datetime :=
  let date_str :=
    str_replace ".tif" "" (str_replace "no2_data_" "" filename) in
  strptime_Y_m_d date_str.

(** The key [f"{date.year}_{date.month:02d}"] of a month. *)
Definition year_month_key (date : datetime) : string :=
  (str_of_int (year date) ++ "_" ++ zfill 2 (month date))%string.

(** [monthly_groups[year_month].append(x)] on the dictionary of lists, in
    insertion order of the keys. *)
Fixpoint group_append (year_month : string) (x : datetime * file)
  (monthly_groups : list (string * list (datetime * file)))
  : list (string * list (datetime * file)) :=
  match monthly_groups with
  | [] => [(year_month, [x])]
  | (k, l) :: r =>
      if String.eqb k year_month then (k, l ++ [x]) :: r
      else (k, l) :: group_append year_month x r
  end.

(** The loop over the daily files: a file whose name holds no date is
    skipped. *)
Fixpoint group_loop (tiff_files : list (string * file))
  (monthly_groups : list (string * list (datetime * file)))
  : list (string * list (datetime * file)) :=
  match tiff_files with
  | [] => monthly_groups
  | (filename, f) :: rest =>
      match date_of_filename filename with
      | Ok date =>
          group_loop rest
            (group_append (year_month_key date) (date, f) monthly_groups)
      | Raise _ => group_loop rest monthly_groups
      end
  end.

(** Insertion into a list sorted by name, for [sorted] on paths and on
    keys. *)
Fixpoint insert_by_name {A : Type} (x : string * A) (l : list (string * A))
  : list (string * A) :=
  match l with
  | [] => [x]
  | y :: r =>
      if String.leb (fst y) (fst x) then y :: insert_by_name x r
      else x :: l
  end.

Definition sorted_by_name {A : Type} (l : list (string * A))
  : list (string * A) :=
  fold_left (fun acc x => insert_by_name x acc) l [].

(** [year, month = map(int, year_month.split('_'))]. *)
Definition parse_year_month (year_month : string) : exc (Z * Z) :=
  match split "_" year_month with
  | [y; m] =>
      yi <- int_of_str y ;;
      mi <- int_of_str m ;;
      Ok (yi, mi)
  | _ => Raise ValueError
  end.

(** The loop over the sorted keys of [monthly_groups]. *)
Fixpoint month_loop (require_all_days : bool)
  (monthly_groups : list (string * list (datetime * file)))
  (created_files : list ((Z * Z) * raster))
  : exc (list ((Z * Z) * raster)) :=
  match monthly_groups with
  | [] => Ok created_files
  | (year_month, daily_files) :: rest =>
      ym <- parse_year_month year_month ;;
      match aggregate_month require_all_days ym daily_files with
      | None => month_loop require_all_days rest created_files
      | Some r =>
          month_loop require_all_days rest (created_files ++ [(ym, r)])
      end
  end.

(** [aggregate_daily_to_monthly] from the content of the daily folder. *)
Definition aggregate_daily_folder (daily_folder : list (string * file))
  (require_all_days : bool) : exc (list ((Z * Z) * raster)) :=
  let tiff_files :=
    sorted_by_name (filter (fun nf => glob_daily (fst nf)) daily_folder) in
  let monthly_groups := group_loop tiff_files [] in
  month_loop require_all_days (sorted_by_name monthly_groups) [].

(** A field of [w] digits is accepted by [field] and holds neither of the
    characters that start the two parts stripped from a file name. *)
Definition date_field_ok (w : nat) (field : string -> bool) (z : Z) : bool :=
  field (zfill w z)
  && negb (contains "n" (zfill w z))
  && negb (contains "." (zfill w z)).

(** The decimal form of a year is read back by [int()] and holds no
    underscore. *)
Definition year_key_ok (z : Z) : bool :=
  match int_of_str (str_of_int z) with
  | Ok z' => z' =? z
  | Raise _ => false
  end
  && negb (contains "_" (str_of_int z)).

(** A group of the dictionary is sound for the files [tiff_files]: it is
    not empty, and each of its entries is a file of [tiff_files] whose
    name holds the date of the entry, a date of the month of the key. *)
Definition group_sound (tiff_files : list (string * file))
  (g : string * list (datetime * file)) : Prop :=
  snd g <> []
  /\ Forall
       (fun df =>
          year_month_key (fst df) = fst g
          /\ exists filename,
               In (filename, snd df) tiff_files
               /\ date_of_filename filename = Ok (fst df))
       (snd g).

(** The number of entries of all the groups. *)
Definition group_sizes (groups : list (string * list (datetime * file)))
  : nat :=
  list_sum (map (fun g => List.length (snd g)) groups).

(** The name holds a date. *)
Definition has_date (nf : string * file) : bool :=
  match date_of_filename (fst nf) with
  | Ok _ => true
  | Raise _ => false
  end.

(** ** Notions used in the further statements *)

(** The baseline periods resolved in turn; the first failure is the
    error. *)
Fixpoint resolve_all (target_dt : datetime) (baseline_periods : list pyval)
  : exc (list datetime) :=
  match baseline_periods with
  | [] => Ok []
  | p :: rest =>
      dt <- resolve_baseline target_dt p ;;
      dts <- resolve_all target_dt rest ;;
      Ok (dt :: dts)
  end.

(** The periods of the [baseline_period] argument. *)
Definition periods_of (baseline_period : baseline_arg) : list pyval :=
  match baseline_period with
  | Several ps => ps
  | Single p => [p]
  end.

(** The daily series of a month, empty when the month has none. *)
Definition series_of (coord_polygon : polygon) (daily_data_folder : folder)
  (dt : datetime) : list float :=
  match _extract_daily_no2_for_month coord_polygon dt daily_data_folder with
  | Some l => l
  | None => []
  end.

(** The month has a daily series. *)
Definition has_series (coord_polygon : polygon) (daily_data_folder : folder)
  (dt : datetime) : bool :=
  match _extract_daily_no2_for_month coord_polygon dt daily_data_folder with
  | Some _ => true
  | None => false
  end.

(** The baseline periods of a month are strings that parse to the first
    day of the same month of 2019 or 2020, before the COVID era. *)
Definition baselines_ok (m : Z) : bool :=
  forallb
    (fun p =>
       negb (String.length (py_str p) =? 4)%nat
       && match _parse_period p with
          | Ok dt =>
              (month dt =? m) && (day dt =? 1)
              && ((year dt =? 2019) || (year dt =? 2020))
              && negb (is_covid_era (year dt) (month dt))
          | Raise _ => false
          end)
    (get_baseline_periods m).

(** A date is the first day of month [m] of 2019 or 2020, before the
    COVID era. *)
Definition pre_covid_month (m : Z) (dt : datetime) : Prop :=
  month dt = m /\ day dt = 1
  /\ (year dt = 2019 \/ year dt = 2020)
  /\ is_covid_era (year dt) (month dt) = false.

(** ** The download tree and the two copy functions *)

(** An entry of a directory: a file with its content, or a directory. *)
#[local] Unset Elimination Schemes.
Inductive entry :=
  | EFile (f : file)
  | EDir (children : list (string * entry)).
#[local] Set Elimination Schemes.

Definition is_dir (e : entry) : bool :=
  match e with
  | EDir _ => true
  | EFile _ => false
  end.

(** [dir / name], when it exists. *)
Fixpoint child (name : string) (children : list (string * entry))
  : option entry :=
  match children with
  | [] => None
  | (n, e) :: r => if String.eqb n name then Some e else child name r
  end.

(** [d[k] = v] on a dictionary in insertion order. *)
Fixpoint dict_set (k v : string) (d : list (string * string))
  : list (string * string) :=
  match d with
  | [] => [(k, v)]
  | (k', v') :: r =>
      if String.eqb k' k then (k', v) :: r else (k', v') :: dict_set k v r
  end.

(** The state of a copy: the dictionary [tiff_files] and the files
    written into the output folder, in the order of the writes. *)
Record copy_state := {
  tiff_files : list (string * string);
  written : list (string * file)
}.

(** The name of the flat daily file of a date directory. *)
Definition flat_name (date_str : string) : string :=
  ("no2_data_" ++ date_str ++ ".tif")%string.

(** What is found for a date directory after the check of its
    sub-directories: the [response.tiff] of its only sub-directory. *)
Inductive response :=
  | NotOneSubdirectory
  | NoResponse
  | ResponseFile (f : file)
  | ResponseIsDirectory.

Definition find_response (date_dir : entry) : response :=
  match date_dir with
  | EFile _ => NotOneSubdirectory
  | EDir children =>
      match filter (fun ne => is_dir (snd ne)) children with
      | [(_, EDir hash_children)] =>
          match child "response.tiff" hash_children with
          | None => NoResponse
          | Some (EFile f) => ResponseFile f
          | Some (EDir _) => ResponseIsDirectory
          end
      | _ => NotOneSubdirectory
      end
  end.

(** The body of the loop of [copy_daily_tiffs] (postprocess_data.py) for
    one entry of the download folder.  [shutil.copy] of a directory
    raises, which is caught; the dictionary is updated after the copy. *)
Definition copy_daily_step (st : copy_state) (date_dir : string * entry)
  : copy_state :=
  let '(date_str, e) := date_dir in
  if negb (is_dir e) then st
  else
    match strptime_Y_m_d date_str with
    | Raise _ => st
    | Ok _ =>
        match find_response e with
        | ResponseFile f =>
            {| tiff_files :=
                 dict_set date_str (flat_name date_str) (tiff_files st);
               written := written st ++ [(flat_name date_str, f)] |}
        | _ => st
        end
    end.

Definition copy_daily_tiffs (download_folder : list (string * entry))
  : copy_state :=
  fold_left copy_daily_step (sorted_by_name download_folder)
    {| tiff_files := []; written := [] |}.

(** The body of the loop of [copy_cdse_responses_into_one_dir]
    (data_utils.py): the name of the directory is not checked, and the
    dictionary is updated before the copy. *)
Definition copy_cdse_step (st : copy_state) (date_dir : string * entry)
  : copy_state :=
  let '(date_str, e) := date_dir in
  if negb (is_dir e) then st
  else
    match find_response e with
    | ResponseFile f =>
        {| tiff_files :=
             dict_set date_str (flat_name date_str) (tiff_files st);
           written := written st ++ [(flat_name date_str, f)] |}
    | ResponseIsDirectory =>
        {| tiff_files :=
             dict_set date_str (flat_name date_str) (tiff_files st);
           written := written st |}
    | _ => st
    end.

Definition copy_cdse_responses_into_one_dir
  (base_dir : list (string * entry)) : copy_state :=
  fold_left copy_cdse_step (sorted_by_name base_dir)
    {| tiff_files := []; written := [] |}.

(** ** calculate_city_data.py: the periods of the daily folder *)

(** The period of a file of the daily folder: the name without its two
    fixed parts, and for a dashed date its first two fields joined by an
    underscore. *)
Definition period_of_filename (filename : string) : string :=
  let period_str :=
    str_replace ".tif" "" (str_replace "no2_data_" "" filename) in
  if contains "-" period_str && (7 <=? String.length period_str)%nat then
    match split "-" period_str with
    | year :: month :: _ => (year ++ "_" ++ month)%string
    | _ => period_str
    end
  else period_str.

(** The files of the daily folder that the city step lists. *)
Definition listed_daily (f : string) : bool :=
  startswith "no2_data_" f && endswith ".tif" f.

(** Insertion into a sorted list of strings. *)
Fixpoint insert_string (x : string) (l : list string) : list string :=
  match l with
  | [] => [x]
  | y :: r => if String.leb y x then y :: insert_string x r else x :: l
  end.

(** [sorted(list(date_periods))] for the set [date_periods] of the periods
    of the files [no2_data_*.tif] of the folder. *)
Definition date_periods (no2_daily_folder : list string) : list string :=
  fold_left (fun acc x => insert_string x acc)
    (nodup string_dec
       (map period_of_filename
          (filter listed_daily no2_daily_folder)))
    [].

(** The directory gives a file to copy, for [copy_daily_tiffs]: it has a
    date for its name and the [response.tiff] of its only sub-directory is
    the file [f]. *)
Definition daily_source (date_dir : string * entry) (f : file) : Prop :=
  (exists date, strptime_Y_m_d (fst date_dir) = Ok date)
  /\ find_response (snd date_dir) = ResponseFile f.

(** [tiff_path.exists()] for the [response.tiff] that was looked up. *)
Definition response_exists (r : response) : bool :=
  match r with
  | ResponseFile _ | ResponseIsDirectory => true
  | NotOneSubdirectory | NoResponse => false
  end.

(** A download folder with one day of data, one directory that is not
    named after a date, and one directory whose [response.tiff] is itself
    a directory. *)
Definition sample_download : list (string * entry) :=
  [ ("notes", EDir [("h", EDir [("response.tiff", EFile Unreadable)])]);
    ("2021-04-02", EDir [("h", EDir [("response.tiff", EDir [])])]);
    ("2021-04-01",
     EDir [("h",
            EDir [("response.tiff",
                   EFile (Readable (row_raster [F32.of_Z 10] None)))])]) ]
  %string.

(** A year before 1000, as [%Y] prints it, is no year field for
    [strptime] and holds none of the characters the names are cut at. *)
Definition short_year_ok (z : Z) : bool :=
  negb (year_field (str_of_int z))
  && negb (contains "-" (str_of_int z))
  && negb (contains "n" (str_of_int z))
  && negb (contains "." (str_of_int z)).

(** The name of the daily file of a date, the year written with four
    digits: [no2_data_YYYY-MM-DD.tif]. *)
Definition padded_daily_name (y m d : Z) : string :=
  flat_name (zfill 4 y ++ "-" ++ zfill 2 m ++ "-" ++ zfill 2 d).

(** The decimal form of a year holds no dash. *)
Definition dashless_year (z : Z) : bool :=
  negb (contains "-" (str_of_int z)).

(** A year of four digits is written alike by [str] and by [%Y]. *)
Definition four_digit_year (z : Z) : bool :=
  String.eqb (str_of_int z) (zfill 4 z).

(** The strings are in ascending order. *)
Fixpoint ascending (l : list string) : Prop :=
  match l with
  | a :: (b :: _) as r => String.leb a b = true /\ ascending r
  | _ => True
  end.

(** The characters that are stripped from a file name are not in a date
    field. *)
Definition stripped_char (c : ascii) : Prop := c = "n"%char \/ c = "."%char.

(** * Properties *)

(** ** Facts on floating-point values *)

Lemma same_value_refl : forall x, same_value x x.
Proof. intro x; left; reflexivity. Qed.

Lemma same_value_sym : forall x y, same_value x y -> same_value y x.
Proof. intros x y [H|[H1 H2]]; [left; auto | right; auto]. Qed.

Lemma same_value_trans :
  forall x y z, same_value x y -> same_value y z -> same_value x z.
Proof.
  intros x y z [H|[H1 H2]] [H'|[H1' H2']]; subst.
  - left; reflexivity.
  - right; auto.
  - right; auto.
  - right; auto.
Qed.

Lemma same_value_is_nan :
  forall x y, same_value x y -> is_nan x = is_nan y.
Proof.
  intros x y [H|[H1 H2]]; [subst; reflexivity|].
  destruct x, y; simpl in *; congruence.
Qed.

Section FloatFacts.

Variables prec emax : Z.

(** Adding the zero that fills a masked entry does not change the value
    of a sum. *)
Lemma SFadd_zero_r :
  forall x, same_value (SFadd prec emax x fzero) x.
Proof.
  intros [[|]| | |s m e]; simpl; try (left; reflexivity).
  right; split; reflexivity.
Qed.

Lemma SFadd_same_value_l :
  forall a a' x, same_value a a' ->
    same_value (SFadd prec emax a x) (SFadd prec emax a' x).
Proof.
  intros a a' x [H|[H1 H2]]; [subst; apply same_value_refl|].
  destruct a as [sa| | |]; try discriminate.
  destruct a' as [sa'| | |]; try discriminate.
  destruct x as [sx| | |]; simpl; try (left; reflexivity).
  right; destruct sa, sa', sx; split; reflexivity.
Qed.

Lemma SFdiv_same_value_l :
  forall a a' c, same_value a a' ->
    same_value (SFdiv prec emax a c) (SFdiv prec emax a' c).
Proof.
  intros a a' c [H|[H1 H2]]; [subst; apply same_value_refl|].
  destruct a as [sa| | |]; try discriminate.
  destruct a' as [sa'| | |]; try discriminate.
  destruct c as [sc| | |]; simpl; try (left; reflexivity);
    right; split; reflexivity.
Qed.

(** A sum in which the excluded entries are filled with zero has the value
    of the sum of the entries that are kept. *)
Lemma sum_filled_same_value :
  forall (A : Type) (excluded : A -> bool) (v : A -> float) (l : list A)
         (a a' : float),
    same_value a a' ->
    same_value
      (fold_left (SFadd prec emax)
         (map (fun x => if excluded x then fzero else v x) l) a)
      (fold_left (SFadd prec emax)
         (map v (filter (fun x => negb (excluded x)) l)) a').
Proof.
  intros A excluded v l; induction l as [|x l IH]; intros a a' Ha; simpl.
  - exact Ha.
  - destruct (excluded x); simpl.
    + apply IH. eapply same_value_trans; [apply SFadd_zero_r | exact Ha].
    + apply IH. apply SFadd_same_value_l; exact Ha.
Qed.

End FloatFacts.

(** *** Symmetries of the operations *)

Section FloatSymmetry.

Variables prec emax : Z.

Lemma SFadd_comm :
  forall x y, SFadd prec emax x y = SFadd prec emax y x.
Proof.
  intros [[|]|[|]| |sx mx ex] [[|]|[|]| |sy my ey]; try reflexivity.
  simpl. rewrite (Z.min_comm ey ex). rewrite Z.add_comm. reflexivity.
Qed.

Lemma binary_round_aux_opp :
  forall s m e l,
    binary_round_aux prec emax (negb s) m e l
    = SFopp (binary_round_aux prec emax s m e l).
Proof.
  intros s m e l. unfold binary_round_aux.
  destruct (shr_fexp prec emax m e l) as [mrs' e'].
  destruct (shr_fexp prec emax _ e' loc_Exact) as [mrs'' e''].
  destruct (shr_m mrs''); try reflexivity.
  destruct (Z.leb e'' (emax - prec)); reflexivity.
Qed.

Lemma binary_round_opp :
  forall s m e,
    binary_round prec emax (negb s) m e
    = SFopp (binary_round prec emax s m e).
Proof.
  intros s m e. unfold binary_round.
  destruct (shl_align m e _) as [mz ez]. apply binary_round_aux_opp.
Qed.

(** Normalising the opposite mantissa gives the opposite value, or both
    are the zero of the given sign. *)
Lemma binary_normalize_opp :
  forall m e,
    (m <> 0 /\
     binary_normalize prec emax (- m) e false
     = SFopp (binary_normalize prec emax m e false))
    \/ (binary_normalize prec emax m e false = S754_zero false
        /\ binary_normalize prec emax (- m) e false = S754_zero false).
Proof.
  intros [|p|p] e.
  - right; split; reflexivity.
  - left; split; [discriminate|]. simpl.
    apply (binary_round_opp false).
  - left; split; [discriminate|]. simpl.
    rewrite (binary_round_opp false). destruct (binary_round _ _ _ _ _);
      simpl; rewrite ?negb_involutive; reflexivity.
Qed.

Lemma SFsub_swap :
  forall x y,
    same_value (SFsub prec emax y x) (SFopp (SFsub prec emax x y)).
Proof.
  intros [[|]|[|]| |sx mx ex] [[|]|[|]| |sy my ey]; simpl;
    try (left; reflexivity); try (right; split; reflexivity);
    try (left; rewrite ?negb_involutive; reflexivity).
  rewrite (Z.min_comm ey ex).
  set (a := cond_Zopp sx (Zpos (fst (shl_align mx ex (Z.min ex ey))))).
  set (b := cond_Zopp sy (Zpos (fst (shl_align my ey (Z.min ex ey))))).
  replace (b - a) with (- (a - b)) by lia.
  destruct (binary_normalize_opp (a - b) (Z.min ex ey)) as [[_ H]|[H1 H2]].
  - left; exact H.
  - right. rewrite H1, H2. split; reflexivity.
Qed.

Lemma SFdiv_opp_l :
  forall x y,
    SFdiv prec emax (SFopp x) y = SFopp (SFdiv prec emax x y).
Proof.
  intros [sx|sx| |sx mx ex] [sy|sy| |sy my ey]; simpl; try reflexivity;
    try (destruct sx, sy; reflexivity).
  destruct (SFdiv_core_binary prec emax (Zpos mx) ex (Zpos my) ey)
    as [[mz ez] lz].
  rewrite <- binary_round_aux_opp. destruct sx, sy; reflexivity.
Qed.

Lemma SFopp_same_value :
  forall x y, same_value x y -> same_value (SFopp x) (SFopp y).
Proof.
  intros x y [H|[H1 H2]]; [left; congruence|].
  right. destruct x, y; try discriminate. split; reflexivity.
Qed.

Lemma SFabs_opp_same_value :
  forall x y, same_value x (SFopp y) -> SFabs x = SFabs y.
Proof.
  intros x y [H|[H1 H2]].
  - subst. destruct y; reflexivity.
  - destruct x, y; try discriminate; reflexivity.
Qed.

(** *** The sign of a rounded result *)

Lemma iter_pos_invariant :
  forall (A : Type) (f : A -> A) (P : A -> Prop),
    (forall x, P x -> P (f x)) ->
    forall n x, P x -> P (iter_pos f n x).
Proof.
  intros A f P Hf n; induction n as [n IH|n IH|]; intros x Hx; simpl.
  - apply IH, IH, Hf, Hx.
  - apply IH, IH, Hx.
  - apply Hf, Hx.
Qed.

Lemma shr_1_nonneg :
  forall mrs, 0 <= shr_m mrs -> 0 <= shr_m (shr_1 mrs).
Proof.
  intros [m r s] H; simpl in *.
  destruct m as [|[p|p|]|[p|p|]]; simpl; lia.
Qed.

Lemma shr_fexp_nonneg :
  forall m e l, 0 <= m -> 0 <= shr_m (fst (shr_fexp prec emax m e l)).
Proof.
  intros m e l Hm. unfold shr_fexp, shr.
  assert (H0 : 0 <= shr_m (shr_record_of_loc m l))
    by (destruct l as [|[| |]]; exact Hm).
  destruct (fexp prec emax (Zdigits2 m + e) - e) as [|p|p]; simpl;
    try exact H0.
  apply (iter_pos_invariant _ shr_1 (fun mrs => 0 <= shr_m mrs));
    [exact shr_1_nonneg | exact H0].
Qed.

Lemma round_nearest_even_nonneg :
  forall m l, 0 <= m -> 0 <= round_nearest_even m l.
Proof.
  intros m [|[| |]] H; simpl; try lia.
  destruct (Z.even m); lia.
Qed.

(** Rounding a non-negative mantissa gives a zero, a finite value or an
    infinity of the requested sign, never NaN. *)
Lemma binary_round_aux_signbit :
  forall s m e l, 0 <= m ->
    signbit (binary_round_aux prec emax s m e l) = Some s.
Proof.
  intros s m e l Hm. unfold binary_round_aux.
  pose proof (shr_fexp_nonneg m e l Hm) as H1.
  destruct (shr_fexp prec emax m e l) as [mrs' e']. simpl in H1.
  pose proof (shr_fexp_nonneg
                (round_nearest_even (shr_m mrs') (loc_of_shr_record mrs'))
                e' loc_Exact
                (round_nearest_even_nonneg _ _ H1)) as H2.
  destruct (shr_fexp prec emax _ e' loc_Exact) as [mrs'' e'']. simpl in H2.
  destruct (shr_m mrs'') as [|p|p]; [reflexivity| |lia].
  destruct (Z.leb e'' (emax - prec)); reflexivity.
Qed.

Lemma binary_round_signbit :
  forall s m e, signbit (binary_round prec emax s m e) = Some s.
Proof.
  intros s m e. unfold binary_round.
  destruct (shl_align m e _) as [mz ez].
  apply binary_round_aux_signbit. lia.
Qed.

Lemma binary_normalize_not_nan :
  forall m e, is_nan (binary_normalize prec emax m e false) = false.
Proof.
  intros [|p|p] e; simpl; [reflexivity| |].
  - pose proof (binary_round_signbit false p e) as H.
    destruct (binary_round prec emax false p e); try discriminate;
      reflexivity.
  - pose proof (binary_round_signbit true p e) as H.
    destruct (binary_round prec emax true p e); try discriminate;
      reflexivity.
Qed.

Lemma SFdiv_core_nonneg :
  forall mx ex my ey,
    0 <= fst (fst (SFdiv_core_binary prec emax (Zpos mx) ex (Zpos my) ey)).
Proof.
  intros mx ex my ey. unfold SFdiv_core_binary.
  set (s := _ - _ - _).
  set (m' := match s with Z0 => Zpos mx | Zpos _ => Z.shiftl (Zpos mx) s
             | Zneg _ => 0 end).
  assert (Hm' : 0 <= m').
  { unfold m'. destruct s; try lia. apply Z.shiftl_nonneg. lia. }
  pose proof (Z.div_pos m' (Zpos my) Hm' ltac:(lia)) as Hq.
  unfold Z.div in Hq.
  destruct (Z.div_eucl m' (Zpos my)) as [q r]. exact Hq.
Qed.

Lemma SFdiv_signbit :
  forall x sx sy my ey,
    signbit x = Some sx ->
    signbit (SFdiv prec emax x (S754_finite sy my ey)) = Some (xorb sx sy).
Proof.
  intros [s|s| |s mx ex] sx sy my ey H; simpl in H; try discriminate;
    injection H as ->; try reflexivity.
  simpl. pose proof (SFdiv_core_nonneg mx ex my ey) as Hq.
  destruct (SFdiv_core_binary prec emax (Zpos mx) ex (Zpos my) ey)
    as [[mz ez] lz].
  apply binary_round_aux_signbit. exact Hq.
Qed.

Lemma SFmul_signbit :
  forall x sx sy my ey,
    signbit x = Some sx ->
    signbit (SFmul prec emax x (S754_finite sy my ey)) = Some (xorb sx sy).
Proof.
  intros [s|s| |s mx ex] sx sy my ey H; simpl in H; try discriminate;
    injection H as ->; try reflexivity.
  simpl. apply binary_round_aux_signbit. lia.
Qed.

Lemma SFdiv_zero_l :
  forall x sy my ey, is_zero x = true ->
    is_zero (SFdiv prec emax x (S754_finite sy my ey)) = true.
Proof. intros [s| | |] sy my ey H; try discriminate; reflexivity. Qed.

Lemma SFmul_zero_l :
  forall x sy my ey, is_zero x = true ->
    is_zero (SFmul prec emax x (S754_finite sy my ey)) = true.
Proof. intros [s| | |] sy my ey H; try discriminate; reflexivity. Qed.

Lemma SFsub_finite_not_nan :
  forall sx mx ex sy my ey,
    is_nan (SFsub prec emax (S754_finite sx mx ex) (S754_finite sy my ey))
    = false.
Proof. intros. simpl. apply binary_normalize_not_nan. Qed.

End FloatSymmetry.

(** ** Sums in numpy's order, and in any order *)

Section ReduceMap.

Context {T U : Type}.
Variables (add : T -> T -> T) (zero : T).
Variables (add' : U -> U -> U) (zero' : U).
Variable h : T -> U.
Hypothesis h_add : forall x y, h (add x y) = add' (h x) (h y).
Hypothesis h_zero : h zero = zero'.

Lemma add_each_map :
  forall r a, map h (add_each add r a) = add_each add' (map h r) (map h a).
Proof.
  induction r as [|x r IH]; intros [|y a]; cbn [add_each map];
    try reflexivity.
  rewrite h_add, IH. reflexivity.
Qed.

Lemma fold_left_map :
  forall l acc, h (fold_left add l acc) = fold_left add' (map h l) (h acc).
Proof.
  induction l as [|x l IH]; intro acc; cbn [fold_left map]; [reflexivity|].
  rewrite IH, h_add. reflexivity.
Qed.

Lemma unrolled_map :
  forall n a r, (List.length a <= n)%nat ->
    unrolled add' (map h r) (map h a)
    = (map h (fst (unrolled add r a)), map h (snd (unrolled add r a))).
Proof.
  induction n as [|n IH]; intros a r Hn;
    destruct a as [|a0 [|a1 [|a2 [|a3 [|a4 [|a5 [|a6 [|a7 rest]]]]]]]];
    try reflexivity; cbn [List.length] in Hn; try lia.
  cbn [unrolled map].
  change [h a0; h a1; h a2; h a3; h a4; h a5; h a6; h a7]
    with (map h [a0; a1; a2; a3; a4; a5; a6; a7]).
  rewrite <- add_each_map. apply IH. lia.
Qed.

Lemma block_sum_map :
  forall a, h (block_sum add zero a) = block_sum add' zero' (map h a).
Proof.
  intro a.
  destruct a as [|a0 [|a1 [|a2 [|a3 [|a4 [|a5 [|a6 [|a7 rest]]]]]]]];
    try (unfold block_sum; rewrite fold_left_map, h_zero; reflexivity).
  unfold block_sum. cbn [map].
  change [h a0; h a1; h a2; h a3; h a4; h a5; h a6; h a7]
    with (map h [a0; a1; a2; a3; a4; a5; a6; a7]).
  rewrite (unrolled_map (List.length rest)) by lia.
  destruct (unrolled add [a0; a1; a2; a3; a4; a5; a6; a7] rest)
    as [r' left_over].
  cbn [fst snd].
  destruct r' as [|r0 [|r1 [|r2 [|r3 [|r4 [|r5 [|r6 [|r7 [|r8 more]]]]]]]]];
    cbn [map]; try (exact h_zero).
  rewrite fold_left_map, !h_add. reflexivity.
Qed.

Lemma pairwise_sum_map :
  forall fuel a,
    h (pairwise_sum add zero fuel a)
    = pairwise_sum add' zero' fuel (map h a).
Proof.
  induction fuel as [|fuel IH]; intro a; cbn [pairwise_sum];
    [apply block_sum_map|].
  rewrite length_map.
  destruct (List.length a <=? 128)%nat; [apply block_sum_map|].
  rewrite h_add, !IH, firstn_map, skipn_map. reflexivity.
Qed.

Lemma add_reduce_map :
  forall a, h (add_reduce add zero a) = add_reduce add' zero' (map h a).
Proof.
  intro a. unfold add_reduce.
  rewrite h_add, h_zero, pairwise_sum_map, length_map. reflexivity.
Qed.

End ReduceMap.

(** The reduction takes every value of the array once. *)
Section ReduceLeaves.

Context {A : Type}.

Lemma fold_left_app_concat :
  forall (ll : list (list A)) acc,
    fold_left (@app A) ll acc = acc ++ List.concat ll.
Proof.
  induction ll as [|l ll IH]; intro acc; cbn [fold_left List.concat].
  - rewrite app_nil_r. reflexivity.
  - rewrite IH, app_assoc. reflexivity.
Qed.

Lemma add_each_length :
  forall (r a : list (list A)),
    List.length (add_each (@app A) r a) = List.length r.
Proof.
  induction r as [|x r IH]; intros [|y a]; cbn [add_each List.length];
    try reflexivity.
  rewrite IH. reflexivity.
Qed.

Lemma add_each_concat :
  forall (r a : list (list A)), List.length r = List.length a ->
    Permutation (List.concat (add_each (@app A) r a))
      (List.concat r ++ List.concat a).
Proof.
  induction r as [|x r IH]; intros [|y a] Hl; cbn [add_each List.concat];
    try discriminate; [reflexivity|].
  rewrite (IH a) by (cbn in Hl; lia).
  rewrite <- !app_assoc. apply Permutation_app_head.
  rewrite !app_assoc. apply Permutation_app_tail.
  apply Permutation_app_comm.
Qed.

Lemma unrolled_concat :
  forall n (a r : list (list A)),
    (List.length a <= n)%nat -> List.length r = 8%nat ->
    List.length (fst (unrolled (@app A) r a)) = 8%nat
    /\ Permutation
         (List.concat (fst (unrolled (@app A) r a))
          ++ List.concat (snd (unrolled (@app A) r a)))
         (List.concat r ++ List.concat a).
Proof.
  induction n as [|n IH]; intros a r Hn Hr;
    destruct a as [|a0 [|a1 [|a2 [|a3 [|a4 [|a5 [|a6 [|a7 rest]]]]]]]];
    try (split; [exact Hr | reflexivity]); cbn [List.length] in Hn; try lia.
  cbn [unrolled].
  destruct (IH rest
              (add_each (@app A) r [a0; a1; a2; a3; a4; a5; a6; a7]))
    as [H8 Hp]; [lia | rewrite add_each_length; exact Hr |].
  split; [exact H8|].
  rewrite Hp.
  rewrite (add_each_concat r [a0; a1; a2; a3; a4; a5; a6; a7])
    by (rewrite Hr; reflexivity).
  change (a0 :: a1 :: a2 :: a3 :: a4 :: a5 :: a6 :: a7 :: rest)
    with ([a0; a1; a2; a3; a4; a5; a6; a7] ++ rest).
  rewrite concat_app, app_assoc. reflexivity.
Qed.

Lemma block_sum_concat :
  forall a : list (list A),
    Permutation (block_sum (@app A) [] a) (List.concat a).
Proof.
  intro a.
  destruct a as [|a0 [|a1 [|a2 [|a3 [|a4 [|a5 [|a6 [|a7 rest]]]]]]]];
    try (unfold block_sum; rewrite fold_left_app_concat; reflexivity).
  unfold block_sum.
  destruct (unrolled_concat (List.length rest) rest
              [a0; a1; a2; a3; a4; a5; a6; a7]) as [H8 Hp];
    [lia | reflexivity |].
  destruct (unrolled (@app A) [a0; a1; a2; a3; a4; a5; a6; a7] rest)
    as [r' left_over].
  cbn [fst snd] in *.
  destruct r' as [|r0 [|r1 [|r2 [|r3 [|r4 [|r5 [|r6 [|r7 [|r8 more]]]]]]]]];
    try discriminate.
  rewrite fold_left_app_concat.
  change (a0 :: a1 :: a2 :: a3 :: a4 :: a5 :: a6 :: a7 :: rest)
    with ([a0; a1; a2; a3; a4; a5; a6; a7] ++ rest).
  rewrite concat_app, <- Hp. apply Permutation_app_tail.
  cbn [List.concat]. rewrite app_nil_r, <- !app_assoc. reflexivity.
Qed.

Lemma pairwise_sum_concat :
  forall fuel (a : list (list A)),
    Permutation (pairwise_sum (@app A) [] fuel a) (List.concat a).
Proof.
  induction fuel as [|fuel IH]; intro a; cbn [pairwise_sum];
    [apply block_sum_concat|].
  destruct (List.length a <=? 128)%nat; [apply block_sum_concat|].
  rewrite !IH, <- concat_app, firstn_skipn. reflexivity.
Qed.

Lemma leaves_add_reduce :
  forall l : list A,
    Permutation (leaves (add_reduce Plus Start (map Leaf l))) l.
Proof.
  intro l.
  rewrite (add_reduce_map Plus Start (@app A) [] leaves)
    by reflexivity.
  unfold add_reduce. cbn [app].
  rewrite pairwise_sum_concat, map_map. cbn [leaves].
  induction l as [|a l IH]; [reflexivity|].
  cbn [map List.concat app]. constructor. exact IH.
Qed.

Lemma eval_add_reduce :
  forall add (v : A -> float) (l : list A),
    eval add v (add_reduce Plus Start (map Leaf l))
    = add_reduce add fzero (map v l).
Proof.
  intros add v l.
  rewrite (add_reduce_map Plus Start add fzero (eval add v))
    by reflexivity.
  rewrite map_map. reflexivity.
Qed.

End ReduceLeaves.

Section SumsInAnyOrder.

Variables prec emax : Z.

Lemma SFadd_zero :
  forall x z, is_zero z = true -> same_value (SFadd prec emax x z) x.
Proof.
  intros [[|]| | |s m e] [[|]| | |] Hz; try discriminate;
    try (left; reflexivity); right; split; reflexivity.
Qed.

Lemma SFadd_zeros :
  forall a b, is_zero a = true -> is_zero b = true ->
    is_zero (SFadd prec emax a b) = true.
Proof.
  intros [[|]| | |] [[|]| | |] Ha Hb; try discriminate; reflexivity.
Qed.

Lemma SFadd_same_value :
  forall a a' b b', same_value a a' -> same_value b b' ->
    same_value (SFadd prec emax a b) (SFadd prec emax a' b').
Proof.
  intros a a' b b' Ha Hb.
  apply (same_value_trans _ (SFadd prec emax a' b)).
  - apply SFadd_same_value_l. exact Ha.
  - rewrite (SFadd_comm prec emax a' b), (SFadd_comm prec emax a' b').
    apply SFadd_same_value_l. exact Hb.
Qed.

(** What a term adds up, with the excluded values taken as 0, is a sum of
    the values that are not excluded. *)
Lemma sumtree_sum_of :
  forall (A : Type) (excluded : A -> bool) (v : A -> float)
         (t : sumtree A),
    exists s,
      sum_of (SFadd prec emax)
        (map v (filter (fun a => negb (excluded a)) (leaves t))) s
      /\ same_value
           (eval (SFadd prec emax)
              (fun a => if excluded a then fzero else v a) t) s.
Proof.
  intros A excluded v t. induction t as [a| |t1 IH1 t2 IH2].
  - cbn [leaves filter eval]. destruct (excluded a); cbn [negb map].
    + exists fzero. split; [constructor; reflexivity | apply same_value_refl].
    + exists (v a). split; [constructor | apply same_value_refl].
  - exists fzero. split; [constructor; reflexivity | apply same_value_refl].
  - destruct IH1 as [s1 [H1 E1]]. destruct IH2 as [s2 [H2 E2]].
    exists (SFadd prec emax s1 s2). cbn [leaves eval].
    rewrite filter_app, map_app.
    split; [constructor; assumption | apply SFadd_same_value; assumption].
Qed.

Lemma Permutation_filter_map :
  forall (A : Type) (p : A -> bool) (v : A -> float) (l l' : list A),
    Permutation l l' ->
    Permutation (map v (filter p l)) (map v (filter p l')).
Proof.
  intros A p v l l' H. apply Permutation_map.
  induction H as [|x l l' H IH|x y l|l l' l'' H1 IH1 H2 IH2]; cbn [filter].
  - constructor.
  - destruct (p x); [constructor|]; exact IH.
  - destruct (p x), (p y); try reflexivity. apply perm_swap.
  - exact (perm_trans IH1 IH2).
Qed.

(** The sum of numpy over an array in which the excluded entries are 0 is,
    up to the sign of a zero, a sum of the entries that are not
    excluded. *)
Lemma add_reduce_sum_of :
  forall (A : Type) (excluded : A -> bool) (v : A -> float) (l : list A),
    exists s,
      sum_of (SFadd prec emax)
        (map v (filter (fun a => negb (excluded a)) l)) s
      /\ same_value
           (add_reduce (SFadd prec emax) fzero
              (map (fun a => if excluded a then fzero else v a) l)) s.
Proof.
  intros A excluded v l.
  destruct (sumtree_sum_of A excluded v
              (add_reduce Plus Start (map Leaf l))) as [s [Hs He]].
  exists s. split.
  - apply (sum_of_perm _ _ _ _
             (Permutation_filter_map A _ v _ _ (leaves_add_reduce l))).
    exact Hs.
  - rewrite eval_add_reduce in He. exact He.
Qed.

(** The same for the values added in turn. *)
Lemma fold_left_sum_of :
  forall (l : list float) acc l0,
    sum_of (SFadd prec emax) l0 acc ->
    sum_of (SFadd prec emax) (l0 ++ l) (fold_left (SFadd prec emax) l acc).
Proof.
  induction l as [|x l IH]; intros acc l0 H; cbn [fold_left].
  - rewrite app_nil_r. exact H.
  - replace (l0 ++ x :: l) with ((l0 ++ [x]) ++ l)
      by (rewrite <- app_assoc; reflexivity).
    apply IH. constructor; [exact H | constructor].
Qed.

Lemma sum_of_nil_zero :
  forall l s, sum_of (SFadd prec emax) l s -> l = [] -> is_zero s = true.
Proof.
  intros l s H.
  induction H as [z Hz|x|l1 l2 s1 s2 H1 IH1 H2 IH2|l l' s P H IH]; intro E.
  - exact Hz.
  - discriminate.
  - apply app_eq_nil in E as [E1 E2]. apply SFadd_zeros; auto.
  - subst l'. apply IH. apply Permutation_nil. symmetry. exact P.
Qed.

(** A sum of one value is that value. *)
Lemma sum_of_single :
  forall l s, sum_of (SFadd prec emax) l s ->
    forall x, l = [x] -> same_value s x.
Proof.
  intros l s H.
  induction H as [z Hz|y|l1 l2 s1 s2 H1 IH1 H2 IH2|l l' s P H IH];
    intros x E.
  - discriminate.
  - injection E as ->. apply same_value_refl.
  - destruct l1 as [|a l1].
    + cbn in E. subst l2.
      pose proof (sum_of_nil_zero _ _ H1 eq_refl) as Hz.
      rewrite SFadd_comm.
      apply (same_value_trans _ s2); [apply SFadd_zero; exact Hz|].
      apply IH2. reflexivity.
    + cbn in E. injection E as -> E. apply app_eq_nil in E as [-> ->].
      pose proof (sum_of_nil_zero _ _ H2 eq_refl) as Hz.
      apply (same_value_trans _ s1); [apply SFadd_zero; exact Hz|].
      apply IH1. reflexivity.
  - subst l'. apply IH. apply Permutation_length_1_inv.
    symmetry. exact P.
Qed.

(** A sum of values that are all the same infinity is that infinity. *)
Lemma sum_of_infinities :
  forall l s, sum_of (SFadd prec emax) l s ->
    forall sg, Forall (fun x => x = S754_infinity sg) l ->
      (l = [] /\ is_zero s = true) \/ (l <> [] /\ s = S754_infinity sg).
Proof.
  intros l s H.
  induction H as [z Hz|y|l1 l2 s1 s2 H1 IH1 H2 IH2|l l' s P H IH];
    intros sg Hall.
  - left. split; [reflexivity | exact Hz].
  - right. inversion Hall; subst. split; [discriminate | reflexivity].
  - apply Forall_app in Hall as [Ha1 Ha2].
    destruct (IH1 sg Ha1) as [[-> Z1]|[N1 ->]];
      destruct (IH2 sg Ha2) as [[-> Z2]|[N2 ->]].
    + left. split; [reflexivity | apply SFadd_zeros; assumption].
    + right. split; [exact N2|].
      destruct s1 as [[|]| | |]; try discriminate; reflexivity.
    + right. split; [rewrite app_nil_r; exact N1|].
      destruct s2 as [[|]| | |]; try discriminate; reflexivity.
    + right. split; [intro E; apply app_eq_nil in E; tauto|].
      destruct sg; reflexivity.
  - assert (Hall' : Forall (fun x => x = S754_infinity sg) l).
    { rewrite Forall_forall in *. intros x Hx. apply Hall.
      apply (Permutation_in _ P). exact Hx. }
    destruct (IH sg Hall') as [[-> Z]|[N ->]].
    + left. split; [apply Permutation_nil; exact P | exact Z].
    + right. split; [|reflexivity].
      intro E. subst l'. apply N. apply Permutation_nil.
      symmetry. exact P.
Qed.

End SumsInAnyOrder.

(** ** Small samples: the insufficient-data verdict *)

Lemma verdict_of_series_insufficient :
  forall stdtr format_3f format_2f target_daily baseline_daily_all
         target_dt baseline_dts alpha,
    match target_daily with
    | None => True
    | Some t =>
        (List.length t < 3)%nat \/ (List.length baseline_daily_all < 3)%nat
    end ->
    verdict_of_series stdtr format_3f format_2f target_daily
      baseline_daily_all target_dt baseline_dts alpha = insufficient_data.
Proof.
  intros stdtr f3 f2 [t|] b tdt dts alpha H; simpl; [|reflexivity].
  destruct (Nat.ltb_spec (List.length b) 3) as [Hb|Hb]; simpl; [reflexivity|].
  destruct (Nat.ltb_spec (List.length t) 3) as [Ht|Ht]; [reflexivity|].
  lia.
Qed.

(** C2: when the target series is absent or has fewer than 3 values, or
    the pooled baseline has fewer than 3 values, the function returns the
    insufficient-data verdict (p-value 1.0, not significant), whatever the
    other group is and whatever the t-distribution of the library is: the
    test is not run. *)
Theorem insufficient_data_sentinel :
  forall stdtr format_3f format_2f coord_polygon target_period
         baseline_period daily_data_folder alpha target_dt
         baseline_daily_all baseline_dts,
    _parse_period target_period = Ok target_dt ->
    baseline_loop coord_polygon target_dt daily_data_folder
      (match baseline_period with Several ps => ps | Single p => [p] end)
      [] [] = Ok (baseline_daily_all, baseline_dts) ->
    match _extract_daily_no2_for_month coord_polygon target_dt
            daily_data_folder with
    | None => True
    | Some target_daily =>
        (List.length target_daily < 3)%nat
        \/ (List.length baseline_daily_all < 3)%nat
    end ->
    calculate_no2_significance stdtr format_3f format_2f coord_polygon
      target_period baseline_period daily_data_folder alpha
    = Ok insufficient_data
    /\ p_value insufficient_data = F64.of_Z 1
    /\ significant insufficient_data = false
    /\ details insufficient_data = None.
Proof.
  intros stdtr f3 f2 poly tp bp fld alpha tdt b dts Hp Hb Hsmall.
  unfold calculate_no2_significance.
  rewrite Hp; simpl. rewrite Hb; simpl.
  rewrite verdict_of_series_insufficient by exact Hsmall.
  repeat split.
Qed.

Lemma insufficient_data_sentinel_witness :
  calculate_no2_significance (fun _ _ => fzero) (fun _ => ""%string)
    (fun _ => ""%string) (fun _ => true) (PyStr "2021_04")
    (Single (PyStr "2019")) empty_folder default_alpha
  = Ok insufficient_data
  /\ p_value insufficient_data = F64.of_Z 1
  /\ significant insufficient_data = false
  /\ details insufficient_data = None.
Proof.
  apply (insufficient_data_sentinel _ _ _ _ _ _ _ _
           {| year := 2021; month := 4; day := 1 |} [] []).
  - reflexivity.
  - reflexivity.
  - vm_compute. exact I.
Defined.

(** ** Zonal means: which pixels count *)

Lemma of_f32_same_value :
  forall x y, same_value x y -> same_value (F64.of_f32 x) (F64.of_f32 y).
Proof.
  intros x y [H|[H1 H2]]; [subst; apply same_value_refl|].
  destruct x, y; try discriminate. right. split; reflexivity.
Qed.

Lemma zonal_stats_counted :
  forall coord_polygon arr nodata,
    let counted :=
      counted_pixels coord_polygon arr (nodata_in_force nodata) in
    exists m,
      zonal_stats coord_polygon arr nodata = [ {| mean := m |} ]
      /\ (counted = [] -> m = None)
      /\ (counted <> [] ->
          exists v s,
            m = Some v
            /\ sum_of F32.add counted s
            /\ same_value v
                 (F64.div (F64.of_f32 s)
                    (F64.of_nat (List.length counted)))).
Proof.
  intros poly arr nodata counted.
  unfold zonal_stats. fold (nodata_in_force nodata).
  set (nd := nodata_in_force nodata) in *.
  set (window := combine (seq 0 (List.length arr)) arr) in *.
  assert (Hf : filter (fun ip => negb (pixel_masked poly nd ip)) window
               = filter (fun ip => poly (fst ip) && negb (feqb (snd ip) nd)
                                   && negb (is_nan (snd ip))) window).
  { apply filter_ext. intros [i px]. unfold pixel_masked; simpl.
    destruct (poly i), (feqb px nd), (is_nan px); reflexivity. }
  assert (Hc : counted
               = map snd (filter (fun ip => negb (pixel_masked poly nd ip))
                            window)).
  { unfold counted, counted_pixels. fold window. rewrite Hf. reflexivity. }
  eexists; split; [reflexivity|]. split.
  - intro He. rewrite Hc in He.
    destruct (filter (fun ip => negb (pixel_masked poly nd ip)) window);
      [reflexivity | discriminate].
  - intro Hne.
    assert (Hlen : List.length
                     (filter (fun ip => negb (pixel_masked poly nd ip)) window)
                   = List.length counted)
      by (rewrite Hc, length_map; reflexivity).
    rewrite Hlen.
    destruct (Nat.eqb_spec (List.length counted) 0) as [E0|E0].
    { destruct counted; [congruence | discriminate]. }
    destruct (add_reduce_sum_of F32.prec F32.emax _
                (pixel_masked poly nd) snd window) as [s [Hs He]].
    rewrite <- Hc in Hs.
    eexists. exists s. split; [reflexivity|]. split; [exact Hs|].
    apply SFdiv_same_value_l. apply of_f32_same_value. exact He.
Qed.

(** Where no pixel inside the polygon is a nodata value, the pixels that
    count are those that are not NaN. *)
Lemma counted_without_nodata :
  forall coord_polygon src,
    Forall (fun px => nan_or_data src px = true)
      (pixels_inside coord_polygon (pixels src)) ->
    counted_pixels coord_polygon (pixels src) (nodata_in_force None)
    = filter (fun px => negb (is_nan px))
        (pixels_inside coord_polygon (pixels src)).
Proof.
  intros poly src. unfold counted_pixels, pixels_inside.
  generalize (combine (seq 0 (List.length (pixels src))) (pixels src)).
  induction l as [|[i px] l IH]; intro H; [reflexivity|].
  cbn [filter fst snd] in H |- *. destruct (poly i).
  - cbn [map] in H. inversion H as [|? ? Hpx Hl]; subst.
    specialize (IH Hl). cbn [andb map filter fst snd].
    unfold nan_or_data in Hpx.
    destruct (is_nan px); cbn [orb negb] in Hpx |- *.
    + rewrite andb_false_r. exact IH.
    + apply andb_true_iff in Hpx as [_ Hpx]. rewrite Hpx.
      cbn [andb map]. rewrite IH. reflexivity.
  - cbn [andb]. apply IH. exact H.
Qed.




(** The monthly lookup hands no nodata value to [zonal_stats]: on a
    composite whose pixels under the polygon are all the nodata value -9999,
    the lookup returns -9999 and not [None]. *)
Lemma monthly_lookup_counts_the_sentinel :
  calculate_period_no2_coord_polygon whole_grid (PyStr "2021_04")
    (one_file "no2_data_2021_04.tif"
       (Readable (row_raster [F32.of_Z (-9999); F32.of_Z (-9999)]
                    (Some nodata_value))))
  = Ok (Some (F64.of_Z (-9999))).
Proof. vm_compute. reflexivity. Qed.

(** ** The daily series *)

Lemma daily_loop_defined_means :
  forall coord_polygon period_dt daily_data_folder days daily_values,
    daily_loop coord_polygon period_dt daily_data_folder days daily_values
    = daily_values
      ++ defined_means coord_polygon period_dt daily_data_folder days.
Proof.
  intros poly pdt fld days; induction days as [|d days IH]; intro acc; simpl.
  - rewrite app_nil_r. reflexivity.
  - destruct (daily_mean poly pdt fld d) as [m|]; rewrite IH.
    + rewrite <- app_assoc. reflexivity.
    + reflexivity.
Qed.

Lemma daily_mean_absent :
  forall coord_polygon period_dt daily_data_folder day,
    daily_data_folder (daily_name period_dt day) = None ->
    daily_mean coord_polygon period_dt daily_data_folder day = None.
Proof.
  intros poly pdt fld day H. unfold daily_mean.
  unfold daily_name in H. rewrite H. reflexivity.
Qed.

Lemma daily_mean_unreadable :
  forall coord_polygon period_dt daily_data_folder day,
    daily_data_folder (daily_name period_dt day) = Some Unreadable ->
    daily_mean coord_polygon period_dt daily_data_folder day = None.
Proof.
  intros poly pdt fld day H. unfold daily_mean.
  unfold daily_name in H. rewrite H. reflexivity.
Qed.

Lemma daily_mean_defined :
  forall coord_polygon period_dt daily_data_folder day m,
    daily_mean coord_polygon period_dt daily_data_folder day = Some m ->
    is_nan m = false
    /\ exists src,
         daily_data_folder (daily_name period_dt day) = Some (Readable src)
         /\ zonal_stats coord_polygon (pixels src) (nodata src)
            = [ {| mean := Some m |} ].
Proof.
  intros poly pdt fld day m. unfold daily_mean, daily_name.
  destruct (fld _) as [[src|]|]; try discriminate.
  destruct (zonal_stats_counted poly (pixels src) (nodata src))
    as [r [Hz _]].
  rewrite Hz. cbn [mean]. destruct r as [v|]; [|discriminate].
  destruct (is_nan v) eqn:Hn; [discriminate|].
  intro H; injection H as ->. split; [exact Hn|].
  exists src. split; [reflexivity | exact Hz].
Qed.

Lemma defined_means_length :
  forall coord_polygon period_dt daily_data_folder days,
    (List.length
       (defined_means coord_polygon period_dt daily_data_folder days)
     <= List.length (days_with_file period_dt daily_data_folder days))%nat.
Proof.
  intros poly pdt fld days; induction days as [|d days IH]; simpl; [lia|].
  destruct (daily_mean poly pdt fld d) as [m|] eqn:Hm.
  - destruct (daily_mean_defined _ _ _ _ _ Hm) as [_ [src [Hf _]]].
    rewrite Hf. simpl. lia.
  - simpl. destruct (fld (daily_name pdt d)); simpl; lia.
Qed.

Lemma defined_means_not_nan :
  forall coord_polygon period_dt daily_data_folder days,
    Forall (fun m => is_nan m = false)
      (defined_means coord_polygon period_dt daily_data_folder days).
Proof.
  intros poly pdt fld days; induction days as [|d days IH]; simpl.
  - constructor.
  - destruct (daily_mean poly pdt fld d) as [m|] eqn:Hm; simpl.
    + constructor; [|exact IH].
      exact (proj1 (daily_mean_defined _ _ _ _ _ Hm)).
    + exact IH.
Qed.



(** ** The monthly lookup and the recorded value *)

Lemma lookup_never_raises :
  forall coord_polygon period no2_data_folder,
    (exists s, period = PyStr s) \/ (exists d, period = PyDatetime d) ->
    exists r,
      calculate_period_no2_coord_polygon coord_polygon period
        no2_data_folder = Ok r.
Proof.
  intros poly period fld [[s ->]|[d ->]];
    unfold calculate_period_no2_coord_polygon; cbn [bind];
    match goal with |- context [fld ?n] => destruct (fld n) as [[src|]|] end;
    try (eexists; reflexivity);
    destruct (zonal_stats poly (pixels src) None); eexists; reflexivity.
Qed.

Lemma lookup_missing_or_unreadable :
  forall coord_polygon period_str no2_data_folder,
    no2_data_folder (monthly_name period_str) = None
    \/ no2_data_folder (monthly_name period_str) = Some Unreadable ->
    calculate_period_no2_coord_polygon coord_polygon (PyStr period_str)
      no2_data_folder = Ok None.
Proof.
  intros poly pstr fld H. unfold calculate_period_no2_coord_polygon.
  cbn [bind]. unfold monthly_name in H. destruct H as [H|H]; rewrite H;
    reflexivity.
Qed.

Lemma value_or_zero_falsy :
  forall no2_value, truthy no2_value = false ->
    value_or_zero no2_value = fzero.
Proof.
  intros [v|] H; [|reflexivity]. unfold value_or_zero. rewrite H.
  reflexivity.
Qed.

Lemma truthy_zero : forall v, is_zero v = true -> truthy (Some v) = false.
Proof. intros [s| | |] H; try discriminate; reflexivity. Qed.

(** ** Period parsing *)

Lemma contains_app :
  forall c a b, contains c (a ++ b) = contains c a || contains c b.
Proof.
  intros c a b; induction a as [|x a IH]; simpl; [reflexivity|].
  destruct (Ascii.eqb x c); [reflexivity | exact IH].
Qed.

Lemma split_no_sep :
  forall c s, contains c s = false -> split c s = [s].
Proof.
  intros c s; induction s as [|x s IH]; simpl; [reflexivity|].
  destruct (Ascii.eqb x c); [discriminate|].
  intro H. rewrite (IH H). reflexivity.
Qed.

Lemma split_app_sep :
  forall c a b, contains c a = false ->
    split c (a ++ String c b) = a :: split c b.
Proof.
  intros c a b; induction a as [|x a IH]; simpl.
  - rewrite Ascii.eqb_refl. reflexivity.
  - destruct (Ascii.eqb x c); [discriminate|].
    intro H. rewrite (IH H). reflexivity.
Qed.

Lemma forallb_Z_range :
  forall (P : Z -> bool) lo n,
    forallb P (Z_range lo n) = true ->
    forall z, lo <= z < lo + n -> P z = true.
Proof.
  intros P lo n H z Hz.
  rewrite forallb_forall in H. apply H.
  unfold Z_range. apply in_map_iff. exists (Z.to_nat (z - lo)).
  split; [lia|]. apply in_seq. lia.
Qed.

Lemma field_ok_spec :
  forall w z, field_ok w z = true ->
    int_of_str (zfill w z) = Ok z
    /\ contains "_" (zfill w z) = false
    /\ contains "-" (zfill w z) = false
    /\ String.length (zfill w z) = w
    /\ all_digits (zfill w z) = true.
Proof.
  intros w z H. unfold field_ok in H.
  repeat (apply andb_true_iff in H; destruct H as [H ?]).
  destruct (int_of_str (zfill w z)) as [z'|]; [|discriminate].
  apply Z.eqb_eq in H; subst z'.
  repeat split; try (apply negb_true_iff; assumption);
    try assumption.
  apply Nat.eqb_eq; assumption.
Qed.

Lemma years_ok : forall y, 1 <= y <= 9999 -> field_ok 4 y = true.
Proof.
  intros y Hy.
  apply (forallb_Z_range (field_ok 4) 1 9999); [vm_compute; reflexivity|].
  lia.
Qed.

Lemma months_ok : forall m, 1 <= m <= 12 -> field_ok 2 m = true.
Proof.
  intros m Hm.
  apply (forallb_Z_range (field_ok 2) 1 12); [vm_compute; reflexivity|].
  lia.
Qed.

Lemma monthrange_bounds : forall y m, 28 <= monthrange y m <= 31.
Proof.
  intros y m. unfold monthrange.
  destruct (m =? 2); [destruct (isleap y); lia|].
  destruct ((m =? 4) || (m =? 6) || (m =? 9) || (m =? 11)); lia.
Qed.

Lemma c_int_small :
  forall z, -2147483648 <= z <= 2147483647 -> c_int z = true.
Proof.
  intros z Hz. unfold c_int. apply andb_true_iff. split; apply Z.leb_le; lia.
Qed.

Lemma mk_datetime_valid :
  forall y m d, 1 <= y <= 9999 -> 1 <= m <= 12 -> 1 <= d <= monthrange y m ->
    mk_datetime y m d = Ok {| year := y; month := m; day := d |}.
Proof.
  intros y m d Hy Hm Hd. unfold mk_datetime.
  pose proof (monthrange_bounds y m) as Hb.
  rewrite !c_int_small by lia. cbn [andb negb].
  replace (1 <=? y) with true by (symmetry; apply Z.leb_le; lia).
  replace (y <=? 9999) with true by (symmetry; apply Z.leb_le; lia).
  replace (1 <=? m) with true by (symmetry; apply Z.leb_le; lia).
  replace (m <=? 12) with true by (symmetry; apply Z.leb_le; lia).
  replace (1 <=? d) with true by (symmetry; apply Z.leb_le; lia).
  replace (d <=? monthrange y m) with true
    by (symmetry; apply Z.leb_le; lia).
  reflexivity.
Qed.

Lemma mk_datetime_inv :
  forall y m d dt, mk_datetime y m d = Ok dt ->
    dt = {| year := y; month := m; day := d |}
    /\ 1 <= y <= 9999 /\ 1 <= m <= 12 /\ 1 <= d <= monthrange y m.
Proof.
  intros y m d dt. unfold mk_datetime.
  destruct (negb _); [discriminate|].
  destruct (_ && _) eqn:E; [|discriminate].
  intro H; injection H as <-.
  repeat (apply andb_true_iff in E; destruct E as [E ?]).
  repeat match goal with H : (_ <=? _) = true |- _ =>
    apply Z.leb_le in H end.
  split; [reflexivity | lia].
Qed.

Lemma mk_datetime_first :
  forall y m, 1 <= y <= 9999 -> 1 <= m <= 12 ->
    mk_datetime y m 1 = Ok {| year := y; month := m; day := 1 |}.
Proof.
  intros y m Hy Hm. apply mk_datetime_valid; try assumption.
  pose proof (monthrange_bounds y m). lia.
Qed.

Lemma parse_two_parts_format :
  forall sep y m,
    (sep = "_" \/ sep = "-")%char ->
    1 <= y <= 9999 -> 1 <= m <= 12 ->
    parse_two_parts sep (format_period sep y m)
    = Ok {| year := y; month := m; day := 1 |}.
Proof.
  intros sep y m Hsep Hy Hm.
  destruct (field_ok_spec 4 y (years_ok y Hy)) as [Hiy [Hy1 [Hy2 _]]].
  destruct (field_ok_spec 2 m (months_ok m Hm)) as [Him [Hm1 [Hm2 _]]].
  unfold parse_two_parts, format_period.
  assert (Hcy : contains sep (zfill 4 y) = false)
    by (destruct Hsep; subst; assumption).
  assert (Hcm : contains sep (zfill 2 m) = false)
    by (destruct Hsep; subst; assumption).
  rewrite (split_app_sep sep _ _ Hcy), (split_no_sep sep _ Hcm).
  rewrite Hiy, Him. cbn [bind]. apply mk_datetime_first; assumption.
Qed.

Lemma parse_two_parts_iff :
  forall sep s d,
    parse_two_parts sep s = Ok d
    <-> exists ys ms,
          split sep s = [ys; ms]
          /\ int_of_str ys = Ok (year d)
          /\ int_of_str ms = Ok (month d)
          /\ 1 <= year d <= 9999 /\ 1 <= month d <= 12 /\ day d = 1.
Proof.
  intros sep s d. unfold parse_two_parts. split.
  - destruct (split sep s) as [|ys [|ms [|x l]]]; try discriminate.
    destruct (int_of_str ys) as [yi|] eqn:Ey; [|discriminate].
    destruct (int_of_str ms) as [mi|] eqn:Em; [|discriminate].
    cbn [bind]. intro H.
    destruct (mk_datetime_inv _ _ _ _ H) as [-> [Hy [Hm _]]].
    exists ys, ms. cbn [year month day]. repeat split; auto; lia.
  - intros [ys [ms [Hs [Hy [Hm [Ry [Rm Hd]]]]]]].
    rewrite Hs, Hy, Hm. cbn [bind].
    rewrite (mk_datetime_first _ _ Ry Rm).
    destruct d as [y m dd]. cbn [day] in Hd. subst dd. reflexivity.
Qed.

(** C9 (amended): for a year of 1..9999 and a month of 1..12 the strings
    ["YYYY_MM"] and ["YYYY-MM"] resolve to (year, month), a date resolves
    to itself, and a four-digit year given as a baseline resolves to
    (year, month of the target).  A string with neither separator, and a
    value that is neither a string nor a date, fail with ValueError.  A
    string with a separator is read leniently, at the underscore if it
    has one and at the dash otherwise: it resolves exactly when it splits
    there into two parts that [int()] reads as a year of 1..9999 and a
    month of 1..12, and then to the first day of that month; nothing is
    defaulted. *)
Theorem period_parsing_round_trip :
  forall y m, 1 <= y <= 9999 -> 1 <= m <= 12 ->
    let p := {| year := y; month := m; day := 1 |} in
    _parse_period (PyStr (format_period "_" y m)) = Ok p
    /\ _parse_period (PyStr (format_period "-" y m)) = Ok p
    /\ (forall d, _parse_period (PyDatetime d) = Ok d)
    /\ (forall target_dt, month target_dt = m ->
          resolve_baseline target_dt (PyStr (zfill 4 y)) = Ok p)
    /\ (forall s, separator_of s = None ->
          _parse_period (PyStr s) = Raise ValueError)
    /\ (forall z, _parse_period (PyInt z) = Raise ValueError)
    /\ _parse_period PyNone = Raise ValueError
    /\ (forall s sep d, separator_of s = Some sep ->
          (_parse_period (PyStr s) = Ok d
           <-> exists ys ms,
                 split sep s = [ys; ms]
                 /\ int_of_str ys = Ok (year d)
                 /\ int_of_str ms = Ok (month d)
                 /\ 1 <= year d <= 9999 /\ 1 <= month d <= 12
                 /\ day d = 1)).
Proof.
  intros y m Hy Hm p.
  destruct (field_ok_spec 4 y (years_ok y Hy)) as [Hiy [Hy1 [Hy2 [Hly _]]]].
  destruct (field_ok_spec 2 m (months_ok m Hm)) as [Him [Hm1 [Hm2 _]]].
  split; [|split; [|split; [|split; [|split; [|split; [|split]]]]]].
  - unfold _parse_period, format_period.
    rewrite contains_app. cbn [contains]. rewrite Ascii.eqb_refl.
    rewrite orb_true_r.
    apply (parse_two_parts_format "_"); auto.
  - unfold _parse_period, format_period.
    rewrite !contains_app. cbn [contains]. rewrite Hy1, Hy2, Hm1.
    rewrite Ascii.eqb_refl. cbn.
    apply (parse_two_parts_format "-"); auto.
  - reflexivity.
  - intros tdt Ht. unfold resolve_baseline. cbn [py_str py_int].
    rewrite Hly. cbn [Nat.eqb]. rewrite Hiy. cbn [bind]. rewrite Ht.
    apply mk_datetime_first; assumption.
  - intros s. unfold separator_of, _parse_period.
    destruct (contains "_" s); [discriminate|].
    destruct (contains "-" s); [discriminate | reflexivity].
  - reflexivity.
  - reflexivity.
  - intros s sep d. unfold separator_of, _parse_period.
    destruct (contains "_" s).
    + intro E; injection E as <-. apply parse_two_parts_iff.
    + destruct (contains "-" s); [|discriminate].
      intro E; injection E as <-. apply parse_two_parts_iff.
Qed.

Lemma period_parsing_round_trip_witness :
  _parse_period (PyStr "2021_04") = Ok april_2021
  /\ _parse_period (PyStr "2021-04") = Ok april_2021
  /\ resolve_baseline {| year := 2019; month := 4; day := 17 |}
       (PyStr "2021") = Ok april_2021.
Proof.
  destruct (period_parsing_round_trip 2021 4 ltac:(lia) ltac:(lia))
    as [H1 [H2 [_ [H4 _]]]].
  split; [exact H1|]. split; [exact H2|].
  exact (H4 {| year := 2019; month := 4; day := 17 |} eq_refl).
Defined.

(** C9, as stated, fails: strings that have none of the formats of the
    specification resolve all the same.  ["2019_4"] is read as April 2019,
    and the baseline ["1_02"], of four characters, is read as the year 102
    with the month of the target. *)
Lemma lenient_period_strings :
  is_YYYY_sep_MM "_" "2019_4" = false
  /\ is_YYYY_sep_MM "-" "2019_4" = false
  /\ is_bare_year "2019_4" = false
  /\ _parse_period (PyStr "2019_4")
     = Ok {| year := 2019; month := 4; day := 1 |}
  /\ is_YYYY_sep_MM "_" "1_02" = false
  /\ is_YYYY_sep_MM "-" "1_02" = false
  /\ is_bare_year "1_02" = false
  /\ resolve_baseline april_2021 (PyStr "1_02")
     = Ok {| year := 102; month := 4; day := 1 |}.
Proof. vm_compute. repeat split. Qed.

(** The underscore comes first: ["2021-1_2"] is cut at its underscore,
    where its first part is no number, and does not resolve, though at
    the dash it would be read as December 2021. *)
Lemma underscore_comes_first :
  separator_of "2021-1_2" = Some "_"%char
  /\ _parse_period (PyStr "2021-1_2") = Raise ValueError
  /\ parse_two_parts "-" "2021-1_2"
     = Ok {| year := 2021; month := 12; day := 1 |}.
Proof. vm_compute. repeat split. Qed.

(** ** The verdict of a test that is run *)

Section Verdicts.

Variable stdtr : float -> float -> float.
Variable format_3f : float -> string.
Variable format_2f : float -> string.

(** With three values or more in each group the verdict carries the
    fields below, each as it is computed. *)
Lemma verdict_of_series_fields :
  forall target_daily baseline_daily_all target_dt baseline_dts alpha,
    (3 <= List.length target_daily)%nat ->
    (3 <= List.length baseline_daily_all)%nat ->
    let v := verdict_of_series stdtr format_3f format_2f
               (Some target_daily) baseline_daily_all target_dt
               baseline_dts alpha in
    let tt := ttest_ind stdtr baseline_daily_all target_daily true in
    let pooled_std := pooled_std_of baseline_daily_all target_daily in
    let diff :=
      F64.sub (np_mean target_daily) (np_mean baseline_daily_all) in
    exists d,
      details v = Some d
      /\ p_value v = snd tt
      /\ significant v = fltb (snd tt) alpha
      /\ t_statistic d = fst tt
      /\ target_mean d = np_mean target_daily
      /\ baseline_mean d = np_mean baseline_daily_all
      /\ target_std d = np_std target_daily 1
      /\ baseline_std d = np_std baseline_daily_all 1
      /\ cohens_d d
         = (if fgtb pooled_std fzero then F64.div diff pooled_std
            else fzero)
      /\ percent_change d
         = (if fneb (np_mean baseline_daily_all) fzero
            then F64.mul (F64.div diff (np_mean baseline_daily_all))
                   (F64.of_Z 100)
            else fzero)
      /\ n_target d = List.length target_daily
      /\ n_baseline d = List.length baseline_daily_all.
Proof.
  intros t b tdt dts alpha Ht Hb v tt pooled diff.
  unfold v, verdict_of_series.
  replace (List.length b <? 3)%nat with false
    by (symmetry; apply Nat.ltb_ge; exact Hb).
  replace (List.length t <? 3)%nat with false
    by (symmetry; apply Nat.ltb_ge; exact Ht).
  cbn [orb]. fold tt. destruct tt as [t_stat p]. cbn [fst snd].
  eexists. split; [reflexivity|].
  cbn [p_value significant details t_statistic target_mean baseline_mean
       target_std baseline_std cohens_d percent_change n_target n_baseline].
  repeat split.
Qed.

End Verdicts.

Lemma fgtb_zero_false :
  forall x, is_zero x = true -> fgtb x fzero = false.
Proof. intros [s| | |] H; try discriminate; reflexivity. Qed.

Lemma fneb_zero_false :
  forall x, is_zero x = true -> fneb x fzero = false.
Proof. intros [s| | |] H; try discriminate; reflexivity. Qed.

Lemma fltb_nan_false : forall x y, is_nan x = true -> fltb x y = false.
Proof. intros [s| | |] y H; try discriminate; reflexivity. Qed.

(** C7: with at least three values in each group the verdict is computed
    without a division by zero: a pooled standard deviation of zero gives
    a standardized difference of 0, a baseline mean of zero gives a percent
    change of 0. *)
Theorem divisions_are_guarded :
  forall stdtr format_3f format_2f target_daily baseline_daily_all
         target_dt baseline_dts alpha,
    (3 <= List.length target_daily)%nat ->
    (3 <= List.length baseline_daily_all)%nat ->
    exists d,
      details (verdict_of_series stdtr format_3f format_2f
                 (Some target_daily) baseline_daily_all target_dt
                 baseline_dts alpha) = Some d
      /\ (is_zero (pooled_std_of baseline_daily_all target_daily) = true ->
          cohens_d d = fzero)
      /\ (is_zero (np_mean baseline_daily_all) = true ->
          percent_change d = fzero).
Proof.
  intros stdtr f3 f2 t b tdt dts alpha Ht Hb.
  destruct (verdict_of_series_fields stdtr f3 f2 t b tdt dts alpha Ht Hb)
    as [d [Hd [_ [_ [_ [_ [_ [_ [_ [Hc [Hp _]]]]]]]]]]].
  exists d. split; [exact Hd|]. split.
  - intro Hz. rewrite Hc, (fgtb_zero_false _ Hz). reflexivity.
  - intro Hz. rewrite Hp, (fneb_zero_false _ Hz). reflexivity.
Qed.

Lemma divisions_are_guarded_witness :
  exists d,
    details (verdict_of_series (fun _ _ => fzero) (fun _ => ""%string)
               (fun _ => ""%string) (Some ten_thrice) ten_thrice
               april_2021 [] default_alpha) = Some d
    /\ cohens_d d = fzero.
Proof.
  destruct (divisions_are_guarded (fun _ _ => fzero) (fun _ => ""%string)
              (fun _ => ""%string) ten_thrice ten_thrice april_2021 []
              default_alpha)
    as [d [Hd [Hc _]]]; [simpl; lia | simpl; lia |].
  exists d. split; [exact Hd|]. apply Hc. vm_compute. reflexivity.
Defined.

Lemma tens_folder_series :
  _extract_daily_no2_for_month whole_grid april_2021 tens_folder
  = Some ten_thrice
  /\ _extract_daily_no2_for_month whole_grid april_2019 tens_folder
     = Some ten_thrice.
Proof. split; vm_compute; reflexivity. Qed.

Lemma tens_folder_verdict :
  forall stdtr format_3f format_2f,
    calculate_no2_significance stdtr format_3f format_2f whole_grid
      (PyStr "2021_04") (Single (PyStr "2019")) tens_folder default_alpha
    = Ok (verdict_of_series stdtr format_3f format_2f (Some ten_thrice)
            ten_thrice april_2021 [april_2019] default_alpha).
Proof.
  intros stdtr f3 f2. unfold calculate_no2_significance.
  change (_parse_period (PyStr "2021_04")) with (Ok april_2021).
  cbn [bind baseline_loop].
  change (resolve_baseline april_2021 (PyStr "2019")) with (Ok april_2019).
  cbn [bind].
  rewrite (proj1 tens_folder_series), (proj2 tens_folder_series).
  reflexivity.
Qed.

(** Two identical constant series, through the whole function: it returns
    (no exception), with pooled standard deviation 0, standardized
    difference 0 and percent change 0; the statistic of the test is NaN. *)
Lemma constant_series_do_not_raise :
  forall stdtr format_3f format_2f,
  exists v d,
    calculate_no2_significance stdtr format_3f format_2f whole_grid
      (PyStr "2021_04") (Single (PyStr "2019")) tens_folder default_alpha
    = Ok v
    /\ details v = Some d
    /\ pooled_std_of ten_thrice ten_thrice = fzero
    /\ cohens_d d = fzero
    /\ percent_change d = fzero
    /\ t_statistic d = fnan
    /\ n_target d = 3%nat /\ n_baseline d = 3%nat.
Proof.
  intros stdtr f3 f2.
  destruct (verdict_of_series_fields stdtr f3 f2 ten_thrice ten_thrice
              april_2021 [april_2019] default_alpha)
    as [d [Hd [_ [_ [Ht [_ [_ [_ [_ [Hc [Hp [Hn Hm]]]]]]]]]]]];
    [simpl; lia | simpl; lia |].
  eexists. exists d.
  split; [apply tens_folder_verdict|].
  split; [exact Hd|].
  split; [vm_compute; reflexivity|].
  split; [rewrite Hc; vm_compute; reflexivity|].
  split; [rewrite Hp; vm_compute; reflexivity|].
  split; [rewrite Ht; unfold ttest_ind|].
  - replace (scipy_var ten_thrice 1) with fzero by (vm_compute; reflexivity).
    replace (np_mean ten_thrice)
      with (F64.of_Z 10) by (vm_compute; reflexivity).
    reflexivity.
  - split; [rewrite Hn | rewrite Hm]; reflexivity.
Qed.

(** ** Which test is run *)

Lemma ttest_ind_statistic :
  forall stdtr stdtr' a b equal_var,
    fst (ttest_ind stdtr a b equal_var)
    = fst (ttest_ind stdtr' a b equal_var).
Proof.
  intros stdtr stdtr' a b equal_var. unfold ttest_ind.
  destruct (if equal_var then _ else _) as [df denom]. reflexivity.
Qed.

(** C3 (amended): with at least three values in each group the test that
    is run is the unpaired two-sample test of Student with the pooled
    variance ([equal_var=True], the default of [ttest_ind]): the statistic
    is the difference of the means (baseline first) over the square root
    of the pooled variance times (1/n1 + 1/n2), the pooled variance being
    taken from the sample variances as [scipy.stats] computes them, and
    the p-value is two-sided, twice the distribution function of Student's
    t with n1 + n2 - 2 degrees of freedom at minus the absolute
    statistic. *)
Theorem test_is_pooled_student :
  forall stdtr format_3f format_2f target_daily baseline_daily_all
         target_dt baseline_dts alpha,
    (3 <= List.length target_daily)%nat ->
    (3 <= List.length baseline_daily_all)%nat ->
    let v := verdict_of_series stdtr format_3f format_2f
               (Some target_daily) baseline_daily_all target_dt
               baseline_dts alpha in
    let n1 := Z.of_nat (List.length baseline_daily_all) in
    let n2 := Z.of_nat (List.length target_daily) in
    let pooled_variance :=
      F64.div
        (F64.add
           (F64.mul (F64.of_Z (n1 - 1)) (scipy_var baseline_daily_all 1))
           (F64.mul (F64.of_Z (n2 - 1)) (scipy_var target_daily 1)))
        (F64.of_Z (n1 + n2 - 2)) in
    let t :=
      F64.div
        (F64.sub (np_mean baseline_daily_all) (np_mean target_daily))
        (F64.sqrt
           (F64.mul pooled_variance
              (F64.add (F64.div fone (F64.of_Z n1))
                       (F64.div fone (F64.of_Z n2))))) in
    exists d,
      details v = Some d
      /\ t_statistic d = t
      /\ p_value v
         = F64.mul (stdtr (F64.of_Z (n1 + n2 - 2)) (fopp (fabs t))) ftwo
      /\ (t_statistic d, p_value v)
         = ttest_ind stdtr baseline_daily_all target_daily true.
Proof.
  intros stdtr f3 f2 t b tdt dts alpha Ht Hb v n1 n2 pv tstat.
  destruct (verdict_of_series_fields stdtr f3 f2 t b tdt dts alpha Ht Hb)
    as [d [Hd [Hp [_ [Hts _]]]]].
  exists d. split; [exact Hd|].
  fold v in Hp. rewrite Hts, Hp.
  split; [reflexivity|]. split; [reflexivity|].
  destruct (ttest_ind stdtr b t true); reflexivity.
Qed.

Lemma test_is_pooled_student_witness :
  exists d,
    details (verdict_of_series (fun _ _ => fzero) (fun _ => ""%string)
               (fun _ => ""%string) (Some ten_to_forty) one_two_three
               april_2021 [] default_alpha) = Some d
    /\ t_statistic d = S754_finite true 6767563843589239 (-51).
Proof.
  destruct (test_is_pooled_student (fun _ _ => fzero) (fun _ => ""%string)
              (fun _ => ""%string) ten_to_forty one_two_three april_2021 []
              default_alpha)
    as [d [Hd [Ht _]]]; [simpl; lia | simpl; lia |].
  exists d. split; [exact Hd|]. rewrite Ht. vm_compute. reflexivity.
Defined.

(** On the groups 1, 2, 3 and 10, 20, 30, 40 the statistic of the verdict
    is the pooled one, about -3.005; the statistic of Welch's test is
    about -3.549. *)
Lemma pooled_and_welch_statistics :
  forall stdtr format_3f format_2f,
    option_map t_statistic
      (details (verdict_of_series stdtr format_3f format_2f
                  (Some ten_to_forty) one_two_three april_2021 []
                  default_alpha))
    = Some (S754_finite true 6767563843589239 (-51))
    /\ fst (ttest_ind stdtr one_two_three ten_to_forty false)
       = S754_finite true 7991585857999908 (-51)
    /\ option_map t_statistic
         (details (verdict_of_series stdtr format_3f format_2f
                     (Some ten_to_forty) one_two_three april_2021 []
                     default_alpha))
       <> Some (fst (ttest_ind stdtr one_two_three ten_to_forty false)).
Proof.
  intros stdtr f3 f2.
  destruct (verdict_of_series_fields stdtr f3 f2 ten_to_forty one_two_three
              april_2021 [] default_alpha)
    as [d [Hd [_ [_ [Ht _]]]]]; [simpl; lia | simpl; lia |].
  rewrite Hd. cbn [option_map]. rewrite Ht.
  rewrite (ttest_ind_statistic stdtr (fun _ _ => fzero)).
  rewrite (ttest_ind_statistic stdtr (fun _ _ => fzero) _ _ false).
  split; [vm_compute; reflexivity|].
  split; [vm_compute; reflexivity|].
  vm_compute. discriminate.
Qed.

(** C3, as stated, fails: the statistic of the verdict is not that of
    Welch's test for every pair of groups of three values or more. *)
Lemma statistic_is_not_welch :
  ~ (forall stdtr format_3f format_2f target_daily baseline_daily_all
            target_dt baseline_dts alpha,
       (3 <= List.length target_daily)%nat ->
       (3 <= List.length baseline_daily_all)%nat ->
       option_map t_statistic
         (details (verdict_of_series stdtr format_3f format_2f
                     (Some target_daily) baseline_daily_all target_dt
                     baseline_dts alpha))
       = Some (fst (ttest_ind stdtr baseline_daily_all target_daily false))).
Proof.
  intro H.
  specialize (H (fun _ _ => fzero) (fun _ => ""%string)
                (fun _ => ""%string) ten_to_forty one_two_three april_2021
                [] default_alpha ltac:(simpl; lia) ltac:(simpl; lia)).
  destruct (pooled_and_welch_statistics (fun _ _ => fzero)
              (fun _ => ""%string) (fun _ => ""%string)) as [_ [_ Hne]].
  exact (Hne H).
Qed.

(** ** Finiteness of the verdict *)

(** C4 (amended): with at least three values in each group the verdict is
    the computed one, never the insufficient-data verdict: its statistic,
    p-value, means and standard deviations are returned as they are
    computed, without a check of finiteness, so a NaN of the test reaches
    the verdict; a NaN p-value gives a verdict that is not significant. *)
Theorem verdict_is_returned_unchecked :
  forall stdtr format_3f format_2f target_daily baseline_daily_all
         target_dt baseline_dts alpha,
    (3 <= List.length target_daily)%nat ->
    (3 <= List.length baseline_daily_all)%nat ->
    let v := verdict_of_series stdtr format_3f format_2f
               (Some target_daily) baseline_daily_all target_dt
               baseline_dts alpha in
    let tt := ttest_ind stdtr baseline_daily_all target_daily true in
    v <> insufficient_data
    /\ exists d,
         details v = Some d
         /\ t_statistic d = fst tt
         /\ p_value v = snd tt
         /\ target_mean d = np_mean target_daily
         /\ baseline_mean d = np_mean baseline_daily_all
         /\ target_std d = np_std target_daily 1
         /\ baseline_std d = np_std baseline_daily_all 1
         /\ (is_nan (fst tt) = true -> verdict_finite v = false)
         /\ (is_nan (snd tt) = true ->
             verdict_finite v = false /\ significant v = false).
Proof.
  intros stdtr f3 f2 t b tdt dts alpha Ht Hb v tt.
  destruct (verdict_of_series_fields stdtr f3 f2 t b tdt dts alpha Ht Hb)
    as [d [Hd [Hp [Hs [Hts [Htm [Hbm [Htsd [Hbsd _]]]]]]]]].
  fold v in Hd, Hp, Hs. fold tt in Hp, Hs, Hts.
  split.
  - intro E. rewrite E in Hd. discriminate.
  - exists d. repeat (split; [assumption|]). split.
    + intro Hn. unfold verdict_finite. rewrite Hd, Hts.
      destruct (fst tt); try discriminate.
      cbn [is_finite andb]. apply andb_false_r.
    + intro Hn. split.
      * unfold verdict_finite. rewrite Hp.
        destruct (snd tt); try discriminate. reflexivity.
      * rewrite Hs. apply fltb_nan_false. exact Hn.
Qed.

Lemma verdict_is_returned_unchecked_witness :
  let v := verdict_of_series (fun _ _ => fzero) (fun _ => ""%string)
             (fun _ => ""%string) (Some ten_thrice) ten_thrice april_2021
             [] default_alpha in
  v <> insufficient_data /\ verdict_finite v = false.
Proof.
  intro v.
  destruct (verdict_is_returned_unchecked (fun _ _ => fzero)
              (fun _ => ""%string) (fun _ => ""%string) ten_thrice
              ten_thrice april_2021 [] default_alpha)
    as [Hne [d [_ [_ [_ [_ [_ [_ [_ [Hnan _]]]]]]]]]];
    [simpl; lia | simpl; lia |].
  split; [exact Hne|]. apply Hnan. vm_compute. reflexivity.
Defined.

(** For two constant series of three values 10 the statistic of the test
    is 0/0, NaN; the verdict is returned with this NaN (and with the
    p-value that the distribution function gives for a NaN statistic) and
    is not the insufficient-data verdict. *)
Lemma zero_variance_verdict :
  forall stdtr format_3f format_2f,
    let v := verdict_of_series stdtr format_3f format_2f (Some ten_thrice)
               ten_thrice april_2021 [april_2019] default_alpha in
    calculate_no2_significance stdtr format_3f format_2f whole_grid
      (PyStr "2021_04") (Single (PyStr "2019")) tens_folder default_alpha
    = Ok v
    /\ v <> insufficient_data
    /\ option_map t_statistic (details v) = Some fnan
    /\ p_value v = F64.mul (stdtr (F64.of_Z 4) fnan) ftwo
    /\ verdict_finite v = false.
Proof.
  intros stdtr f3 f2 v.
  destruct (verdict_of_series_fields stdtr f3 f2 ten_thrice ten_thrice
              april_2021 [april_2019] default_alpha)
    as [d [Hd [Hp [_ [Ht _]]]]]; [simpl; lia | simpl; lia |].
  fold v in Hd, Hp.
  assert (Hts : ttest_ind stdtr ten_thrice ten_thrice true
                = (fnan, F64.mul (stdtr (F64.of_Z 4) fnan) ftwo)).
  { unfold ttest_ind.
    replace (scipy_var ten_thrice 1) with fzero by (vm_compute; reflexivity).
    replace (np_mean ten_thrice)
      with (F64.of_Z 10) by (vm_compute; reflexivity).
    reflexivity. }
  split; [apply tens_folder_verdict|].
  split; [intro E; rewrite E in Hd; discriminate|].
  split; [rewrite Hd; cbn [option_map]; rewrite Ht, Hts; reflexivity|].
  split; [rewrite Hp, Hts; reflexivity|].
  unfold verdict_finite. rewrite Hd, Ht, Hts. cbn [fst is_finite fnan andb].
  apply andb_false_r.
Qed.

(** C4, as stated, fails: the numeric fields of the verdict are not
    finite for every pair of series of three values or more. *)
Lemma zero_variance_verdict_has_nan :
  ~ (forall stdtr format_3f format_2f target_daily baseline_daily_all
            target_dt baseline_dts alpha,
       (3 <= List.length target_daily)%nat ->
       (3 <= List.length baseline_daily_all)%nat ->
       verdict_finite
         (verdict_of_series stdtr format_3f format_2f (Some target_daily)
            baseline_daily_all target_dt baseline_dts alpha) = true).
Proof.
  intro H.
  specialize (H (fun _ _ => fzero) (fun _ => ""%string)
                (fun _ => ""%string) ten_thrice ten_thrice april_2021
                [april_2019] default_alpha ltac:(simpl; lia)
                ltac:(simpl; lia)).
  destruct (zero_variance_verdict (fun _ _ => fzero) (fun _ => ""%string)
              (fun _ => ""%string)) as [_ [_ [_ [_ Hf]]]].
  cbv zeta in Hf. rewrite Hf in H. exact (Bool.diff_false_true H).
Qed.

(** ** Swapping target and baseline *)

Lemma pooled_std_of_swap :
  forall a b, pooled_std_of a b = pooled_std_of b a.
Proof.
  intros a b. unfold pooled_std_of, F64.add.
  rewrite SFadd_comm.
  rewrite (Z.add_comm (Z.of_nat (List.length a))). reflexivity.
Qed.

Lemma equal_var_ttest_denom_swap :
  forall v1 n1 v2 n2,
    _equal_var_ttest_denom v1 n1 v2 n2 = _equal_var_ttest_denom v2 n2 v1 n1.
Proof.
  intros v1 n1 v2 n2. unfold _equal_var_ttest_denom, F64.add.
  rewrite (SFadd_comm _ _ (F64.mul (F64.of_Z (Z.of_nat n1 - 1)) v1)).
  rewrite (SFadd_comm _ _ (F64.div fone (F64.of_nat n1))).
  rewrite (Z.add_comm (Z.of_nat n1)). reflexivity.
Qed.

Lemma ttest_ind_swap :
  forall stdtr a b,
    same_value (fst (ttest_ind stdtr b a true))
      (fopp (fst (ttest_ind stdtr a b true)))
    /\ snd (ttest_ind stdtr b a true) = snd (ttest_ind stdtr a b true).
Proof.
  intros stdtr a b. unfold ttest_ind.
  rewrite (equal_var_ttest_denom_swap (scipy_var b 1)).
  destruct (_equal_var_ttest_denom (scipy_var a 1) (List.length a)
              (scipy_var b 1) (List.length b)) as [df denom].
  cbn [fst snd].
  assert (H : same_value
                (F64.div (F64.sub (np_mean b) (np_mean a)) denom)
                (fopp (F64.div (F64.sub (np_mean a) (np_mean b)) denom))).
  { unfold fopp, F64.div. rewrite <- SFdiv_opp_l.
    apply SFdiv_same_value_l. apply SFsub_swap. }
  split; [exact H|].
  unfold fabs. rewrite (SFabs_opp_same_value _ _ H). reflexivity.
Qed.

Lemma fneb_finite :
  forall s m e, fneb (S754_finite s m e) fzero = true.
Proof. intros [|] m e; reflexivity. Qed.

Lemma percent_of_swap :
  forall s mx ex my ey,
    let x := S754_finite s mx ex in
    let y := S754_finite s my ey in
    (is_zero (percent_of x y) = true /\ is_zero (percent_of y x) = true)
    \/ exists sg, signbit (percent_of x y) = Some sg
                  /\ signbit (percent_of y x) = Some (negb sg).
Proof.
  intros s mx ex my ey x y. unfold percent_of.
  change (F64.of_Z 100) with (S754_finite false 7036874417766400 (-46)).
  unfold F64.mul, F64.div, F64.sub.
  destruct (SFsub_swap F64.prec F64.emax x y) as [H|[H1 H2]].
  - right.
    pose proof (SFsub_finite_not_nan F64.prec F64.emax s mx ex s my ey) as Hn.
    fold x y in Hn.
    destruct (signbit (SFsub F64.prec F64.emax x y)) as [sd|] eqn:Hs;
      [|destruct (SFsub F64.prec F64.emax x y); discriminate].
    assert (Hs' : signbit (SFsub F64.prec F64.emax y x) = Some (negb sd)).
    { rewrite H. destruct (SFsub F64.prec F64.emax x y); try discriminate;
        simpl in *; congruence. }
    exists (xorb (xorb sd s) false). split.
    + apply SFmul_signbit. apply SFdiv_signbit. exact Hs.
    + replace (negb (xorb (xorb sd s) false))
        with (xorb (xorb (negb sd) s) false) by (destruct sd, s; reflexivity).
      apply SFmul_signbit. apply SFdiv_signbit. exact Hs'.
  - left. split.
    + apply SFmul_zero_l, SFdiv_zero_l.
      destruct (SFsub F64.prec F64.emax x y); try discriminate; reflexivity.
    + apply SFmul_zero_l, SFdiv_zero_l. exact H1.
Qed.

(** C8 (amended): with at least three values in each group, swapping the
    target and the baseline negates the standardized mean difference (and
    the statistic of the test) and leaves the two-sided p-value and the
    significance flag unchanged.  The percent change is taken against the
    other mean after the swap: its sign is negated when the two means are
    finite, not zero and of one sign (both zero-valued when the means are
    equal). *)
Theorem swap_negates_effect_size :
  forall stdtr format_3f format_2f target baseline target_dt baseline_dts
         target_dt' baseline_dts' alpha,
    (3 <= List.length target)%nat ->
    (3 <= List.length baseline)%nat ->
    let v := verdict_of_series stdtr format_3f format_2f (Some target)
               baseline target_dt baseline_dts alpha in
    let v' := verdict_of_series stdtr format_3f format_2f (Some baseline)
                target target_dt' baseline_dts' alpha in
    exists d d',
      details v = Some d /\ details v' = Some d'
      /\ same_value (cohens_d d') (fopp (cohens_d d))
      /\ same_value (t_statistic d') (fopp (t_statistic d))
      /\ p_value v' = p_value v
      /\ significant v' = significant v
      /\ (forall s mt et mb eb,
            np_mean target = S754_finite s mt et ->
            np_mean baseline = S754_finite s mb eb ->
            (is_zero (percent_change d) = true
             /\ is_zero (percent_change d') = true)
            \/ exists sg, signbit (percent_change d) = Some sg
                          /\ signbit (percent_change d') = Some (negb sg)).
Proof.
  intros stdtr f3 f2 t b tdt dts tdt' dts' alpha Ht Hb v v'.
  destruct (verdict_of_series_fields stdtr f3 f2 t b tdt dts alpha Ht Hb)
    as [d [Hd [Hp [Hs [Hts [_ [_ [_ [_ [Hc [Hpc _]]]]]]]]]]].
  destruct (verdict_of_series_fields stdtr f3 f2 b t tdt' dts' alpha Hb Ht)
    as [d' [Hd' [Hp' [Hs' [Hts' [_ [_ [_ [_ [Hc' [Hpc' _]]]]]]]]]]].
  fold v in Hd, Hp, Hs. fold v' in Hd', Hp', Hs'.
  destruct (ttest_ind_swap stdtr b t) as [Hstat Hprob].
  exists d, d'. split; [exact Hd|]. split; [exact Hd'|].
  split; [|split; [|split; [|split]]].
  - rewrite Hc, Hc', (pooled_std_of_swap t b).
    destruct (fgtb (pooled_std_of b t) fzero).
    + unfold fopp, F64.div. rewrite <- SFdiv_opp_l.
      apply SFdiv_same_value_l. apply SFsub_swap.
    + right; split; reflexivity.
  - rewrite Hts, Hts'. exact Hstat.
  - rewrite Hp, Hp'. exact Hprob.
  - rewrite Hs, Hs', Hprob. reflexivity.
  - intros s mt et mb eb Emt Emb. rewrite Hpc, Hpc', Emt, Emb.
    rewrite !fneb_finite.
    exact (percent_of_swap s mt et mb eb).
Qed.

Lemma swap_negates_effect_size_witness :
  exists d d',
    details (verdict_of_series (fun _ _ => fzero) (fun _ => ""%string)
               (fun _ => ""%string) (Some spec_target) spec_baseline
               april_2021 [] default_alpha) = Some d
    /\ details (verdict_of_series (fun _ _ => fzero) (fun _ => ""%string)
                  (fun _ => ""%string) (Some spec_baseline) spec_target
                  april_2021 [] default_alpha) = Some d'
    /\ same_value (cohens_d d') (fopp (cohens_d d))
    /\ ((is_zero (percent_change d) = true
         /\ is_zero (percent_change d') = true)
        \/ exists sg, signbit (percent_change d) = Some sg
                      /\ signbit (percent_change d') = Some (negb sg)).
Proof.
  destruct (swap_negates_effect_size (fun _ _ => fzero)
              (fun _ => ""%string) (fun _ => ""%string) spec_target
              spec_baseline april_2021 [] april_2021 [] default_alpha)
    as [d [d' [Hd [Hd' [Hc [_ [_ [_ Hpc]]]]]]]];
    [simpl; lia | simpl; lia |].
  exists d, d'. split; [exact Hd|]. split; [exact Hd'|].
  split; [exact Hc|].
  apply (Hpc false 6192449487634432%positive (-49)
           5742089524897382%positive (-48));
    vm_compute; reflexivity.
Defined.

(** With a target of mean -2 and a baseline of mean 2 the percent change
    is -200 in both orders. *)
Lemma percent_change_both_orders :
  forall stdtr format_3f format_2f,
    option_map percent_change
      (details (verdict_of_series stdtr format_3f format_2f
                  (Some minus_three_to_minus_one) one_two_three april_2021
                  [] default_alpha))
    = Some (F64.of_Z (-200))
    /\ option_map percent_change
         (details (verdict_of_series stdtr format_3f format_2f
                     (Some one_two_three) minus_three_to_minus_one
                     april_2021 [] default_alpha))
       = Some (F64.of_Z (-200)).
Proof.
  intros stdtr f3 f2.
  destruct (verdict_of_series_fields stdtr f3 f2 minus_three_to_minus_one
              one_two_three april_2021 [] default_alpha)
    as [d [Hd [_ [_ [_ [_ [_ [_ [_ [_ [Hpc _]]]]]]]]]]];
    [simpl; lia | simpl; lia |].
  destruct (verdict_of_series_fields stdtr f3 f2 one_two_three
              minus_three_to_minus_one april_2021 [] default_alpha)
    as [d' [Hd' [_ [_ [_ [_ [_ [_ [_ [_ [Hpc' _]]]]]]]]]]];
    [simpl; lia | simpl; lia |].
  rewrite Hd, Hd'. cbn [option_map]. rewrite Hpc, Hpc'.
  split; vm_compute; reflexivity.
Qed.

(** C8, as stated, fails for the percent change: swapping the series does
    not negate its sign for every pair of series of three values or
    more. *)
Lemma percent_change_sign_is_not_negated :
  ~ (forall stdtr format_3f format_2f target baseline target_dt
            baseline_dts alpha d d',
       (3 <= List.length target)%nat ->
       (3 <= List.length baseline)%nat ->
       details (verdict_of_series stdtr format_3f format_2f (Some target)
                  baseline target_dt baseline_dts alpha) = Some d ->
       details (verdict_of_series stdtr format_3f format_2f (Some baseline)
                  target target_dt baseline_dts alpha) = Some d' ->
       sign_negated (percent_change d) (percent_change d') = true).
Proof.
  intro H.
  assert (L3 : (3 <= List.length minus_three_to_minus_one)%nat)
    by (simpl; lia).
  assert (L3' : (3 <= List.length one_two_three)%nat) by (simpl; lia).
  destruct (verdict_of_series_fields (fun _ _ => fzero)
              (fun _ => ""%string) (fun _ => ""%string)
              minus_three_to_minus_one one_two_three april_2021 []
              default_alpha L3 L3')
    as [d [Hd [_ [_ [_ [_ [_ [_ [_ [_ [Hpc _]]]]]]]]]]].
  destruct (verdict_of_series_fields (fun _ _ => fzero)
              (fun _ => ""%string) (fun _ => ""%string)
              one_two_three minus_three_to_minus_one april_2021 []
              default_alpha L3' L3)
    as [d' [Hd' [_ [_ [_ [_ [_ [_ [_ [_ [Hpc' _]]]]]]]]]]].
  specialize (H (fun _ _ => fzero) (fun _ => ""%string)
                (fun _ => ""%string) minus_three_to_minus_one one_two_three
                april_2021 [] default_alpha d d' L3 L3' Hd Hd').
  rewrite Hpc, Hpc' in H. vm_compute in H.
  exact (Bool.diff_false_true H).
Qed.

(** ** Monthly aggregation *)

Section SumsOfFiniteValues.

Variables prec emax : Z.

Lemma SFadd_finite_not_nan :
  forall a x, is_nan a = false -> is_finite x = true ->
    is_nan (SFadd prec emax a x) = false.
Proof.
  intros [sa|sa| |sa ma ea] [sx|sx| |sx mx ex] Ha Hx; try discriminate;
    try reflexivity.
  - destruct sa, sx; reflexivity.
  - simpl. apply binary_normalize_not_nan.
Qed.

Lemma sum_finite_not_nan :
  forall l a, Forall (fun x => is_finite x = true) l -> is_nan a = false ->
    is_nan (fold_left (SFadd prec emax) l a) = false.
Proof.
  induction l as [|x l IH]; intros a Hl Ha; simpl; [exact Ha|].
  inversion Hl; subst. apply IH; [assumption|].
  apply SFadd_finite_not_nan; assumption.
Qed.

Lemma SFdiv_finite_not_nan :
  forall a s m e, is_nan a = false ->
    is_nan (SFdiv prec emax a (S754_finite s m e)) = false.
Proof.
  intros a s m e Ha.
  assert (H : exists sa, signbit a = Some sa)
    by (destruct a; try discriminate; eexists; reflexivity).
  destruct H as [sa Hsa].
  pose proof (SFdiv_signbit prec emax a sa s m e Hsa) as H.
  destruct (SFdiv prec emax a (S754_finite s m e)); try discriminate;
    reflexivity.
Qed.

End SumsOfFiniteValues.

Lemma count_is_finite :
  forall n, (1 <= n <= 31)%nat ->
    exists m e, F32.of_nat n = S754_finite false m e.
Proof.
  intros n Hn.
  assert (H : forallb small_count_is_finite (seq 1 31) = true)
    by (vm_compute; reflexivity).
  rewrite forallb_forall in H.
  specialize (H n ltac:(apply in_seq; lia)).
  unfold small_count_is_finite in H.
  destruct (F32.of_nat n) as [| | |[|] m e]; try discriminate.
  exists m, e. reflexivity.
Qed.

Lemma same_value_nan : forall x, same_value x fnan -> x = fnan.
Proof. intros x [H|[_ H]]; [exact H | discriminate]. Qed.

(** In day order or pairwise, the mean that ignores NaN is a [float32] sum
    of the samples that are not NaN, over their number. *)
Lemma nanmean_sum_of :
  forall single_pixel samples,
    let valid := filter (fun v => negb (is_nan v)) samples in
    exists s,
      sum_of F32.add valid s
      /\ same_value (nanmean single_pixel samples)
           (F32.div s (F32.of_nat (List.length valid))).
Proof.
  intros single samples valid. unfold nanmean. fold valid.
  destruct single.
  - destruct (add_reduce_sum_of F32.prec F32.emax float is_nan
                (fun v => v) samples) as [s [Hs He]].
    rewrite map_id in Hs. exists s. split; [exact Hs|].
    apply SFdiv_same_value_l. exact He.
  - exists (fold_left F32.add valid fzero). split.
    + apply (fold_left_sum_of F32.prec F32.emax valid fzero []).
      constructor. reflexivity.
    + apply SFdiv_same_value_l.
      pose proof (sum_filled_same_value F32.prec F32.emax float is_nan
                    (fun v => v) samples fzero fzero (same_value_refl _))
        as H.
      rewrite map_id in H. exact H.
Qed.

Lemma nanmean_same_value :
  forall samples,
    same_value (nanmean false samples)
      (mean32 (filter (fun v => negb (is_nan v)) samples)).
Proof.
  intro samples. unfold nanmean, mean32.
  apply SFdiv_same_value_l.
  pose proof (sum_filled_same_value F32.prec F32.emax float is_nan
                (fun v => v) samples fzero fzero (same_value_refl _)) as H.
  rewrite map_id in H. exact H.
Qed.

Lemma nanmean_no_sample :
  forall single_pixel samples,
    filter (fun v => negb (is_nan v)) samples = [] ->
    nanmean single_pixel samples = fnan.
Proof.
  intros single samples H.
  destruct (nanmean_sum_of single samples) as [s [Hs He]].
  cbv zeta in Hs, He. rewrite H in Hs, He.
  pose proof (sum_of_nil_zero F32.prec F32.emax _ _ Hs eq_refl) as Hz.
  apply same_value_nan.
  replace fnan with (F32.div s (F32.of_nat (List.length (@nil float))));
    [exact He|].
  destruct s as [[|]| | |]; try discriminate; reflexivity.
Qed.

Lemma nanmean_finite_samples :
  forall samples,
    let valid := filter (fun v => negb (is_nan v)) samples in
    valid <> [] -> (List.length samples <= 31)%nat ->
    Forall (fun v => is_finite v = true) valid ->
    is_nan (nanmean false samples) = false.
Proof.
  intros samples valid Hne Hlen Hfin. unfold nanmean. fold valid.
  assert (Hc : (1 <= List.length valid <= 31)%nat).
  { split.
    - destruct valid; [congruence | simpl; lia].
    - pose proof (filter_length_le (fun v => negb (is_nan v)) samples).
      fold valid in H. lia. }
  destruct (count_is_finite _ Hc) as [m [e Hm]]. rewrite Hm.
  apply SFdiv_finite_not_nan.
  apply sum_finite_not_nan; [|reflexivity].
  clear -Hfin. unfold valid in Hfin.
  induction samples as [|x l IH]; simpl; [constructor|].
  simpl in Hfin. destruct (is_nan x) eqn:Hx; simpl in Hfin.
  - constructor; [reflexivity | apply IH; exact Hfin].
  - inversion Hfin; subst. constructor; [assumption | apply IH; assumption].
Qed.

Lemma nth_map_fixed :
  forall (f : float -> float) l i,
    f fnan = fnan -> nth i (map f l) fnan = f (nth i l fnan).
Proof.
  intros f l i Hf. rewrite <- Hf at 1. apply map_nth.
Qed.

Lemma read_daily_nth :
  forall src i,
    let v := nth i (pixels src) fnan in
    nth i (read_daily src) fnan = if is_missing src v then fnan else v.
Proof.
  intros src i v. unfold read_daily, is_missing.
  destruct (nodata src) as [nd|].
  - rewrite nth_map_fixed by reflexivity. fold v.
    destruct (feqb v (F32.of_f64 nd)); [rewrite orb_true_r; reflexivity|].
    rewrite orb_false_r. destruct v; reflexivity.
  - fold v. rewrite orb_false_r. destruct v; reflexivity.
Qed.

Lemma samples_valid :
  forall i srcs,
    filter (fun v => negb (is_nan v)) (samples_at i (map read_daily srcs))
    = valid_samples i srcs.
Proof.
  intros i srcs. unfold samples_at, valid_samples.
  induction srcs as [|src srcs IH]; [reflexivity|].
  cbn [map filter]. rewrite read_daily_nth.
  destruct (is_missing src (nth i (pixels src) fnan)) eqn:Hm.
  - cbn [is_nan fnan negb]. exact IH.
  - assert (Hn : is_nan (nth i (pixels src) fnan) = false).
    { unfold is_missing in Hm. apply orb_false_iff in Hm. tauto. }
    rewrite Hn. cbn [negb map]. rewrite IH. reflexivity.
Qed.

Lemma insert_by_date_length :
  forall x l, List.length (insert_by_date x l) = S (List.length l).
Proof.
  intros x l; induction l as [|y l IH]; simpl; [reflexivity|].
  destruct (date_leb (fst y) (fst x)); simpl; [rewrite IH|]; reflexivity.
Qed.

Lemma insert_by_date_forallb :
  forall (P : datetime * file -> bool) x l,
    forallb P (insert_by_date x l) = P x && forallb P l.
Proof.
  intros P x l; induction l as [|y l IH]; simpl; [reflexivity|].
  destruct (date_leb (fst y) (fst x)); simpl; [rewrite IH|reflexivity].
  destruct (P x), (P y); reflexivity.
Qed.

Lemma sorted_length :
  forall l, List.length (sorted l) = List.length l.
Proof.
  intro l. unfold sorted.
  assert (H : forall l acc,
             List.length (fold_left (fun acc x => insert_by_date x acc) l acc)
             = (List.length l + List.length acc)%nat).
  { induction l0 as [|x l0 IH]; intro acc; simpl; [reflexivity|].
    rewrite IH, insert_by_date_length. lia. }
  rewrite H. simpl. lia.
Qed.

Lemma sorted_forallb :
  forall (P : datetime * file -> bool) l,
    forallb P l = true -> forallb P (sorted l) = true.
Proof.
  intros P l Hl. unfold sorted.
  assert (H : forall l acc, forallb P l = true -> forallb P acc = true ->
             forallb P (fold_left (fun acc x => insert_by_date x acc) l acc)
             = true).
  { induction l0 as [|x l0 IH]; intros acc H1 H2; simpl; [exact H2|].
    simpl in H1. apply andb_true_iff in H1 as [Hx H1].
    apply IH; [exact H1|]. rewrite insert_by_date_forallb, Hx, H2.
    reflexivity. }
  apply H; [exact Hl | reflexivity].
Qed.

Lemma shape_eqb_eq : forall a b, shape_eqb a b = true -> a = b.
Proof.
  intros [a1 a2] [b1 b2] H. unfold shape_eqb in H. simpl in H.
  apply andb_true_iff in H as [H1 H2].
  apply Nat.eqb_eq in H1, H2. congruence.
Qed.

Lemma open_all_readable :
  forall shp l, all_readable shp l = true ->
    exists srcs,
      open_all l = Ok srcs
      /\ List.length srcs = List.length l
      /\ Forall (fun r => shape r = shp) srcs.
Proof.
  intros shp l; induction l as [|[d f] l IH]; intro H.
  - exists []. repeat split. constructor.
  - simpl in H. apply andb_true_iff in H as [Hf Hl].
    destruct f as [r|]; [|discriminate].
    destruct (IH Hl) as [srcs [Ho [Hlen Hsh]]].
    exists (r :: srcs). simpl. rewrite Ho. cbn [bind].
    repeat split; [simpl; lia|].
    constructor; [apply shape_eqb_eq; exact Hf | exact Hsh].
Qed.

Lemma np_stack_same_shape :
  forall shp srcs, srcs <> [] -> Forall (fun r => shape r = shp) srcs ->
    np_stack srcs = Ok (shp, map read_daily srcs).
Proof.
  intros shp [|first rest] Hne H; [congruence|].
  unfold np_stack.
  assert (Hf : shape first = shp) by (inversion H; assumption).
  replace (forallb _ (first :: rest)) with true; [rewrite Hf; reflexivity|].
  symmetry. apply forallb_forall. intros r Hr.
  rewrite Forall_forall in H. rewrite (H r Hr), Hf.
  unfold shape_eqb. rewrite !Nat.eqb_refl. reflexivity.
Qed.

Lemma same_value_eq_nonzero :
  forall x y c, same_value x y -> is_zero c = false ->
    (x = c <-> y = c).
Proof.
  intros x y c [H|[H1 H2]] Hc; [subst; tauto|].
  split; intro; subst; congruence.
Qed.

Lemma nth_map_seq :
  forall (f : nat -> float) n i, (i < n)%nat ->
    nth i (map f (seq 0 n)) fnan = f i.
Proof.
  intros f n i Hi.
  rewrite (nth_indep _ fnan (f 0%nat))
    by (rewrite length_map, length_seq; exact Hi).
  rewrite map_nth, seq_nth by exact Hi. reflexivity.
Qed.

Lemma nodata_value_stored : F32.of_f64 nodata_value = sentinel32.
Proof. vm_compute. reflexivity. Qed.

Lemma same_value_infinity :
  forall x sg, same_value x (S754_infinity sg) -> x = S754_infinity sg.
Proof. intros x sg [H|[_ H]]; [exact H | discriminate]. Qed.

Lemma monthly_pixel_cases :
  forall single_pixel i srcs,
    (List.length srcs <= 31)%nat ->
    let valid := valid_samples i srcs in
    let px := monthly_pixel single_pixel
                (samples_at i (map read_daily srcs)) in
    (valid = [] -> px = sentinel32)
    /\ (valid <> [] ->
        exists s,
          sum_of F32.add valid s
          /\ let q := F32.div s (F32.of_nat (List.length valid)) in
             (is_nan q = true -> px = sentinel32)
             /\ (is_nan q = false -> same_value px q))
    /\ (single_pixel = false -> valid <> [] ->
        Forall (fun v => is_finite v = true) valid ->
        is_nan px = false
        /\ same_value px (mean32 valid)
        /\ (px = sentinel32 <-> mean32 valid = sentinel32))
    /\ (forall sg, valid <> [] ->
          Forall (fun v => v = S754_infinity sg) valid ->
          px = S754_infinity sg).
Proof.
  intros single i srcs Hlen valid px.
  set (samples := samples_at i (map read_daily srcs)) in *.
  assert (Hv : filter (fun v => negb (is_nan v)) samples = valid)
    by apply samples_valid.
  assert (Hl : (List.length samples <= 31)%nat)
    by (unfold samples, samples_at; rewrite !length_map; exact Hlen).
  assert (Hany : valid <> [] ->
            exists s,
              sum_of F32.add valid s
              /\ let q := F32.div s (F32.of_nat (List.length valid)) in
                 (is_nan q = true -> px = sentinel32)
                 /\ (is_nan q = false -> same_value px q)).
  { intros _. destruct (nanmean_sum_of single samples) as [s [Hs He]].
    cbv zeta in Hs, He. rewrite Hv in Hs, He.
    exists s. split; [exact Hs|]. cbv zeta.
    pose proof (same_value_is_nan _ _ He) as Hn.
    unfold px, monthly_pixel. split; intro Hq; rewrite Hq in Hn; rewrite Hn.
    - apply nodata_value_stored.
    - exact He. }
  split; [|split; [exact Hany|split]].
  - intro He. unfold px, monthly_pixel.
    rewrite (nanmean_no_sample single samples) by (rewrite Hv; exact He).
    cbn [is_nan fnan]. apply nodata_value_stored.
  - intros -> Hne Hfin.
    assert (Hn : is_nan (nanmean false samples) = false).
    { apply nanmean_finite_samples; rewrite ?Hv; assumption. }
    assert (Hpx : px = nanmean false samples)
      by (unfold px, monthly_pixel; rewrite Hn; reflexivity).
    assert (Hs : same_value px (mean32 valid)).
    { rewrite Hpx, <- Hv. apply nanmean_same_value. }
    split; [rewrite Hpx; exact Hn|]. split; [exact Hs|].
    apply same_value_eq_nonzero; [exact Hs | reflexivity].
  - intros sg Hne Hinf.
    destruct (Hany Hne) as [s [Hs [_ Hq]]].
    destruct (sum_of_infinities F32.prec F32.emax _ _ Hs sg Hinf)
      as [[E _]|[_ ->]]; [contradiction|].
    assert (Hc : (1 <= List.length valid <= 31)%nat).
    { split.
      - destruct valid; [congruence | simpl; lia].
      - pose proof (filter_length_le (fun v => negb (is_nan v)) samples).
        rewrite Hv in H. lia. }
    destruct (count_is_finite _ Hc) as [m [e Hm]]. rewrite Hm in Hq.
    assert (Hd : F32.div (S754_infinity sg) (S754_finite false m e)
                 = S754_infinity sg) by (destruct sg; reflexivity).
    rewrite Hd in Hq. apply same_value_infinity. apply Hq. reflexivity.
Qed.




(** ** File names and dates *)

Lemma replace_absent :
  forall c old' new s,
    contains c s = false ->
    replace_from (String c old') new 0 s = s.
Proof.
  intros c old' new s; induction s as [|a r IH]; intro H; [reflexivity|].
  simpl in H. destruct (Ascii.eqb a c) eqn:E; [discriminate|].
  cbn [replace_from prefix].
  destruct (ascii_dec c a) as [->|_];
    [rewrite Ascii.eqb_refl in E; discriminate|].
  rewrite (IH H). reflexivity.
Qed.

Lemma replace_skip :
  forall old new t s,
    replace_from old new (String.length t) (t ++ s)
    = replace_from old new 0 s.
Proof.
  intros old new t s; induction t as [|a t IH]; [reflexivity|].
  simpl. exact IH.
Qed.

Lemma prefix_app : forall p s, prefix p (p ++ s) = true.
Proof.
  induction p as [|a p IH]; intro s; simpl.
  - destruct s; reflexivity.
  - destruct (ascii_dec a a); [apply IH | congruence].
Qed.

Lemma replace_leading :
  forall c old' new s,
    contains c s = false ->
    str_replace (String c old') new (String c old' ++ s) = (new ++ s)%string.
Proof.
  intros c old' new s H. unfold str_replace.
  change (String c old' ++ s)%string with (String c (old' ++ s)).
  cbn [replace_from].
  change (String c (old' ++ s)) with (String c old' ++ s)%string.
  rewrite prefix_app.
  replace (String.length (String c old') - 1)%nat with (String.length old')
    by (simpl; lia).
  rewrite replace_skip, (replace_absent c old' new s H). reflexivity.
Qed.

Lemma prefix_refl : forall p, prefix p p = true.
Proof.
  induction p as [|a p IH]; simpl; [reflexivity|].
  destruct (ascii_dec a a); [exact IH | congruence].
Qed.

Lemma replace_skip_all :
  forall old new t, replace_from old new (String.length t) t = ""%string.
Proof.
  intros old new t; induction t as [|a t IH]; [reflexivity|].
  simpl. exact IH.
Qed.

Lemma replace_trailing :
  forall c old' body,
    contains c body = false ->
    str_replace (String c old') "" (body ++ String c old') = body.
Proof.
  intros c old' body; induction body as [|a r IH]; intro H.
  - unfold str_replace. cbn [append replace_from].
    rewrite prefix_refl.
    replace (String.length (String c old') - 1)%nat
      with (String.length old') by (simpl; lia).
    rewrite replace_skip_all. reflexivity.
  - simpl in H. destruct (Ascii.eqb a c) eqn:E; [discriminate|].
    unfold str_replace in *. cbn [append replace_from prefix].
    destruct (ascii_dec c a) as [->|_];
      [rewrite Ascii.eqb_refl in E; discriminate|].
    rewrite (IH H). reflexivity.
Qed.

Lemma string_length_app :
  forall a b, String.length (a ++ b) = (String.length a + String.length b)%nat.
Proof.
  induction a as [|x a IH]; intro b; simpl; [reflexivity|].
  rewrite IH. reflexivity.
Qed.

Lemma append_assoc :
  forall a b c : string, ((a ++ b) ++ c)%string = (a ++ b ++ c)%string.
Proof.
  induction a as [|x a IH]; intros b c; simpl; [reflexivity|].
  rewrite IH. reflexivity.
Qed.

Lemma substring_app_tail :
  forall a b, substring (String.length a) (String.length b) (a ++ b) = b.
Proof.
  induction a as [|x a IH]; intro b; simpl.
  - induction b as [|y b IHb]; simpl; [reflexivity|].
    rewrite IHb. reflexivity.
  - apply IH.
Qed.

Lemma endswith_app : forall a p, endswith p (a ++ p) = true.
Proof.
  intros a p. unfold endswith. rewrite string_length_app.
  replace (String.length a + String.length p - String.length p)%nat
    with (String.length a) by lia.
  rewrite substring_app_tail, String.eqb_refl.
  replace (String.length p <=? String.length a + String.length p)%nat
    with true by (symmetry; apply Nat.leb_le; lia).
  reflexivity.
Qed.

Lemma days_ok : forall d, 1 <= d <= 31 -> field_ok 2 d = true.
Proof.
  intros d Hd.
  apply (forallb_Z_range (field_ok 2) 1 31); [vm_compute; reflexivity|].
  lia.
Qed.

Lemma date_field_ok_spec :
  forall w field z, date_field_ok w field z = true ->
    field (zfill w z) = true
    /\ contains "n" (zfill w z) = false
    /\ contains "." (zfill w z) = false.
Proof.
  intros w field z H. unfold date_field_ok in H.
  apply andb_true_iff in H as [H H3]. apply andb_true_iff in H as [H1 H2].
  repeat split; [exact H1 | |]; apply negb_true_iff; assumption.
Qed.

Lemma year_fields_ok :
  forall y, 1 <= y <= 9999 -> date_field_ok 4 year_field y = true.
Proof.
  intros y Hy.
  apply (forallb_Z_range (date_field_ok 4 year_field) 1 9999);
    [vm_compute; reflexivity | lia].
Qed.

Lemma month_fields_ok :
  forall m, 1 <= m <= 12 -> date_field_ok 2 month_field m = true.
Proof.
  intros m Hm.
  apply (forallb_Z_range (date_field_ok 2 month_field) 1 12);
    [vm_compute; reflexivity | lia].
Qed.

Lemma day_fields_ok :
  forall d, 1 <= d <= 31 -> date_field_ok 2 day_field d = true.
Proof.
  intros d Hd.
  apply (forallb_Z_range (date_field_ok 2 day_field) 1 31);
    [vm_compute; reflexivity | lia].
Qed.

Lemma four_digit_years :
  forall y, 1000 <= y <= 9999 -> str_of_int y = zfill 4 y.
Proof.
  intros y Hy. apply String.eqb_eq.
  apply (forallb_Z_range four_digit_year 1000 9000);
    [vm_compute; reflexivity | lia].
Qed.

Lemma short_years_ok :
  forall y, 1 <= y <= 999 -> short_year_ok y = true.
Proof.
  intros y Hy.
  apply (forallb_Z_range short_year_ok 1 999); [vm_compute; reflexivity|].
  lia.
Qed.

Lemma strptime_strftime :
  forall y m d,
    1000 <= y <= 9999 -> 1 <= m <= 12 -> 1 <= d <= monthrange y m ->
    strptime_Y_m_d
      (strftime_Y_m_d {| year := y; month := m; day := d |})
    = Ok {| year := y; month := m; day := d |}.
Proof.
  intros y m d Hy4 Hm Hd.
  assert (Hy : 1 <= y <= 9999) by lia.
  pose proof (monthrange_bounds y m) as Hb.
  assert (Hd' : 1 <= d <= 31) by lia.
  destruct (field_ok_spec 4 y (years_ok y Hy)) as [Hiy [_ [Hy2 _]]].
  destruct (field_ok_spec 2 m (months_ok m Hm)) as [Him [_ [Hm2 _]]].
  destruct (field_ok_spec 2 d (days_ok d Hd')) as [Hid [_ [Hd2 _]]].
  destruct (date_field_ok_spec _ _ _ (year_fields_ok y Hy)) as [Fy _].
  destruct (date_field_ok_spec _ _ _ (month_fields_ok m Hm)) as [Fm _].
  destruct (date_field_ok_spec _ _ _ (day_fields_ok d Hd')) as [Fd _].
  unfold strptime_Y_m_d, strftime_Y_m_d. cbn [year month day].
  rewrite (four_digit_years y Hy4).
  change ("-" ++ zfill 2 m ++ "-" ++ zfill 2 d)%string
    with (String "-" (zfill 2 m ++ String "-" (zfill 2 d))).
  rewrite (split_app_sep "-" _ _ Hy2), (split_app_sep "-" _ _ Hm2),
    (split_no_sep "-" _ Hd2).
  rewrite Fy, Fm, Fd. cbn [andb]. rewrite Hiy, Him, Hid. cbn [bind].
  apply mk_datetime_valid; assumption.
Qed.

(** A year before 1000 is printed with fewer than four digits, which
    [strptime] does not take for [%Y]. *)
Lemma strptime_short_year :
  forall y m d, 1 <= y <= 999 -> 1 <= m <= 12 -> 1 <= d <= 31 ->
    strptime_Y_m_d
      (strftime_Y_m_d {| year := y; month := m; day := d |})
    = Raise ValueError.
Proof.
  intros y m d Hy Hm Hd.
  pose proof (short_years_ok y Hy) as Hs. unfold short_year_ok in Hs.
  repeat (apply andb_true_iff in Hs; destruct Hs as [Hs ?]).
  repeat match goal with H : negb _ = true |- _ =>
    apply negb_true_iff in H end.
  destruct (field_ok_spec 2 m (months_ok m Hm)) as [_ [_ [Hm2 _]]].
  destruct (field_ok_spec 2 d (days_ok d Hd)) as [_ [_ [Hd2 _]]].
  unfold strptime_Y_m_d, strftime_Y_m_d. cbn [year month day].
  change ("-" ++ zfill 2 m ++ "-" ++ zfill 2 d)%string
    with (String "-" (zfill 2 m ++ String "-" (zfill 2 d))).
  rewrite (split_app_sep "-" (str_of_int y)) by assumption.
  rewrite (split_app_sep "-" _ _ Hm2), (split_no_sep "-" _ Hd2).
  rewrite Hs. reflexivity.
Qed.

(** X1: the name under which the daily series looks for the raster of a
    day is matched by the glob of the monthly aggregation; for a year of
    four digits the aggregation reads the same date back from it, and for
    a year before 1000, which is printed with fewer digits, it finds no
    date in it. *)
Theorem daily_name_round_trip :
  forall y m d period_day,
    1 <= y <= 9999 -> 1 <= m <= 12 -> 1 <= d <= monthrange y m ->
    let name :=
      daily_name {| year := y; month := m; day := period_day |} d in
    glob_daily name = true
    /\ (1000 <= y ->
        date_of_filename name = Ok {| year := y; month := m; day := d |})
    /\ (y < 1000 -> date_of_filename name = Raise ValueError).
Proof.
  intros y m d pd Hy Hm Hd name.
  pose proof (monthrange_bounds y m) as Hb.
  assert (Hd' : 1 <= d <= 31) by lia.
  destruct (date_field_ok_spec _ _ _ (month_fields_ok m Hm)) as [_ [Nm Dm]].
  destruct (date_field_ok_spec _ _ _ (day_fields_ok d Hd')) as [_ [Nd Dd]].
  set (body := strftime_Y_m_d {| year := y; month := m; day := d |}).
  assert (Hyear : contains "n" (str_of_int y) = false
                  /\ contains "." (str_of_int y) = false).
  { destruct (Z_lt_le_dec y 1000) as [Hlt|Hge].
    - pose proof (short_years_ok y ltac:(lia)) as Hs.
      unfold short_year_ok in Hs.
      repeat (apply andb_true_iff in Hs; destruct Hs as [Hs ?]).
      repeat match goal with H : negb _ = true |- _ =>
        apply negb_true_iff in H end.
      split; assumption.
    - rewrite (four_digit_years y) by lia.
      destruct (date_field_ok_spec _ _ _ (year_fields_ok y Hy))
        as [_ [Ny Dy]].
      split; assumption. }
  destruct Hyear as [Ny Dy].
  assert (Hn : contains "n" body = false /\ contains "." body = false).
  { unfold body, strftime_Y_m_d. cbn [year month day].
    rewrite !contains_app, Ny, Nm, Nd, Dy, Dm, Dd. split; reflexivity. }
  destruct Hn as [Hn Hdot].
  assert (Hname : name = ("no2_data_" ++ body ++ ".tif")%string)
    by reflexivity.
  assert (Hdate : date_of_filename name = strptime_Y_m_d body).
  { unfold date_of_filename. rewrite Hname.
    rewrite (replace_leading "n" "o2_data_" "" (body ++ ".tif")).
    + cbn [append]. rewrite (replace_trailing "." "tif" body Hdot).
      reflexivity.
    + rewrite contains_app, Hn. reflexivity. }
  split; [|split].
  - unfold glob_daily. rewrite Hname.
    unfold startswith. rewrite prefix_app.
    replace ("no2_data_" ++ body ++ ".tif")%string
      with (("no2_data_" ++ body) ++ ".tif")%string
      by (apply append_assoc).
    rewrite endswith_app, !string_length_app. cbn [andb String.length].
    apply Nat.leb_le. lia.
  - intro H4. rewrite Hdate. apply strptime_strftime; [lia | assumption..].
  - intro H3. rewrite Hdate. apply strptime_short_year; [lia | assumption..].
Qed.

Lemma daily_name_round_trip_witness :
  glob_daily "no2_data_2020-02-29.tif" = true
  /\ (1000 <= 2020 ->
      date_of_filename "no2_data_2020-02-29.tif"
      = Ok {| year := 2020; month := 2; day := 29 |})
  /\ (2020 < 1000 ->
      date_of_filename "no2_data_2020-02-29.tif" = Raise ValueError).
Proof.
  apply (daily_name_round_trip 2020 2 29 1); vm_compute; split; congruence.
Defined.

(** ** Grouping the daily files *)

Lemma strptime_valid :
  forall s dt, strptime_Y_m_d s = Ok dt ->
    1 <= year dt <= 9999 /\ 1 <= month dt <= 12
    /\ 1 <= day dt <= monthrange (year dt) (month dt).
Proof.
  intros s dt. unfold strptime_Y_m_d.
  destruct (split "-" s) as [|y [|m [|d [|x l]]]]; try discriminate.
  destruct (_ && _); [|discriminate].
  destruct (int_of_str y) as [yi|]; [|discriminate].
  destruct (int_of_str m) as [mi|]; [|discriminate].
  destruct (int_of_str d) as [di|]; [|discriminate].
  cbn [bind]. intro H.
  destruct (mk_datetime_inv _ _ _ _ H) as [-> Hv]. exact Hv.
Qed.

Lemma year_keys_ok : forall y, 1 <= y <= 9999 -> year_key_ok y = true.
Proof.
  intros y Hy.
  apply (forallb_Z_range year_key_ok 1 9999); [vm_compute; reflexivity|].
  lia.
Qed.

Lemma key_round_trip :
  forall dt, 1 <= year dt <= 9999 -> 1 <= month dt <= 12 ->
    parse_year_month (year_month_key dt) = Ok (year dt, month dt).
Proof.
  intros dt Hy Hm.
  pose proof (year_keys_ok _ Hy) as Ky. unfold year_key_ok in Ky.
  apply andb_true_iff in Ky as [Ky1 Ky2].
  destruct (int_of_str (str_of_int (year dt))) as [z|] eqn:Ey;
    [|discriminate].
  apply Z.eqb_eq in Ky1; subst z. apply negb_true_iff in Ky2.
  destruct (field_ok_spec 2 _ (months_ok _ Hm)) as [Him [Hm1 _]].
  unfold parse_year_month, year_month_key.
  change ("_" ++ zfill 2 (month dt))%string
    with (String "_" (zfill 2 (month dt))).
  rewrite (split_app_sep "_" _ _ Ky2), (split_no_sep "_" _ Hm1).
  rewrite Ey, Him. reflexivity.
Qed.

Lemma group_append_keys :
  forall k x groups,
    map fst (group_append k x groups)
    = if existsb (fun k' => String.eqb k' k) (map fst groups)
      then map fst groups
      else map fst groups ++ [k].
Proof.
  intros k x groups; induction groups as [|[k' l] r IH]; [reflexivity|].
  cbn [group_append map fst existsb].
  destruct (String.eqb k' k); [reflexivity|].
  cbn [map fst orb]. rewrite IH.
  destruct (existsb _ (map fst r)); reflexivity.
Qed.

Lemma group_append_NoDup :
  forall k x groups,
    NoDup (map fst groups) -> NoDup (map fst (group_append k x groups)).
Proof.
  intros k x groups H. rewrite group_append_keys.
  destruct (existsb _ (map fst groups)) eqn:E; [exact H|].
  apply NoDup_app; [exact H | repeat constructor; intros [] |].
  intros a Ha [E0|[]]. subst a.
  assert (existsb (fun k' => String.eqb k' k) (map fst groups) = true).
  { apply existsb_exists. exists k. split; [exact Ha|].
    apply String.eqb_refl. }
  congruence.
Qed.

Lemma group_append_sizes :
  forall k x groups,
    group_sizes (group_append k x groups) = S (group_sizes groups).
Proof.
  intros k x groups; unfold group_sizes.
  induction groups as [|[k' l] r IH]; [reflexivity|].
  cbn [group_append]. destruct (String.eqb k' k).
  - cbn [map list_sum snd fold_right]. rewrite length_app. simpl. lia.
  - change (list_sum (map (fun g => List.length (snd g))
                        ((k', l) :: group_append k x r)))
      with (List.length l
            + list_sum (map (fun g => List.length (snd g))
                          (group_append k x r)))%nat.
    rewrite IH. simpl. lia.
Qed.

Lemma group_append_sound :
  forall tiff_files date f filename groups,
    In (filename, f) tiff_files ->
    date_of_filename filename = Ok date ->
    Forall (group_sound tiff_files) groups ->
    Forall (group_sound tiff_files)
      (group_append (year_month_key date) (date, f) groups).
Proof.
  intros tiffs date f filename groups Hin Hd H.
  assert (Hx : year_month_key (fst (date, f)) = year_month_key date
               /\ exists filename0,
                    In (filename0, snd (date, f)) tiffs
                    /\ date_of_filename filename0 = Ok (fst (date, f)))
    by (split; [reflexivity | exists filename; split; assumption]).
  induction groups as [|[k l] r IH]; cbn [group_append].
  - constructor; [|constructor]. split; [discriminate|].
    constructor; [exact Hx | constructor].
  - inversion H as [|g gs [Hne Hg] Hr]; subst.
    destruct (String.eqb k (year_month_key date)) eqn:E.
    + apply String.eqb_eq in E. subst k.
      constructor; [|exact Hr]. split.
      * cbn [snd]. destruct l; discriminate.
      * cbn [snd fst] in *. apply Forall_app. split; [exact Hg|].
        constructor; [exact Hx | constructor].
    + constructor; [split; assumption | apply IH; exact Hr].
Qed.

Lemma group_sound_weaken :
  forall tiffs tiffs' g,
    (forall x, In x tiffs -> In x tiffs') ->
    group_sound tiffs g -> group_sound tiffs' g.
Proof.
  intros tiffs tiffs' g Hsub [Hne H]. split; [exact Hne|].
  eapply Forall_impl; [|exact H].
  intros df [Hk [filename [Hin Hd]]]. split; [exact Hk|].
  exists filename. split; [apply Hsub; exact Hin | exact Hd].
Qed.

Lemma group_loop_invariant :
  forall tiff_files all_files groups,
    (forall x, In x tiff_files -> In x all_files) ->
    NoDup (map fst groups) ->
    Forall (group_sound all_files) groups ->
    let result := group_loop tiff_files groups in
    NoDup (map fst result)
    /\ Forall (group_sound all_files) result
    /\ group_sizes result
       = (group_sizes groups + List.length (filter has_date tiff_files))%nat.
Proof.
  intros tiffs all; induction tiffs as [|[filename f] rest IH];
    intros groups Hsub Hnd Hs; cbn [group_loop].
  - cbn. repeat split; [assumption | assumption | lia].
  - assert (Hsub' : forall x, In x rest -> In x all)
      by (intros x Hx; apply Hsub; right; exact Hx).
    cbn [filter]. unfold has_date at 1. cbn [fst].
    destruct (date_of_filename filename) as [date|e] eqn:Hd.
    + destruct (IH (group_append (year_month_key date) (date, f) groups)
                  Hsub' (group_append_NoDup _ _ _ Hnd)
                  (group_append_sound all date f filename groups
                     (Hsub _ (or_introl eq_refl)) Hd Hs))
        as [H1 [H2 H3]].
      cbv zeta in *. repeat split; [exact H1 | exact H2 |].
      rewrite H3, group_append_sizes. cbn [List.length]. lia.
    + exact (IH groups Hsub' Hnd Hs).
Qed.

(** X2: grouping the daily files by month.  The keys of the dictionary
    are distinct; no group is empty; each entry of a group is a file of
    the folder whose name holds the date of the entry, and that date is of
    the month of the key; and the groups hold as many entries as there are
    files with a date in their name: a file with a date is in one group,
    a file without one is left out without an error. *)
Theorem daily_files_are_grouped_by_month :
  forall tiff_files,
    let monthly_groups := group_loop tiff_files [] in
    NoDup (map fst monthly_groups)
    /\ (forall year_month daily_files,
          In (year_month, daily_files) monthly_groups ->
          daily_files <> []
          /\ forall date f, In (date, f) daily_files ->
               year_month_key date = year_month
               /\ exists filename,
                    In (filename, f) tiff_files
                    /\ date_of_filename filename = Ok date)
    /\ group_sizes monthly_groups
       = List.length (filter has_date tiff_files).
Proof.
  intros tiffs groups.
  destruct (group_loop_invariant tiffs tiffs [] (fun x H => H)
              (NoDup_nil _) (Forall_nil _)) as [H1 [H2 H3]].
  fold groups in H1, H2, H3.
  split; [exact H1|]. split; [|exact H3].
  intros k l Hin. rewrite Forall_forall in H2.
  destruct (H2 _ Hin) as [Hne Hl]. cbn [fst snd] in *.
  split; [exact Hne|]. intros date f Hdf.
  rewrite Forall_forall in Hl. exact (Hl _ Hdf).
Qed.

Lemma insert_by_name_In :
  forall (A : Type) (x y : string * A) l,
    In y (insert_by_name x l) -> y = x \/ In y l.
Proof.
  intros A x y l; induction l as [|z l IH]; simpl.
  - intros [H|[]]; left; congruence.
  - destruct (String.leb (fst z) (fst x)); simpl.
    + intros [H|H]; [right; left; exact H|].
      destruct (IH H) as [E|E]; [left; exact E | right; right; exact E].
    + intros [H|[H|H]]; [left; congruence | right; left; exact H
                         | right; right; exact H].
Qed.

Lemma sorted_by_name_In :
  forall (A : Type) (l : list (string * A)) y,
    In y (sorted_by_name l) -> In y l.
Proof.
  intros A l y. unfold sorted_by_name.
  assert (H : forall l acc,
             In y (fold_left (fun acc x => insert_by_name x acc) l acc) ->
             In y l \/ In y acc).
  { induction l0 as [|x l0 IH]; intros acc Hin; simpl in *; [right; exact Hin|].
    destruct (IH _ Hin) as [H|H]; [left; right; exact H|].
    destruct (insert_by_name_In _ _ _ _ H) as [E|E];
      [left; left; congruence | right; exact E]. }
  intro Hin. destruct (H l [] Hin) as [E|[]]; exact E.
Qed.

Lemma sorted_by_name_Forall :
  forall (A : Type) (P : string * A -> Prop) (l : list (string * A)),
    Forall P l -> Forall P (sorted_by_name l).
Proof.
  intros A P l H. apply Forall_forall. intros y Hy.
  rewrite Forall_forall in H. apply H, sorted_by_name_In, Hy.
Qed.

Lemma month_loop_parsed :
  forall require_all_days groups keyed created_files,
    Forall2
      (fun (g : string * list (datetime * file))
           (kd : (Z * Z) * list (datetime * file)) =>
         parse_year_month (fst g) = Ok (fst kd) /\ snd g = snd kd)
      groups keyed ->
    month_loop require_all_days groups created_files
    = Ok (aggregate_loop require_all_days keyed created_files).
Proof.
  intros rad groups keyed acc H; revert acc.
  induction H as [|[k l] [ym l'] groups keyed [Hp Hl] _ IH]; intro acc;
    [reflexivity|].
  cbn [fst snd] in Hp, Hl. subst l'.
  cbn [month_loop aggregate_loop]. rewrite Hp. cbn [bind].
  destruct (aggregate_month rad ym l); apply IH.
Qed.

Lemma date_of_filename_valid :
  forall filename dt, date_of_filename filename = Ok dt ->
    1 <= year dt <= 9999 /\ 1 <= month dt <= 12
    /\ 1 <= day dt <= monthrange (year dt) (month dt).
Proof. intros filename dt H. exact (strptime_valid _ _ H). Qed.

Lemma sound_groups_parse :
  forall all groups,
    Forall (group_sound all) groups ->
    exists keyed,
      Forall2
        (fun (g : string * list (datetime * file))
             (kd : (Z * Z) * list (datetime * file)) =>
           parse_year_month (fst g) = Ok (fst kd) /\ snd g = snd kd)
        groups keyed
      /\ Forall
           (fun kd : (Z * Z) * list (datetime * file) =>
              snd kd <> []
              /\ forall date f, In (date, f) (snd kd) ->
                   fst kd = (year date, month date)
                   /\ exists filename,
                        In (filename, f) all
                        /\ date_of_filename filename = Ok date)
           keyed.
Proof.
  intros all groups H; induction H as [|[k l] groups [Hne Hl] _ IH].
  - exists []. split; constructor.
  - destruct IH as [keyed [H1 H2]]. cbn [fst snd] in *.
    destruct l as [|[d0 f0] l]; [congruence|].
    assert (Hk : forall date f, In (date, f) ((d0, f0) :: l) ->
                 parse_year_month k = Ok (year date, month date)
                 /\ exists filename,
                      In (filename, f) all
                      /\ date_of_filename filename = Ok date).
    { intros date f Hin. rewrite Forall_forall in Hl.
      destruct (Hl _ Hin) as [Hkey [filename [Hf Hd]]]. cbn [fst snd] in *.
      destruct (date_of_filename_valid _ _ Hd) as [Hy [Hm _]].
      split; [rewrite <- Hkey; apply key_round_trip; assumption|].
      exists filename. split; assumption. }
    exists ((year d0, month d0, (d0, f0) :: l) :: keyed). split.
    + constructor; [|exact H1]. cbn [fst snd].
      split; [exact (proj1 (Hk d0 f0 (or_introl eq_refl))) | reflexivity].
    + constructor; [|exact H2]. cbn [fst snd]. split; [discriminate|].
      intros date f Hin. destruct (Hk _ _ Hin) as [Hp Hf].
      split; [|exact Hf].
      pose proof (proj1 (Hk d0 f0 (or_introl eq_refl))) as Hp0.
      congruence.
Qed.

(** X3: the aggregation of a daily folder does not fail on a key of the
    dictionary: the key written for a month is read back as the year and
    the month of the dates of its files, so every group is aggregated as
    the month of its own files, whatever the content of the folder. *)
Theorem folder_aggregation_reads_its_keys :
  forall daily_folder require_all_days,
    exists keyed,
      aggregate_daily_folder daily_folder require_all_days
      = Ok (aggregate_daily_to_monthly keyed require_all_days)
      /\ Forall
           (fun kd : (Z * Z) * list (datetime * file) =>
              snd kd <> []
              /\ forall date f, In (date, f) (snd kd) ->
                   fst kd = (year date, month date)
                   /\ exists filename,
                        In (filename, f) daily_folder
                        /\ glob_daily filename = true
                        /\ date_of_filename filename = Ok date)
           keyed.
Proof.
  intros listing rad. unfold aggregate_daily_folder.
  set (tiffs := sorted_by_name (filter (fun nf => glob_daily (fst nf)) listing)).
  destruct (group_loop_invariant tiffs tiffs [] (fun x H => H)
              (NoDup_nil _) (Forall_nil _)) as [_ [Hs _]].
  cbv zeta in Hs.
  destruct (sound_groups_parse tiffs _
              (sorted_by_name_Forall _ _ _ Hs)) as [keyed [H1 H2]].
  exists keyed. split.
  - apply month_loop_parsed. exact H1.
  - eapply Forall_impl; [|exact H2].
    intros kd [Hne Hd]. split; [exact Hne|].
    intros date f Hin. destruct (Hd _ _ Hin) as [Hk [filename [Hf Hdate]]].
    split; [exact Hk|]. exists filename.
    apply sorted_by_name_In, filter_In in Hf. cbn [fst] in Hf.
    destruct Hf as [Hf Hg]. repeat split; assumption.
Qed.

(** ** Pooling the baseline periods *)

Lemma baseline_loop_pooled :
  forall coord_polygon target_dt daily_data_folder baseline_periods
         baseline_daily_all baseline_dts,
    baseline_loop coord_polygon target_dt daily_data_folder
      baseline_periods baseline_daily_all baseline_dts
    = (dts <- resolve_all target_dt baseline_periods ;;
       Ok (baseline_daily_all
             ++ List.concat (map (series_of coord_polygon daily_data_folder) dts),
           baseline_dts
             ++ filter (has_series coord_polygon daily_data_folder) dts)).
Proof.
  intros poly tdt fld periods; induction periods as [|p rest IH];
    intros acc dts; cbn [baseline_loop resolve_all bind].
  - cbn. rewrite !app_nil_r. reflexivity.
  - destruct (resolve_baseline tdt p) as [dt|e]; cbn [bind]; [|reflexivity].
    unfold series_of, has_series in *.
    destruct (_extract_daily_no2_for_month poly dt fld) as [l|] eqn:E;
      rewrite IH; destruct (resolve_all tdt rest) as [dts'|e];
      cbn [bind map List.concat filter]; try reflexivity; rewrite E.
    + rewrite <- !app_assoc. reflexivity.
    + reflexivity.
Qed.

(** X4: the baseline periods are pooled into one sample: when every
    period resolves, the test is run on the concatenation, in the order of
    the periods, of the daily series of the baseline months, a month
    without a series adding nothing and not being listed among the
    baseline months of the verdict. *)
Theorem baseline_periods_are_pooled :
  forall stdtr format_3f format_2f coord_polygon target_period
         baseline_period daily_data_folder alpha target_dt dts,
    _parse_period target_period = Ok target_dt ->
    resolve_all target_dt (periods_of baseline_period) = Ok dts ->
    calculate_no2_significance stdtr format_3f format_2f coord_polygon
      target_period baseline_period daily_data_folder alpha
    = Ok (verdict_of_series stdtr format_3f format_2f
            (_extract_daily_no2_for_month coord_polygon target_dt
               daily_data_folder)
            (List.concat (map (series_of coord_polygon daily_data_folder) dts))
            target_dt
            (filter (has_series coord_polygon daily_data_folder) dts)
            alpha).
Proof.
  intros stdtr f3 f2 poly tp bp fld alpha tdt dts Hp Hr.
  unfold calculate_no2_significance. rewrite Hp. cbn [bind].
  fold (periods_of bp). rewrite baseline_loop_pooled, Hr. reflexivity.
Qed.

Lemma baseline_periods_are_pooled_witness :
  exists v,
    calculate_no2_significance (fun _ _ => fzero) (fun _ => ""%string)
      (fun _ => ""%string) whole_grid (PyStr "2021_04")
      (Several [PyStr "2019_04"; PyStr "2020_04"; PyStr "2019"])
      tens_folder default_alpha = Ok v
    /\ option_map n_baseline (details v) = Some 6%nat
    /\ option_map baseline_period (details v)
       = Some "2019-04, 2019-04"%string.
Proof.
  eexists. split.
  - apply (baseline_periods_are_pooled _ _ _ _ _ _ _ _ april_2021
             [april_2019; {| year := 2020; month := 4; day := 1 |};
              april_2019]); reflexivity.
  - vm_compute. split; reflexivity.
Defined.

(** X5: an unreadable period is an error of the whole comparison, whatever
    the data: the function raises when the target period does not parse,
    and when a baseline period does not resolve (the first one that does
    not, in the order of the list); it returns a verdict otherwise. *)
Theorem unparsable_periods_raise :
  forall stdtr format_3f format_2f coord_polygon target_period
         baseline_period daily_data_folder alpha,
    let result :=
      calculate_no2_significance stdtr format_3f format_2f coord_polygon
        target_period baseline_period daily_data_folder alpha in
    (forall e, _parse_period target_period = Raise e -> result = Raise e)
    /\ (forall target_dt e,
          _parse_period target_period = Ok target_dt ->
          resolve_all target_dt (periods_of baseline_period) = Raise e ->
          result = Raise e)
    /\ (forall target_dt dts,
          _parse_period target_period = Ok target_dt ->
          resolve_all target_dt (periods_of baseline_period) = Ok dts ->
          exists v, result = Ok v)
    /\ (forall s, target_period = PyStr s ->
          contains "_" s = false -> contains "-" s = false ->
          result = Raise ValueError).
Proof.
  intros stdtr f3 f2 poly tp bp fld alpha result.
  unfold result, calculate_no2_significance. fold (periods_of bp).
  split; [|split; [|split]].
  - intros e H. rewrite H. reflexivity.
  - intros tdt e Hp Hr. rewrite Hp. cbn [bind].
    rewrite baseline_loop_pooled, Hr. reflexivity.
  - intros tdt dts Hp Hr. rewrite Hp. cbn [bind].
    rewrite baseline_loop_pooled, Hr. cbn [bind]. eexists. reflexivity.
  - intros s -> H1 H2. unfold _parse_period. rewrite H1, H2. reflexivity.
Qed.

Lemma unparsable_periods_raise_witness :
  calculate_no2_significance (fun _ _ => fzero) (fun _ => ""%string)
    (fun _ => ""%string) whole_grid (PyStr "2021_04")
    (Several [PyStr "2019_04"; PyStr "April 2020"; PyNone])
    tens_folder default_alpha = Raise ValueError
  /\ calculate_no2_significance (fun _ _ => fzero) (fun _ => ""%string)
       (fun _ => ""%string) whole_grid (PyStr "202104")
       (Single (PyStr "2019")) tens_folder default_alpha
     = Raise ValueError.
Proof.
  split.
  - apply (proj1 (proj2 (unparsable_periods_raise _ _ _ _ _ _ _ _))
             april_2021); reflexivity.
  - apply (proj2 (proj2 (proj2 (unparsable_periods_raise _ _ _ _ _ _ _ _)))
             "202104"%string); reflexivity.
Defined.

(** ** What the daily series depends on *)

Lemma month_days_spec :
  forall dt d,
    In d (month_days dt) <-> 1 <= d <= monthrange (year dt) (month dt).
Proof.
  intros dt d. unfold month_days. rewrite in_map_iff. split.
  - intros [k [<- Hk]]. apply in_seq in Hk. lia.
  - intro H. exists (Z.to_nat d). split; [lia|]. apply in_seq. lia.
Qed.

Lemma flat_map_agree :
  forall (A B : Type) (f g : A -> list B) l,
    (forall x, In x l -> f x = g x) -> flat_map f l = flat_map g l.
Proof.
  intros A B f g l; induction l as [|x l IH]; intro H; [reflexivity|].
  simpl. rewrite (H x (or_introl eq_refl)), IH; [reflexivity|].
  intros y Hy. apply H. right. exact Hy.
Qed.

(** X6: the daily series of a month is read from the files named after
    the days of that month and from nothing else: it does not depend on
    the day of the period, and two folders that agree on these names give
    the same series. *)
Theorem daily_series_reads_its_month_only :
  forall coord_polygon period_dt period_dt' folder1 folder2,
    year period_dt = year period_dt' ->
    month period_dt = month period_dt' ->
    (forall d, 1 <= d <= monthrange (year period_dt) (month period_dt) ->
       folder1 (daily_name period_dt d) = folder2 (daily_name period_dt d)) ->
    _extract_daily_no2_for_month coord_polygon period_dt folder1
    = _extract_daily_no2_for_month coord_polygon period_dt' folder2.
Proof.
  intros poly dt dt' f1 f2 Hy Hm Hagree.
  unfold _extract_daily_no2_for_month.
  rewrite !daily_loop_defined_means. cbn [app].
  assert (Hdays : month_days dt' = month_days dt)
    by (unfold month_days; rewrite Hy, Hm; reflexivity).
  rewrite Hdays.
  assert (E : defined_means poly dt f1 (month_days dt)
              = defined_means poly dt' f2 (month_days dt)).
  { unfold defined_means. apply flat_map_agree. intros d Hd.
    apply month_days_spec in Hd. specialize (Hagree d Hd).
    unfold daily_mean. unfold daily_name in Hagree.
    rewrite <- Hy, <- Hm. rewrite Hagree. reflexivity. }
  rewrite E. reflexivity.
Qed.

Lemma daily_series_reads_its_month_only_witness :
  _extract_daily_no2_for_month whole_grid april_2021 tens_folder
  = _extract_daily_no2_for_month whole_grid
      {| year := 2021; month := 4; day := 17 |}
      (fun n => if String.eqb n "no2_data_2021-05-01.tif"
                then Some Unreadable else tens_folder n).
Proof.
  apply daily_series_reads_its_month_only; [reflexivity | reflexivity |].
  intros d Hd.
  assert (H : forallb
                (fun d => negb (String.eqb (daily_name april_2021 d)
                                  "no2_data_2021-05-01.tif"))
                (Z_range 1 30) = true) by (vm_compute; reflexivity).
  pose proof (forallb_Z_range _ 1 30 H d) as Hne.
  change (monthrange (year april_2021) (month april_2021)) with 30 in Hd.
  specialize (Hne ltac:(lia)). apply negb_true_iff in Hne.
  rewrite Hne. reflexivity.
Defined.

(** ** The strings of the verdict *)

Lemma parse_period_str_valid :
  forall s dt, _parse_period (PyStr s) = Ok dt ->
    1 <= year dt <= 9999 /\ 1 <= month dt <= 12 /\ day dt = 1.
Proof.
  assert (P : forall sep s dt, parse_two_parts sep s = Ok dt ->
            1 <= year dt <= 9999 /\ 1 <= month dt <= 12 /\ day dt = 1).
  { intros sep s dt. unfold parse_two_parts.
    destruct (split sep s) as [|ys [|ms [|x l]]]; try discriminate.
    destruct (int_of_str ys) as [yi|]; [|discriminate].
    destruct (int_of_str ms) as [mi|]; [|discriminate].
    cbn [bind]. intro H.
    destruct (mk_datetime_inv _ _ _ _ H) as [-> [Hy [Hm _]]].
    cbn [year month day]. repeat split; lia. }
  intros s dt. unfold _parse_period.
  destruct (contains "_" s); [apply P|].
  destruct (contains "-" s); [apply P | discriminate].
Qed.

Lemma dashless_years :
  forall y, 1 <= y <= 9999 -> contains "-" (str_of_int y) = false.
Proof.
  intros y Hy. apply negb_true_iff.
  apply (forallb_Z_range dashless_year 1 9999); [vm_compute; reflexivity|].
  lia.
Qed.

(** The string [%Y-%m] of a first day of a month is read back as that
    day, also when the year has fewer than four digits. *)
Lemma parse_period_strftime :
  forall y m d, 1 <= y <= 9999 -> 1 <= m <= 12 ->
    _parse_period
      (PyStr (strftime_Y_m "-" {| year := y; month := m; day := d |}))
    = Ok {| year := y; month := m; day := 1 |}.
Proof.
  intros y m d Hy Hm.
  pose proof (year_keys_ok _ Hy) as Ky. unfold year_key_ok in Ky.
  apply andb_true_iff in Ky as [Ky1 Ky2].
  destruct (int_of_str (str_of_int y)) as [z|] eqn:Ey; [|discriminate].
  apply Z.eqb_eq in Ky1; subst z. apply negb_true_iff in Ky2.
  pose proof (dashless_years y Hy) as Dy.
  destruct (field_ok_spec 2 m (months_ok m Hm)) as [Him [Hm1 [Hm2 _]]].
  unfold _parse_period, strftime_Y_m. cbn [year month].
  change ("-" ++ zfill 2 m)%string with (String "-" (zfill 2 m)).
  rewrite !contains_app. cbn [contains]. rewrite Ky2, Hm1, Dy.
  rewrite Ascii.eqb_refl. cbn [orb Ascii.eqb Bool.eqb].
  unfold parse_two_parts.
  rewrite (split_app_sep "-" _ _ Dy), (split_no_sep "-" _ Hm2).
  rewrite Ey, Him. cbn [bind]. apply mk_datetime_first; assumption.
Qed.

Lemma verdict_details_strings :
  forall stdtr format_3f format_2f target_daily baseline_daily_all
         target_dt baseline_dts alpha d,
    let v := verdict_of_series stdtr format_3f format_2f target_daily
               baseline_daily_all target_dt baseline_dts alpha in
    details v = Some d ->
    target_period d = strftime_Y_m "-" target_dt
    /\ baseline_period d
       = String.concat ", " (map (strftime_Y_m "-") baseline_dts)
    /\ interpretation v
       = _generate_interpretation format_3f format_2f (significant v)
           (p_value v) (percent_change d) (cohens_d d).
Proof.
  intros stdtr f3 f2 t b tdt dts alpha d v. unfold v, verdict_of_series.
  destruct t as [t|]; [|discriminate].
  destruct (_ || _); [discriminate|].
  destruct (ttest_ind stdtr b t true) as [t_stat p].
  cbn [details significant p_value interpretation].
  intro H; injection H as <-.
  cbn [target_period baseline_period percent_change cohens_d].
  repeat split.
Qed.

(** X7: the [target_period] string of a verdict names the period that was
    asked for: for a target given as a string, parsing the string of the
    verdict gives the date that parsing the target gave. *)
Theorem verdict_target_period_round_trip :
  forall stdtr format_3f format_2f coord_polygon s baseline_period
         daily_data_folder alpha v d,
    calculate_no2_significance stdtr format_3f format_2f coord_polygon
      (PyStr s) baseline_period daily_data_folder alpha = Ok v ->
    details v = Some d ->
    _parse_period (PyStr (target_period d)) = _parse_period (PyStr s).
Proof.
  intros stdtr f3 f2 poly s bp fld alpha v d Hc Hd.
  unfold calculate_no2_significance in Hc.
  destruct (_parse_period (PyStr s)) as [tdt|e] eqn:Hp; [|discriminate].
  cbn [bind] in Hc.
  destruct (baseline_loop poly tdt fld _ [] []) as [bl|e]; [|discriminate].
  cbn [bind] in Hc. injection Hc as <-.
  destruct (verdict_details_strings _ _ _ _ _ _ _ _ _ Hd) as [Ht _].
  destruct (parse_period_str_valid s tdt Hp) as [Hy [Hm Hday]].
  rewrite Ht.
  destruct tdt as [y m dd]. cbn [year month day] in *. subst dd.
  apply parse_period_strftime; assumption.
Qed.

Lemma verdict_target_period_round_trip_witness :
  exists v d,
    calculate_no2_significance (fun _ _ => fzero) (fun _ => ""%string)
      (fun _ => ""%string) whole_grid (PyStr "2021_04")
      (Single (PyStr "2019")) tens_folder default_alpha = Ok v
    /\ details v = Some d
    /\ _parse_period (PyStr (target_period d)) = Ok april_2021.
Proof.
  destruct (verdict_of_series_fields (fun _ _ => fzero)
              (fun _ => ""%string) (fun _ => ""%string) ten_thrice
              ten_thrice april_2021 [april_2019] default_alpha)
    as [d [Hd _]]; [simpl; lia | simpl; lia |].
  eexists. exists d.
  split; [apply tens_folder_verdict|]. split; [exact Hd|].
  rewrite (verdict_target_period_round_trip _ _ _ _ _ _ _ _ _ d
             (tens_folder_verdict _ _ _) Hd).
  reflexivity.
Defined.

Lemma interpretation_prefix :
  forall format_3f format_2f is_significant p_value percent_change cohens_d,
    prefix "not statistically significant"
      (_generate_interpretation format_3f format_2f is_significant p_value
         percent_change cohens_d)
    = negb is_significant.
Proof.
  intros f3 f2 sig p pc d. unfold _generate_interpretation.
  destruct sig.
  - destruct (fltb p (literal 1 1000)); [reflexivity|].
    destruct (fltb p (literal 1 100)); reflexivity.
  - reflexivity.
Qed.

(** X8: the text of a computed verdict agrees with its flag: the
    interpretation starts with "not statistically significant" exactly
    when [significant] is false, whatever the significance level. *)
Theorem interpretation_agrees_with_flag :
  forall stdtr format_3f format_2f target_daily baseline_daily_all
         target_dt baseline_dts alpha,
    (3 <= List.length target_daily)%nat ->
    (3 <= List.length baseline_daily_all)%nat ->
    let v := verdict_of_series stdtr format_3f format_2f
               (Some target_daily) baseline_daily_all target_dt
               baseline_dts alpha in
    prefix "not statistically significant" (interpretation v)
    = negb (significant v)
    /\ significant v = fltb (p_value v) alpha.
Proof.
  intros stdtr f3 f2 t b tdt dts alpha Ht Hb v.
  destruct (verdict_of_series_fields stdtr f3 f2 t b tdt dts alpha Ht Hb)
    as [d [Hd [Hp [Hs _]]]].
  fold v in Hd, Hp, Hs.
  destruct (verdict_details_strings _ _ _ _ _ _ _ _ _ Hd) as [_ [_ Hi]].
  fold v in Hi. rewrite Hi, interpretation_prefix.
  split; [reflexivity|]. rewrite Hs, Hp. reflexivity.
Qed.

Lemma interpretation_agrees_with_flag_witness :
  let v := verdict_of_series (fun _ _ => fzero) (fun _ => ""%string)
             (fun _ => ""%string) (Some ten_thrice) ten_thrice april_2021
             [] default_alpha in
  prefix "not statistically significant" (interpretation v)
  = negb (significant v).
Proof.
  intro v.
  apply (interpretation_agrees_with_flag (fun _ _ => fzero)
           (fun _ => ""%string) (fun _ => ""%string) ten_thrice ten_thrice
           april_2021 [] default_alpha); simpl; lia.
Defined.

(** ** The timepoints of a city *)

Lemma format_0wd_nonneg :
  forall w z, 0 <= z -> format_0wd w z = zfill w z.
Proof.
  intros w z Hz. unfold format_0wd.
  replace (z <? 0) with false by (symmetry; apply Z.ltb_ge; exact Hz).
  reflexivity.
Qed.

(** The month window exists for every month but December 9999, after
    which there is no next month. *)
Lemma month_window_ok :
  forall y m, 1 <= y <= 9999 -> 1 <= m <= 12 -> y < 9999 \/ m < 12 ->
    exists window, month_window y m = Ok window.
Proof.
  intros y m Hy Hm Hlast. unfold month_window.
  rewrite (mk_datetime_first y m Hy Hm). cbn [bind].
  destruct (Z.eqb_spec m 12) as [->|Hne].
  - rewrite (mk_datetime_first (y + 1) 1) by lia. eexists. reflexivity.
  - rewrite (mk_datetime_first y (m + 1)) by lia. eexists. reflexivity.
Qed.

Lemma month_window_last :
  month_window 9999 12 = Raise ValueError.
Proof. reflexivity. Qed.

Lemma baselines_all_ok : forall m, 1 <= m <= 12 -> baselines_ok m = true.
Proof.
  intros m Hm.
  apply (forallb_Z_range baselines_ok 1 12); [vm_compute; reflexivity|].
  lia.
Qed.

Lemma resolve_all_ok :
  forall target_dt (P : datetime -> Prop) periods,
    Forall (fun p => exists dt, resolve_baseline target_dt p = Ok dt /\ P dt)
      periods ->
    exists dts,
      resolve_all target_dt periods = Ok dts
      /\ List.length dts = List.length periods /\ Forall P dts.
Proof.
  intros tdt P periods H; induction H as [|p rest [dt [Hr Hp]] _ IH].
  - exists []. repeat split. constructor.
  - destruct IH as [dts [Hd [Hl Hf]]]. exists (dt :: dts).
    cbn [resolve_all]. rewrite Hr. cbn [bind]. rewrite Hd. cbn [bind].
    repeat split; [simpl; lia|]. constructor; assumption.
Qed.

Lemma baseline_periods_each_resolve :
  forall m target_dt, 1 <= m <= 12 ->
    Forall
      (fun p => exists dt, resolve_baseline target_dt p = Ok dt
                           /\ pre_covid_month m dt)
      (get_baseline_periods m).
Proof.
  intros m tdt Hm.
  pose proof (baselines_all_ok m Hm) as Hok. unfold baselines_ok in Hok.
  rewrite forallb_forall in Hok.
  apply Forall_forall. intros p Hp. specialize (Hok p Hp).
  apply andb_true_iff in Hok as [Hlen Hparse].
  apply negb_true_iff in Hlen.
  unfold resolve_baseline. rewrite Hlen.
  destruct (_parse_period p) as [dt|]; [|discriminate].
  exists dt. split; [reflexivity|].
  repeat (apply andb_true_iff in Hparse; destruct Hparse as [Hparse ?]).
  unfold pre_covid_month.
  repeat match goal with H : (_ =? _) = true |- _ =>
    apply Z.eqb_eq in H end.
  repeat split; try assumption.
  - match goal with H : (_ || _) = true |- _ =>
      apply orb_true_iff in H; destruct H as [H|H];
      apply Z.eqb_eq in H; [left | right]; exact H end.
  - apply negb_true_iff; assumption.
Qed.

(** X9: the baseline periods that the timepoint assembly asks for are
    sound: for every month they resolve, whatever the target, to first
    days of that same calendar month in 2019 or 2020, all before the COVID
    era (March 2020), the first being the month of 2019. *)
Theorem baseline_periods_are_pre_covid :
  forall m target_dt, 1 <= m <= 12 ->
    exists dts,
      resolve_all target_dt (get_baseline_periods m) = Ok dts
      /\ Forall (pre_covid_month m) dts
      /\ hd_error dts = Some {| year := 2019; month := m; day := 1 |}
      /\ (1 <= List.length dts <= 2)%nat.
Proof.
  intros m tdt Hm.
  pose proof (baseline_periods_each_resolve m tdt Hm) as HF.
  destruct (resolve_all_ok tdt _ _ HF) as [dts [Hr [Hl Hf]]].
  exists dts. split; [exact Hr|]. split; [exact Hf|].
  assert (Hlen : (1 <= List.length (get_baseline_periods m) <= 2)%nat).
  { unfold get_baseline_periods.
    destruct (m =? 1); [simpl; lia|]. destruct (m =? 2); simpl; lia. }
  split; [|lia].
  (* the first period is the month of 2019 *)
  destruct (field_ok_spec 2 m (months_ok m Hm)) as [Him [Hm1 [Hm2 _]]].
  assert (H1 : resolve_baseline tdt (PyStr ("2019_" ++ zfill 2 m))
               = Ok {| year := 2019; month := m; day := 1 |}).
  { unfold resolve_baseline. cbn [py_str].
    replace (String.length ("2019_" ++ zfill 2 m) =? 4)%nat with false
      by (symmetry; apply Nat.eqb_neq; rewrite string_length_app; simpl; lia).
    change ("2019_" ++ zfill 2 m)%string
      with (format_period "_" 2019 m).
    unfold _parse_period, format_period.
    rewrite contains_app. cbn [contains]. rewrite Ascii.eqb_refl.
    rewrite orb_true_r.
    apply (parse_two_parts_format "_"); [left; reflexivity | lia | exact Hm]. }
  unfold get_baseline_periods in Hr.
  rewrite (format_0wd_nonneg 2 m) in Hr by lia.
  destruct (m =? 1); [|destruct (m =? 2)];
    cbn [app resolve_all] in Hr; rewrite H1 in Hr; cbn [bind] in Hr;
    match type of Hr with
    | context [resolve_all tdt ?l] =>
        destruct (resolve_all tdt l) as [r|]; [|discriminate]
    | _ => idtac
    end;
    cbn [bind] in Hr; try (destruct (resolve_baseline tdt _);
                           [|discriminate]; cbn [bind] in Hr);
    injection Hr as <-; reflexivity.
Qed.

Lemma baseline_periods_are_pre_covid_witness :
  exists dts,
    resolve_all april_2021 (get_baseline_periods 1) = Ok dts
    /\ Forall (pre_covid_month 1) dts
    /\ hd_error dts = Some {| year := 2019; month := 1; day := 1 |}.
Proof.
  destruct (baseline_periods_are_pre_covid 1 april_2021 ltac:(lia))
    as [dts [Hr [Hf [Hh _]]]].
  exists dts. repeat split; assumption.
Defined.

Lemma parse_period_underscore_format :
  forall y m, 1 <= y <= 9999 -> 1 <= m <= 12 ->
    _parse_period (PyStr (format_period "_" y m))
    = Ok {| year := y; month := m; day := 1 |}.
Proof.
  intros y m Hy Hm. unfold _parse_period, format_period.
  rewrite contains_app. cbn [contains]. rewrite Ascii.eqb_refl.
  rewrite orb_true_r.
  apply (parse_two_parts_format "_"); auto.
Qed.

Lemma split_period_str :
  forall y m, 1 <= y <= 9999 -> 1 <= m <= 12 ->
    split "_" (format_period "_" y m) = [zfill 4 y; zfill 2 m]
    /\ int_of_str (zfill 4 y) = Ok y
    /\ int_of_str (zfill 2 m) = Ok m.
Proof.
  intros y m Hy Hm.
  destruct (field_ok_spec 4 y (years_ok y Hy)) as [Hiy [Hy1 _]].
  destruct (field_ok_spec 2 m (months_ok m Hm)) as [Him [Hm1 _]].
  unfold format_period.
  rewrite (split_app_sep "_" _ _ Hy1), (split_no_sep "_" _ Hm1).
  repeat split; assumption.
Qed.

(** X10: before the COVID era the timepoint of a city is built from the
    monthly lookup alone: for a well-formed period before March 2020 the
    assembly returns a record with the value of the lookup (0.0 when it is
    falsy), incidence 0, p-value 1 and the text "Precovid baseline",
    whatever the incidence table and the daily folder hold. *)
Theorem precovid_timepoint :
  forall stdtr format_3f format_2f city_name geometry incidence_value y m
         no2_daily_folder no2_monthly_folder,
    1 <= y <= 9999 -> 1 <= m <= 12 ->
    is_covid_era y m = false ->
    exists no2_value,
      calculate_period_no2_coord_polygon geometry
        (PyStr (format_period "_" y m)) no2_monthly_folder = Ok no2_value
      /\ city_timepoint stdtr format_3f format_2f city_name geometry
           incidence_value (format_period "_" y m) no2_daily_folder
           no2_monthly_folder
         = Ok {| cityName := city_name;
                 timestamp := format_period "-" y m;
                 value := value_or_zero no2_value;
                 incidence := fzero;
                 pValue := F64.of_Z 1;
                 tp_interpretation := "Precovid baseline" |}.
Proof.
  intros stdtr f3 f2 name geom inc y m dfld mfld Hy Hm Hc.
  destruct (lookup_never_raises geom (PyStr (format_period "_" y m)) mfld)
    as [r Hr]; [left; eexists; reflexivity|].
  exists r. split; [exact Hr|].
  destruct (split_period_str y m Hy Hm) as [Hs [Hiy Him]].
  unfold city_timepoint. rewrite Hs, Hiy, Him. cbn [bind].
  rewrite Hc, Hr, !format_0wd_nonneg by lia. reflexivity.
Qed.

Lemma precovid_timepoint_witness :
  city_timepoint (fun _ _ => fzero) (fun _ => ""%string)
    (fun _ => ""%string) "Berlin" whole_grid (F64.of_Z 35) "2020_02"
    tens_folder
    (one_file "no2_data_2020_02.tif"
       (Readable (row_raster [F32.of_Z 10] (Some nodata_value))))
  = Ok {| cityName := "Berlin";
          timestamp := "2020-02";
          value := F64.of_Z 10;
          incidence := fzero;
          pValue := F64.of_Z 1;
          tp_interpretation := "Precovid baseline" |}.
Proof.
  destruct (precovid_timepoint (fun _ _ => fzero) (fun _ => ""%string)
              (fun _ => ""%string) "Berlin" whole_grid (F64.of_Z 35)
              2020 2 tens_folder
              (one_file "no2_data_2020_02.tif"
                 (Readable (row_raster [F32.of_Z 10] (Some nodata_value))))
              ltac:(lia) ltac:(lia) eq_refl) as [r [Hr Ht]].
  change (format_period "_" 2020 2) with "2020_02"%string in Hr, Ht.
  rewrite Ht. vm_compute in Hr. injection Hr as <-. reflexivity.
Defined.

(** In the COVID era the significance test of a well-formed period is
    run on the pooled series of its baseline months: neither the target
    nor a baseline period fails to parse. *)
Lemma covid_significance_returns :
  forall stdtr format_3f format_2f geometry y m no2_daily_folder,
    1 <= y <= 9999 -> 1 <= m <= 12 ->
    let target_dt := {| year := y; month := m; day := 1 |} in
    exists dts,
      calculate_no2_significance stdtr format_3f format_2f geometry
        (PyStr (format_period "_" y m)) (Several (get_baseline_periods m))
        no2_daily_folder default_alpha
      = Ok (verdict_of_series stdtr format_3f format_2f
              (_extract_daily_no2_for_month geometry target_dt
                 no2_daily_folder)
              (List.concat
                 (map (series_of geometry no2_daily_folder) dts))
              target_dt
              (filter (has_series geometry no2_daily_folder) dts)
              default_alpha).
Proof.
  intros stdtr f3 f2 geom y m dfld Hy Hm tdt.
  destruct (resolve_all_ok tdt _ _
              (baseline_periods_each_resolve m tdt Hm)) as [dts [Hd _]].
  exists dts. unfold calculate_no2_significance.
  rewrite (parse_period_underscore_format y m Hy Hm).
  cbn [bind]. rewrite baseline_loop_pooled. fold tdt. rewrite Hd.
  reflexivity.
Qed.

(** The record of a city for a well-formed period of the COVID era. *)
Lemma covid_timepoint_record :
  forall stdtr format_3f format_2f city_name geometry incidence_value y m
         no2_daily_folder no2_monthly_folder no2_value stat_test,
    1 <= y <= 9999 -> 1 <= m <= 12 -> y < 9999 \/ m < 12 ->
    is_covid_era y m = true ->
    calculate_period_no2_coord_polygon geometry
      (PyStr (format_period "_" y m)) no2_monthly_folder = Ok no2_value ->
    calculate_no2_significance stdtr format_3f format_2f geometry
      (PyStr (format_period "_" y m)) (Several (get_baseline_periods m))
      no2_daily_folder default_alpha = Ok stat_test ->
    city_timepoint stdtr format_3f format_2f city_name geometry
      incidence_value (format_period "_" y m) no2_daily_folder
      no2_monthly_folder
    = Ok {| cityName := city_name;
            timestamp := format_period "-" y m;
            value := value_or_zero no2_value;
            incidence := incidence_value;
            pValue := p_value stat_test;
            tp_interpretation := interpretation stat_test |}.
Proof.
  intros stdtr f3 f2 name geom inc y m dfld mfld r v Hy Hm Hlast Hc Hr Hv.
  destruct (split_period_str y m Hy Hm) as [Hs [Hiy Him]].
  destruct (month_window_ok y m Hy Hm Hlast) as [w Hw].
  unfold city_timepoint. rewrite Hs, Hiy, Him.
  cbn [bind]. rewrite Hc, Hw. cbn [bind]. rewrite Hr. cbn [bind].
  rewrite Hv, !format_0wd_nonneg by lia. reflexivity.
Qed.

(** X11: in the COVID era the assembly of a well-formed period other than
    December 9999 (after which pandas has no next month) does not raise:
    the target and the baseline periods it builds always parse; the
    record holds the incidence it is given and the p-value and text of
    the verdict of the significance test, and when the target month has
    fewer than three daily values these are 1.0 and the text of the
    insufficient-data verdict. *)
Theorem covid_timepoint :
  forall stdtr format_3f format_2f city_name geometry incidence_value y m
         no2_daily_folder no2_monthly_folder,
    1 <= y <= 9999 -> 1 <= m <= 12 -> y < 9999 \/ m < 12 ->
    is_covid_era y m = true ->
    let period_str := format_period "_" y m in
    let target_dt := {| year := y; month := m; day := 1 |} in
    exists no2_value stat_test,
      calculate_period_no2_coord_polygon geometry (PyStr period_str)
        no2_monthly_folder = Ok no2_value
      /\ calculate_no2_significance stdtr format_3f format_2f geometry
           (PyStr period_str) (Several (get_baseline_periods m))
           no2_daily_folder default_alpha = Ok stat_test
      /\ city_timepoint stdtr format_3f format_2f city_name geometry
           incidence_value period_str no2_daily_folder no2_monthly_folder
         = Ok {| cityName := city_name;
                 timestamp := format_period "-" y m;
                 value := value_or_zero no2_value;
                 incidence := incidence_value;
                 pValue := p_value stat_test;
                 tp_interpretation := interpretation stat_test |}
      /\ (match _extract_daily_no2_for_month geometry target_dt
                  no2_daily_folder with
          | None => True
          | Some target_daily => (List.length target_daily < 3)%nat
          end ->
          stat_test = insufficient_data).
Proof.
  intros stdtr f3 f2 name geom inc y m dfld mfld Hy Hm Hlast Hc pstr tdt.
  destruct (lookup_never_raises geom (PyStr pstr) mfld)
    as [r Hr]; [left; eexists; reflexivity|].
  destruct (covid_significance_returns stdtr f3 f2 geom y m dfld Hy Hm)
    as [dts Hv].
  exists r. eexists. split; [exact Hr|]. split; [exact Hv|]. split.
  - apply covid_timepoint_record; assumption.
  - intro Hsmall. apply verdict_of_series_insufficient.
    fold tdt.
    destruct (_extract_daily_no2_for_month geom tdt dfld);
      [left; exact Hsmall | exact I].
Qed.

Lemma covid_timepoint_witness :
  exists no2_value stat_test,
    city_timepoint (fun _ _ => fzero) (fun _ => ""%string)
      (fun _ => ""%string) "Berlin" whole_grid (F64.of_Z 35) "2021_04"
      empty_folder empty_folder
    = Ok {| cityName := "Berlin";
            timestamp := "2021-04";
            value := value_or_zero no2_value;
            incidence := F64.of_Z 35;
            pValue := p_value stat_test;
            tp_interpretation := interpretation stat_test |}
    /\ stat_test = insufficient_data.
Proof.
  destruct (covid_timepoint (fun _ _ => fzero) (fun _ => ""%string)
              (fun _ => ""%string) "Berlin" whole_grid (F64.of_Z 35)
              2021 4 empty_folder empty_folder
              ltac:(lia) ltac:(lia) ltac:(lia) eq_refl)
    as [r [v [_ [_ [Ht Hi]]]]].
  exists r, v. split; [exact Ht|]. apply Hi. vm_compute. exact I.
Defined.

(** ** The recorded value of a falsy lookup *)

(** The timepoint depends on the monthly folder only through the recorded
    value of the lookup. *)
Lemma city_timepoint_value_only :
  forall stdtr format_3f format_2f city_name geometry incidence_value
         period_str no2_daily_folder folder1 folder2 r1 r2,
    calculate_period_no2_coord_polygon geometry (PyStr period_str) folder1
    = Ok r1 ->
    calculate_period_no2_coord_polygon geometry (PyStr period_str) folder2
    = Ok r2 ->
    value_or_zero r1 = value_or_zero r2 ->
    city_timepoint stdtr format_3f format_2f city_name geometry
      incidence_value period_str no2_daily_folder folder1
    = city_timepoint stdtr format_3f format_2f city_name geometry
        incidence_value period_str no2_daily_folder folder2.
Proof.
  intros stdtr f3 f2 name geom inc pstr dfld m1 m2 r1 r2 H1 H2 Hv.
  unfold city_timepoint.
  destruct (split "_" pstr) as [|y [|m [|x l]]]; try reflexivity.
  destruct (int_of_str y) as [yi|]; [|reflexivity].
  destruct (int_of_str m) as [mi|]; [|reflexivity].
  cbn [bind]. rewrite H1, H2.
  destruct (month_window yi mi); cbn [bind]; rewrite Hv; reflexivity.
Qed.

(** A well-formed period other than December 9999 gives a record, with
    the recorded value of the lookup. *)
Lemma city_timepoint_returns :
  forall stdtr format_3f format_2f city_name geometry incidence_value y m
         no2_daily_folder no2_monthly_folder no2_value,
    1 <= y <= 9999 -> 1 <= m <= 12 -> y < 9999 \/ m < 12 ->
    calculate_period_no2_coord_polygon geometry
      (PyStr (format_period "_" y m)) no2_monthly_folder = Ok no2_value ->
    exists t,
      city_timepoint stdtr format_3f format_2f city_name geometry
        incidence_value (format_period "_" y m) no2_daily_folder
        no2_monthly_folder = Ok t
      /\ value t = value_or_zero no2_value.
Proof.
  intros stdtr f3 f2 name geom inc y m dfld mfld r Hy Hm Hlast Hr.
  destruct (is_covid_era y m) eqn:Hc.
  - destruct (covid_significance_returns stdtr f3 f2 geom y m dfld Hy Hm)
      as [dts Hv].
    eexists. split.
    + apply (covid_timepoint_record stdtr f3 f2 name geom inc y m dfld
               mfld r _ Hy Hm Hlast Hc Hr Hv).
    + reflexivity.
  - destruct (split_period_str y m Hy Hm) as [Hs [Hiy Him]].
    unfold city_timepoint. rewrite Hs, Hiy, Him. cbn [bind].
    rewrite Hc, Hr. eexists. split; reflexivity.
Qed.

(** C10: the monthly lookup never raises, a missing or unreadable monthly
    raster gives [None], and the timepoint records 0.0 for every falsy
    lookup result: a missing raster, a failed read and a computed zonal
    mean of zero give the same timepoint, with value 0.0 whenever it is a
    record, and for a well-formed period (other than December 9999, where
    pandas has no next month) it is a record. *)
Theorem falsy_lookups_record_zero :
  forall stdtr format_3f format_2f city_name geometry incidence_value
         period_str no2_daily_folder missing unreadable zero_mean v,
    missing (monthly_name period_str) = None ->
    unreadable (monthly_name period_str) = Some Unreadable ->
    calculate_period_no2_coord_polygon geometry (PyStr period_str)
      zero_mean = Ok (Some v) ->
    is_zero v = true ->
    let tp := city_timepoint stdtr format_3f format_2f city_name geometry
                incidence_value period_str no2_daily_folder in
    (forall period no2_data_folder,
       (exists s, period = PyStr s) \/ (exists d, period = PyDatetime d) ->
       exists r, calculate_period_no2_coord_polygon geometry period
                   no2_data_folder = Ok r)
    /\ calculate_period_no2_coord_polygon geometry (PyStr period_str)
         missing = Ok None
    /\ calculate_period_no2_coord_polygon geometry (PyStr period_str)
         unreadable = Ok None
    /\ value_or_zero None = fzero
    /\ value_or_zero (Some v) = fzero
    /\ tp missing = tp unreadable
    /\ tp missing = tp zero_mean
    /\ (forall t, tp missing = Ok t -> value t = fzero)
    /\ (forall y m,
          1 <= y <= 9999 -> 1 <= m <= 12 -> y < 9999 \/ m < 12 ->
          period_str = format_period "_" y m ->
          exists t,
            tp missing = Ok t /\ tp unreadable = Ok t
            /\ tp zero_mean = Ok t /\ value t = fzero).
Proof.
  intros stdtr f3 f2 name geom inc pstr dfld m1 m2 m3 v H1 H2 H3 Hz tp.
  assert (L1 := lookup_missing_or_unreadable geom pstr m1 (or_introl H1)).
  assert (L2 := lookup_missing_or_unreadable geom pstr m2 (or_intror H2)).
  assert (Hv : value_or_zero (Some v) = fzero)
    by (apply value_or_zero_falsy, truthy_zero; exact Hz).
  assert (E12 : tp m1 = tp m2).
  { apply (city_timepoint_value_only _ _ _ _ _ _ _ _ _ _ None None L1 L2).
    reflexivity. }
  assert (E13 : tp m1 = tp m3).
  { apply (city_timepoint_value_only _ _ _ _ _ _ _ _ _ _ None (Some v)
             L1 H3).
    symmetry; exact Hv. }
  split; [intros; apply lookup_never_raises; assumption|].
  split; [exact L1|]. split; [exact L2|].
  split; [reflexivity|]. split; [exact Hv|].
  split; [exact E12|]. split; [exact E13|]. split.
  { intros t Ht. unfold tp, city_timepoint in Ht.
    destruct (split "_" pstr) as [|y [|m [|x l]]];
      try exact (match Ht with end) || discriminate.
    destruct (int_of_str y) as [yi|]; [|discriminate].
    destruct (int_of_str m) as [mi|]; [|discriminate].
    cbn [bind] in Ht. rewrite L1 in Ht.
    destruct (is_covid_era yi mi).
    - destruct (month_window yi mi); [|discriminate]. cbn [bind] in Ht.
      destruct (calculate_no2_significance _ _ _ _ _ _ _ _);
        [|discriminate].
      cbn [bind] in Ht. injection Ht as <-. reflexivity.
    - cbn [bind] in Ht. injection Ht as <-. reflexivity. }
  intros y m Hy Hm Hlast E. subst pstr.
  destruct (city_timepoint_returns stdtr f3 f2 name geom inc y m dfld m1
              None Hy Hm Hlast L1) as [t [Ht Hval]].
  exists t. fold (tp m1) in Ht.
  split; [exact Ht|]. split; [rewrite <- E12; exact Ht|].
  split; [rewrite <- E13; exact Ht | exact Hval].
Qed.

Lemma falsy_lookups_record_zero_witness :
  let tp := city_timepoint (fun _ _ => fzero) (fun _ => ""%string)
              (fun _ => ""%string) "Berlin" whole_grid fzero "2021_04"
              empty_folder in
  exists t,
    tp empty_folder = Ok t
    /\ tp (one_file "no2_data_2021_04.tif" Unreadable) = Ok t
    /\ tp (one_file "no2_data_2021_04.tif"
             (Readable (row_raster [fzero; S754_zero true] None))) = Ok t
    /\ value t = fzero.
Proof.
  intro tp.
  destruct (falsy_lookups_record_zero (fun _ _ => fzero)
              (fun _ => ""%string) (fun _ => ""%string) "Berlin" whole_grid
              fzero "2021_04" empty_folder empty_folder
              (one_file "no2_data_2021_04.tif" Unreadable)
              (one_file "no2_data_2021_04.tif"
                 (Readable (row_raster [fzero; S754_zero true] None)))
              (S754_zero false) eq_refl eq_refl)
    as [_ [_ [_ [_ [_ [_ [_ [_ Hrec]]]]]]]].
  - vm_compute. reflexivity.
  - reflexivity.
  - exact (Hrec 2021 4 ltac:(lia) ltac:(lia) ltac:(lia) eq_refl).
Defined.

(** ** More on the monthly aggregation *)

Lemma monthly_pixel_not_nan :
  forall single_pixel samples,
    is_nan (monthly_pixel single_pixel samples) = false.
Proof.
  intros single_pixel samples. unfold monthly_pixel.
  destruct (is_nan (nanmean single_pixel samples)) eqn:E; [|exact E].
  rewrite nodata_value_stored. reflexivity.
Qed.

(** X12: a monthly composite never holds NaN: whenever a composite is
    written, with or without the full-month gate, it has one pixel per
    cell of its shape, none of them NaN, and the nodata value -9999; with
    the gate it comes from as many daily grids as the month has days. *)
Theorem composite_has_no_nan :
  forall require_all_days year month daily_files out,
    aggregate_month require_all_days (year, month) daily_files = Some out ->
    Forall (fun px => is_nan px = false) (pixels out)
    /\ List.length (pixels out) = (fst (shape out) * snd (shape out))%nat
    /\ nodata out = Some nodata_value
    /\ daily_files <> []
    /\ (require_all_days = true ->
        Z.of_nat (List.length daily_files) = monthrange year month).
Proof.
  intros rad year month files out. unfold aggregate_month.
  destruct (rad && negb (_ =? _)) eqn:G; [discriminate|].
  destruct (open_all (sorted files)) as [srcs|e] eqn:Ho; cbn [bind];
    [|discriminate].
  destruct (np_stack srcs) as [[shp stacked]|e] eqn:Hs; [|discriminate].
  intro H; injection H as <-. cbn [pixels shape nodata fst snd].
  split; [|split; [|split; [|split]]].
  - apply Forall_forall. intros px Hin. apply in_map_iff in Hin.
    destruct Hin as [i [<- _]]. apply monthly_pixel_not_nan.
  - rewrite length_map, length_seq. reflexivity.
  - reflexivity.
  - intro E. subst files. cbn in Ho. injection Ho as <-. discriminate.
  - intros ->. cbn [andb] in G. apply negb_false_iff, Z.eqb_eq in G.
    exact G.
Qed.

Lemma composite_has_no_nan_witness :
  let out := {| pixels := [sentinel32; F32.of_Z 10];
                shape := (1, 2)%nat;
                nodata := Some nodata_value |} in
  Forall (fun px => is_nan px = false) (pixels out)
  /\ List.length (pixels out) = 2%nat.
Proof.
  intro out.
  destruct (composite_has_no_nan true 2021 2
              (month_of 2021 2 28
                 (row_raster [F32.of_Z (-9999); F32.of_Z 10]
                    (Some nodata_value)))
              out ltac:(vm_compute; reflexivity)) as [H1 [H2 _]].
  split; [exact H1 | exact H2].
Defined.

Lemma insert_by_date_In :
  forall x y l, In y l \/ y = x -> In y (insert_by_date x l).
Proof.
  intros x y l; induction l as [|z l IH]; simpl.
  - intros [[]|H]; left; congruence.
  - destruct (date_leb (fst z) (fst x)); simpl.
    + intros [[H|H]|H]; [left; exact H | right; apply IH; left; exact H
                         | right; apply IH; right; exact H].
    + intros [[H|H]|H]; [right; left; exact H | right; right; exact H
                         | left; congruence].
Qed.

Lemma sorted_In : forall l y, In y l -> In y (sorted l).
Proof.
  intros l y. unfold sorted.
  assert (H : forall l acc, In y l \/ In y acc ->
             In y (fold_left (fun acc x => insert_by_date x acc) l acc)).
  { induction l0 as [|x l0 IH]; intros acc [H|H]; simpl in *;
      try contradiction; try exact H.
    - destruct H as [H|H]; apply IH.
      + right. apply insert_by_date_In. right. congruence.
      + left. exact H.
    - apply IH. right. apply insert_by_date_In. left. exact H. }
  intro Hin. apply H. left. exact Hin.
Qed.

Lemma open_all_unreadable :
  forall l d, In (d, Unreadable) l -> exists e, open_all l = Raise e.
Proof.
  induction l as [|[d' f] l IH]; intros d Hin; [destruct Hin|].
  destruct Hin as [H|H].
  - injection H as -> ->. eexists. reflexivity.
  - destruct f as [r|]; [|eexists; reflexivity].
    destruct (IH d H) as [e He]. exists e. cbn [open_all]. rewrite He.
    reflexivity.
Qed.

Lemma open_all_In :
  forall l srcs d r,
    open_all l = Ok srcs -> In (d, Readable r) l -> In r srcs.
Proof.
  induction l as [|[d' f] l IH]; intros srcs d r Ho Hin; [destruct Hin|].
  cbn [open_all] in Ho. destruct f as [r'|]; [|discriminate].
  destruct (open_all l) as [srcs'|] eqn:E; [|discriminate].
  cbn [bind] in Ho. injection Ho as <-.
  destruct Hin as [H|H]; [injection H as _ ->; left; reflexivity|].
  right. exact (IH _ _ _ eq_refl H).
Qed.

Lemma np_stack_shapes :
  forall srcs shp stacked r1 r2,
    np_stack srcs = Ok (shp, stacked) -> In r1 srcs -> In r2 srcs ->
    shape r1 = shape r2.
Proof.
  intros [|first rest] shp stacked r1 r2 H H1 H2; [discriminate|].
  unfold np_stack in H.
  destruct (forallb _ (first :: rest)) eqn:F; [|discriminate].
  rewrite forallb_forall in F.
  rewrite (shape_eqb_eq _ _ (F _ H1)), (shape_eqb_eq _ _ (F _ H2)).
  reflexivity.
Qed.

(** X13: a month with a daily file that cannot be read, or with daily
    grids of different shapes, gives no composite, even when all its days
    are there: the failure is caught and the month is skipped. *)
Theorem unreadable_or_mismatched_month_is_skipped :
  forall require_all_days year_month daily_files,
    (forall d, In (d, Unreadable) daily_files ->
       aggregate_month require_all_days year_month daily_files = None)
    /\ (forall d1 r1 d2 r2,
          In (d1, Readable r1) daily_files ->
          In (d2, Readable r2) daily_files ->
          shape r1 <> shape r2 ->
          aggregate_month require_all_days year_month daily_files = None).
Proof.
  intros rad [year month] files. split.
  - intros d Hin. unfold aggregate_month.
    destruct (rad && _); [reflexivity|].
    destruct (open_all_unreadable _ d (sorted_In _ _ Hin)) as [e He].
    rewrite He. reflexivity.
  - intros d1 r1 d2 r2 H1 H2 Hne. unfold aggregate_month.
    destruct (rad && _); [reflexivity|].
    destruct (open_all (sorted files)) as [srcs|e] eqn:Ho; cbn [bind];
      [|reflexivity].
    destruct (np_stack srcs) as [[shp stacked]|e] eqn:Hs; [|reflexivity].
    exfalso. apply Hne.
    apply (np_stack_shapes srcs shp stacked); [exact Hs | |].
    + exact (open_all_In _ _ _ _ Ho (sorted_In _ _ H1)).
    + exact (open_all_In _ _ _ _ Ho (sorted_In _ _ H2)).
Qed.

Lemma unreadable_or_mismatched_month_is_skipped_witness :
  aggregate_month true (2021, 2)
    (({| year := 2021; month := 2; day := 28 |}, Unreadable)
     :: month_of 2021 2 27 (row_raster [F32.of_Z 10] None))
  = None.
Proof.
  apply (proj1 (unreadable_or_mismatched_month_is_skipped true (2021, 2) _)
           {| year := 2021; month := 2; day := 28 |}).
  left. reflexivity.
Defined.

Lemma aggregate_loop_flat_map :
  forall require_all_days monthly_groups created_files,
    aggregate_loop require_all_days monthly_groups created_files
    = created_files
      ++ flat_map
           (fun g =>
              match aggregate_month require_all_days (fst g) (snd g) with
              | Some r => [(fst g, r)]
              | None => []
              end)
           monthly_groups.
Proof.
  intros rad groups; induction groups as [|[ym files] rest IH]; intro acc;
    cbn [aggregate_loop flat_map fst snd].
  - rewrite app_nil_r. reflexivity.
  - destruct (aggregate_month rad ym files) as [r|]; rewrite IH.
    + rewrite <- app_assoc. reflexivity.
    + reflexivity.
Qed.

(** X14: a month that is skipped does not stop the aggregation of the
    others: a composite is created for a month exactly when the
    aggregation of that month gives one, whatever happens to the other
    months, and the composites come in the order of the months. *)
Theorem skipped_months_do_not_stop_the_loop :
  forall require_all_days monthly_groups,
    let created :=
      aggregate_daily_to_monthly monthly_groups require_all_days in
    map fst created
    = map fst
        (filter
           (fun g =>
              match aggregate_month require_all_days (fst g) (snd g) with
              | Some _ => true
              | None => false
              end)
           monthly_groups)
    /\ forall year_month r,
         In (year_month, r) created
         <-> exists daily_files,
               In (year_month, daily_files) monthly_groups
               /\ aggregate_month require_all_days year_month daily_files
                  = Some r.
Proof.
  intros rad groups created. unfold created, aggregate_daily_to_monthly.
  rewrite aggregate_loop_flat_map. cbn [app]. split.
  - clear created. induction groups as [|[ym files] rest IH];
      [reflexivity|].
    cbn [flat_map filter fst snd].
    destruct (aggregate_month rad ym files); cbn [app map fst];
      rewrite IH; reflexivity.
  - intros ym r. rewrite in_flat_map. split.
    + intros [[ym' files] [Hin Hr]]. cbn [fst snd] in Hr.
      destruct (aggregate_month rad ym' files) as [r'|] eqn:E;
        [|destruct Hr].
      destruct Hr as [Hr|[]]. injection Hr as -> ->.
      exists files. split; assumption.
    + intros [files [Hin Hr]]. exists (ym, files). split; [exact Hin|].
      cbn [fst snd]. rewrite Hr. left. reflexivity.
Qed.

(** ** Copying the downloads into the daily folder *)

Lemma dict_set_keys :
  forall k v d k',
    In k' (map fst (dict_set k v d)) <-> k' = k \/ In k' (map fst d).
Proof.
  intros k v d k'; induction d as [|[k0 v0] r IH]; cbn [dict_set map fst In].
  - split; [intros [H|[]]; left; congruence | intros [H|[]]; left; congruence].
  - destruct (String.eqb_spec k0 k) as [->|Hne]; cbn [map fst In].
    + split; [intros [H|H]; [left; congruence | right; right; exact H]
             | intros [H|[H|H]]; [left; congruence | left; exact H
                                  | right; exact H]].
    + rewrite IH. tauto.
Qed.

Lemma dict_set_values :
  forall (P : string -> string -> Prop) k v d,
    P k v -> (forall k' v', In (k', v') d -> P k' v') ->
    forall k' v', In (k', v') (dict_set k v d) -> P k' v'.
Proof.
  intros P k v d Hkv; induction d as [|[k0 v0] r IH]; intros Hd k' v';
    cbn [dict_set In].
  - intros [H|[]]. injection H as <- <-. exact Hkv.
  - destruct (String.eqb_spec k0 k) as [->|Hne]; cbn [In].
    + intros [H|H]; [injection H as <- <-; exact Hkv|].
      apply Hd. right. exact H.
    + intros [H|H]; [apply Hd; left; exact H|].
      apply IH; [|exact H]. intros k1 v1 H1. apply Hd. right. exact H1.
Qed.

Lemma sorted_by_name_In_iff :
  forall (A : Type) (l : list (string * A)) y,
    In y (sorted_by_name l) <-> In y l.
Proof.
  intros A l y. split; [apply sorted_by_name_In|].
  unfold sorted_by_name.
  assert (Hins : forall x acc, In y acc \/ y = x ->
                   In y (insert_by_name x acc)).
  { intros x acc; induction acc as [|z acc IH]; simpl.
    - intros [[]|H]; left; congruence.
    - destruct (String.leb (fst z) (fst x)); simpl.
      + intros [[H|H]|H]; [left; exact H | right; apply IH; left; exact H
                           | right; apply IH; right; exact H].
      + intros [[H|H]|H]; [right; left; exact H | right; right; exact H
                           | left; congruence]. }
  assert (H : forall l acc, In y l \/ In y acc ->
             In y (fold_left (fun acc x => insert_by_name x acc) l acc)).
  { induction l0 as [|x l0 IH]; intros acc [H|H]; simpl in *;
      try contradiction; try exact H.
    - destruct H as [H|H]; apply IH.
      + right. apply Hins. right. congruence.
      + left. exact H.
    - apply IH. right. apply Hins. left. exact H. }
  intro Hin. apply H. left. exact Hin.
Qed.

Lemma copy_daily_fold :
  forall l st,
    let st' := fold_left copy_daily_step l st in
    (forall pf,
       In pf (written st')
       <-> In pf (written st)
           \/ exists date_dir,
                In date_dir l /\ daily_source date_dir (snd pf)
                /\ fst pf = flat_name (fst date_dir))
    /\ (forall k,
          In k (map fst (tiff_files st'))
          <-> In k (map fst (tiff_files st))
              \/ exists date_dir f,
                   In date_dir l /\ daily_source date_dir f
                   /\ k = fst date_dir)
    /\ ((forall k v, In (k, v) (tiff_files st) -> v = flat_name k) ->
        forall k v, In (k, v) (tiff_files st') -> v = flat_name k).
Proof.
  induction l as [|[name e] l IH]; intro st; cbn [fold_left].
  - cbv zeta. split; [|split].
    + intro pf. split; [intro H; left; exact H|].
      intros [H|[dd [[] _]]]. exact H.
    + intro k. split; [intro H; left; exact H|].
      intros [H|[dd [f [[] _]]]]. exact H.
    + intros H k v. apply H.
  - destruct (IH (copy_daily_step st (name, e))) as [Hw [Hk Hv]].
    cbv zeta in *.
    assert (Hstep :
      (exists f, daily_source (name, e) f
         /\ copy_daily_step st (name, e)
            = {| tiff_files :=
                   dict_set name (flat_name name) (tiff_files st);
                 written := written st ++ [(flat_name name, f)] |})
      \/ ((forall f, ~ daily_source (name, e) f)
          /\ copy_daily_step st (name, e) = st)).
    { unfold copy_daily_step, daily_source. cbn [fst snd].
      destruct e as [f0|children]; cbn [is_dir negb].
      - right. split; [|reflexivity]. intros f [_ H]. discriminate.
      - destruct (strptime_Y_m_d name) as [date|err] eqn:Hd.
        + destruct (find_response (EDir children)) as [| |f|] eqn:Hr;
            try (right; split; [intros f' [_ H']; discriminate | reflexivity]).
          left. exists f. split; [|reflexivity].
          split; [exists date; reflexivity | reflexivity].
        + right. split; [|reflexivity]. intros f [[date H] _]. discriminate. }
    destruct Hstep as [[f [Hsrc Heq]]|[Hno Heq]]; rewrite Heq in *;
      cbn [written tiff_files] in *.
    + split; [|split].
      * intro pf. rewrite Hw, in_app_iff. cbn [In]. split.
        -- intros [[H|[H|[]]]|[dd [Hin Hd]]].
           ++ left; exact H.
           ++ right. exists (name, e). subst pf. cbn [fst snd].
              split; [left; reflexivity | split; [exact Hsrc | reflexivity]].
           ++ right. exists dd. split; [right; exact Hin | exact Hd].
        -- intros [H|[dd [[Hin|Hin] [Hd Hp]]]].
           ++ left; left; exact H.
           ++ subst dd. cbn [fst snd] in *. left. right. left.
              destruct pf as [p f']. cbn [fst snd] in *. subst p.
              destruct Hsrc as [_ H1]. destruct Hd as [_ H2].
              cbn [snd] in *. congruence.
           ++ right. exists dd. split; [exact Hin | split; assumption].
      * intro k. rewrite Hk, dict_set_keys. split.
        -- intros [[H|H]|[dd [f' [Hin Hd]]]].
           ++ right. exists (name, e), f. subst k.
              split; [left; reflexivity | split; [exact Hsrc | reflexivity]].
           ++ left; exact H.
           ++ right. exists dd, f'. split; [right; exact Hin | exact Hd].
        -- intros [H|[dd [f' [[Hin|Hin] [Hd Hp]]]]].
           ++ left; right; exact H.
           ++ subst dd. cbn [fst] in Hp. left; left; exact Hp.
           ++ right. exists dd, f'. split; [exact Hin | split; assumption].
      * intro Hold. apply Hv.
        apply (dict_set_values (fun k v => v = flat_name k));
          [reflexivity | exact Hold].
    + split; [|split].
      * intro pf. rewrite Hw. split.
        -- intros [H|[dd [Hin Hd]]]; [left; exact H|].
           right. exists dd. split; [right; exact Hin | exact Hd].
        -- intros [H|[dd [[Hin|Hin] [Hd Hp]]]]; [left; exact H | |].
           ++ subst dd. exfalso. exact (Hno _ Hd).
           ++ right. exists dd. split; [exact Hin | split; assumption].
      * intro k. rewrite Hk. split.
        -- intros [H|[dd [f' [Hin Hd]]]]; [left; exact H|].
           right. exists dd, f'. split; [right; exact Hin | exact Hd].
        -- intros [H|[dd [f' [[Hin|Hin] [Hd Hp]]]]]; [left; exact H | |].
           ++ subst dd. exfalso. exact (Hno _ Hd).
           ++ right. exists dd, f'. split; [exact Hin | split; assumption].
      * exact Hv.
Qed.

Lemma split_nonempty : forall c s, split c s <> [].
Proof.
  intros c [|a r]; cbn [split]; [discriminate|].
  destruct (Ascii.eqb a c); [discriminate|].
  destruct (split c r); discriminate.
Qed.

Lemma split_join :
  forall c s, String.concat (String c "") (split c s) = s.
Proof.
  intros c s; induction s as [|a r IH]; [reflexivity|].
  cbn [split]. pose proof (split_nonempty c r) as Hne.
  destruct (split c r) as [|p ps]; [contradiction|].
  destruct (Ascii.eqb_spec a c) as [->|Hac].
  - change (String.concat (String c "") ("" :: p :: ps))%string
      with (String c (String.concat (String c "") (p :: ps))).
    rewrite IH. reflexivity.
  - destruct ps as [|q qs].
    + cbn [String.concat] in *. rewrite IH. reflexivity.
    + change (String.concat (String c "") (String a p :: q :: qs))
        with (String a (String.concat (String c "") (p :: q :: qs))).
      rewrite IH. reflexivity.
Qed.

Lemma char_between_neq :
  forall lo hi a c,
    char_between lo hi a = true ->
    (nat_of_ascii c <? nat_of_ascii lo)%nat
    || (nat_of_ascii hi <? nat_of_ascii c)%nat = true ->
    Ascii.eqb a c = false.
Proof.
  intros lo hi a c H Hc. apply Ascii.eqb_neq. intros ->.
  unfold char_between in H. apply andb_true_iff in H as [H1 H2].
  apply Nat.leb_le in H1, H2.
  apply orb_true_iff in Hc as [Hc|Hc]; apply Nat.ltb_lt in Hc; lia.
Qed.

Ltac field_chars :=
  repeat match goal with
  | H : _ && _ = true |- _ => apply andb_true_iff in H; destruct H
  | H : _ || _ = true |- _ => apply orb_true_iff in H; destruct H
  | H : Ascii.eqb _ _ = true |- _ => apply Ascii.eqb_eq in H; subst
  end;
  repeat match goal with
  | H : char_between ?lo ?hi ?a = true |- context [Ascii.eqb ?a ?c] =>
      rewrite (char_between_neq lo hi a c H) by reflexivity
  end;
  try reflexivity.

Lemma date_fields_chars :
  forall c s,
    stripped_char c ->
    year_field s = true \/ month_field s = true \/ day_field s = true ->
    contains c s = false.
Proof.
  intros c s Hc H.
  rewrite <- (string_of_list_ascii_of_string s).
  unfold year_field, month_field, day_field in H.
  destruct (list_ascii_of_string s) as [|a [|b [|x [|y [|z l]]]]];
    cbn [string_of_list_ascii contains];
    destruct Hc as [-> | ->];
    destruct H as [H|[H|H]]; try discriminate; field_chars.
Qed.

Lemma strptime_chars :
  forall c s date,
    stripped_char c -> strptime_Y_m_d s = Ok date -> contains c s = false.
Proof.
  intros c s date Hc. unfold strptime_Y_m_d.
  pose proof (split_join "-" s) as Hj.
  destruct (split "-" s) as [|y [|m [|d [|x l]]]]; try discriminate.
  destruct (year_field y && month_field m && day_field d) eqn:F;
    [|discriminate].
  intros _. apply andb_true_iff in F as [F Fd].
  apply andb_true_iff in F as [Fy Fm].
  rewrite <- Hj. cbn [String.concat]. rewrite !contains_app.
  rewrite (date_fields_chars c y Hc (or_introl Fy)).
  rewrite (date_fields_chars c m Hc (or_intror (or_introl Fm))).
  rewrite (date_fields_chars c d Hc (or_intror (or_intror Fd))).
  cbn [contains]. destruct Hc as [-> | ->]; reflexivity.
Qed.

Lemma flat_name_is_read_back :
  forall s date,
    strptime_Y_m_d s = Ok date ->
    glob_daily (flat_name s) = true
    /\ date_of_filename (flat_name s) = Ok date.
Proof.
  intros s date Hd.
  pose proof (strptime_chars "n" s date (or_introl eq_refl) Hd) as Hn.
  pose proof (strptime_chars "." s date (or_intror eq_refl) Hd) as Hdot.
  unfold flat_name. split.
  - unfold glob_daily, startswith. rewrite prefix_app.
    replace ("no2_data_" ++ s ++ ".tif")%string
      with (("no2_data_" ++ s) ++ ".tif")%string by (apply append_assoc).
    rewrite endswith_app, !string_length_app. cbn [andb String.length].
    apply Nat.leb_le. lia.
  - unfold date_of_filename.
    rewrite (replace_leading "n" "o2_data_" "" (s ++ ".tif")).
    + cbn [append]. rewrite (replace_trailing "." "tif" s Hdot). exact Hd.
    + rewrite contains_app, Hn. reflexivity.
Qed.

(** X15: every file that [copy_daily_tiffs] writes into the daily folder
    comes from a download directory named after a date, is listed in the
    returned dictionary under that name, and is picked up by the monthly
    aggregation: its name matches the glob and gives back the date of the
    directory.  Conversely every entry of the dictionary is a file that
    was written. *)
Theorem copied_files_are_aggregated :
  forall download_folder,
    let st := copy_daily_tiffs download_folder in
    (forall path f,
       In (path, f) (written st) ->
       exists date_str date e,
         In (date_str, e) download_folder
         /\ find_response e = ResponseFile f
         /\ strptime_Y_m_d date_str = Ok date
         /\ path = flat_name date_str
         /\ In (date_str, path) (tiff_files st)
         /\ glob_daily path = true
         /\ date_of_filename path = Ok date)
    /\ (forall date_str path,
          In (date_str, path) (tiff_files st) ->
          path = flat_name date_str
          /\ exists f, In (path, f) (written st)).
Proof.
  intros tree st. unfold st, copy_daily_tiffs.
  destruct (copy_daily_fold (sorted_by_name tree)
              {| tiff_files := []; written := [] |}) as [Hw [Hk Hv]].
  cbv zeta in *. cbn [written tiff_files map] in *.
  set (st' := fold_left copy_daily_step (sorted_by_name tree)
                {| tiff_files := []; written := [] |}) in *.
  assert (Hval : forall k v, In (k, v) (tiff_files st') -> v = flat_name k)
    by (apply Hv; intros k v []).
  assert (Hkey : forall k, In k (map fst (tiff_files st')) ->
                 In (k, flat_name k) (tiff_files st')).
  { intros k Hin. apply in_map_iff in Hin. destruct Hin as [[k' v] [E Hin]].
    cbn [fst] in E. subst k'. rewrite <- (Hval _ _ Hin). exact Hin. }
  split.
  - intros path f Hin. apply Hw in Hin.
    destruct Hin as [[]|[[name e] [Hin [[[date Hd] Hr] Hp]]]].
    cbn [fst snd] in *. exists name, date, e.
    pose proof (proj1 (sorted_by_name_In_iff _ _ _) Hin) as Hin'.
    destruct (flat_name_is_read_back name date Hd) as [Hg Hdate].
    subst path.
    split; [exact Hin'|]. split; [exact Hr|]. split; [exact Hd|].
    split; [reflexivity|]. split; [|split; [exact Hg | exact Hdate]].
    apply Hkey, Hk. right. exists (name, e), f.
    split; [exact Hin|]. split; [|reflexivity].
    split; [exists date; exact Hd | exact Hr].
  - intros k v Hin. pose proof (Hval _ _ Hin) as ->. split; [reflexivity|].
    assert (Hk' : In k (map fst (tiff_files st')))
      by (apply in_map_iff; exists (k, flat_name k); split;
          [reflexivity | exact Hin]).
    apply Hk in Hk'. destruct Hk' as [[]|[[name e] [f [Hin' [Hsrc ->]]]]].
    exists f. apply Hw. right. exists (name, e).
    split; [exact Hin'|]. split; [exact Hsrc | reflexivity].
Qed.

Lemma copied_files_are_aggregated_witness :
  exists date_str date e,
    In (date_str, e) sample_download
    /\ find_response e = ResponseFile (Readable (row_raster [F32.of_Z 10] None))
    /\ strptime_Y_m_d date_str = Ok date
    /\ flat_name "2021-04-01" = flat_name date_str
    /\ In (date_str, flat_name "2021-04-01")
         (tiff_files (copy_daily_tiffs sample_download))
    /\ glob_daily (flat_name "2021-04-01") = true
    /\ date_of_filename (flat_name "2021-04-01") = Ok date.
Proof.
  apply (proj1 (copied_files_are_aggregated sample_download)).
  vm_compute. left. reflexivity.
Defined.

Lemma copy_cdse_step_cases :
  forall st name e,
    copy_cdse_step st (name, e)
    = match find_response e with
      | ResponseFile f =>
          {| tiff_files := dict_set name (flat_name name) (tiff_files st);
             written := written st ++ [(flat_name name, f)] |}
      | ResponseIsDirectory =>
          {| tiff_files := dict_set name (flat_name name) (tiff_files st);
             written := written st |}
      | _ => st
      end.
Proof.
  intros st name [f|children]; reflexivity.
Qed.

Lemma copy_cdse_fold :
  forall l st,
    let st' := fold_left copy_cdse_step l st in
    (forall pf,
       In pf (written st')
       <-> In pf (written st)
           \/ exists date_dir,
                In date_dir l
                /\ find_response (snd date_dir) = ResponseFile (snd pf)
                /\ fst pf = flat_name (fst date_dir))
    /\ (forall k,
          In k (map fst (tiff_files st'))
          <-> In k (map fst (tiff_files st))
              \/ exists date_dir,
                   In date_dir l
                   /\ response_exists (find_response (snd date_dir)) = true
                   /\ k = fst date_dir)
    /\ ((forall k v, In (k, v) (tiff_files st) -> v = flat_name k) ->
        forall k v, In (k, v) (tiff_files st') -> v = flat_name k).
Proof.
  induction l as [|[name e] l IH]; intro st; cbn [fold_left].
  - cbv zeta. split; [|split].
    + intro pf. split; [intro H; left; exact H|].
      intros [H|[dd [[] _]]]. exact H.
    + intro k. split; [intro H; left; exact H|].
      intros [H|[dd [[] _]]]. exact H.
    + intros H k v. apply H.
  - destruct (IH (copy_cdse_step st (name, e))) as [Hw [Hk Hv]].
    cbv zeta in *. rewrite copy_cdse_step_cases in *.
    split; [|split].
    + intro pf. rewrite Hw. clear Hw Hk Hv. split.
      * intros [H|[dd [Hin Hd]]];
          [|right; exists dd; split; [right; exact Hin | exact Hd]].
        destruct (find_response e) as [| |f|] eqn:Hr; cbn [written] in H;
          try (left; exact H).
        apply in_app_iff in H. destruct H as [H|[H|[]]]; [left; exact H|].
        right. exists (name, e). subst pf. cbn [fst snd].
        split; [left; reflexivity | split; [exact Hr | reflexivity]].
      * intros [H|[dd [[Hin|Hin] [Hd Hp]]]].
        -- left. destruct (find_response e); cbn [written];
             try exact H. apply in_app_iff. left. exact H.
        -- subst dd. cbn [fst snd] in *. left. rewrite Hd. cbn [written].
           apply in_app_iff. right. left.
           destruct pf as [p f']. cbn [fst snd] in *. subst p. reflexivity.
        -- right. exists dd. split; [exact Hin | split; assumption].
    + intro k. rewrite Hk. clear Hw Hk Hv. split.
      * intros [H|[dd [Hin Hd]]];
          [|right; exists dd; split; [right; exact Hin | exact Hd]].
        destruct (find_response e) as [| |f|] eqn:Hr;
          cbn [tiff_files] in H; try (left; exact H);
          apply dict_set_keys in H; (destruct H as [H|H]; [|left; exact H]);
          right; exists (name, e); cbn [fst snd]; rewrite Hr;
          (split; [left; reflexivity | split; [reflexivity | exact H]]).
      * intros [H|[dd [[Hin|Hin] [Hd Hp]]]].
        -- left. destruct (find_response e); cbn [tiff_files];
             try exact H; apply dict_set_keys; right; exact H.
        -- subst dd. cbn [fst snd] in *. left.
           destruct (find_response e); cbn [response_exists] in Hd;
             try discriminate; cbn [tiff_files]; apply dict_set_keys;
             left; exact Hp.
        -- right. exists dd. split; [exact Hin | split; assumption].
    + intro Hold. apply Hv. clear Hw Hk Hv.
      destruct (find_response e); cbn [tiff_files]; try exact Hold;
        apply (dict_set_values (fun k v => v = flat_name k));
        try reflexivity; exact Hold.
Qed.

(** X16: [copy_cdse_responses_into_one_dir] writes one file for every
    directory of the download folder whose only sub-directory holds a
    file [response.tiff], whatever the name of the directory; its
    dictionary has a key for every directory whose [response.tiff]
    exists, also when that is a directory and nothing could be
    copied. *)
Theorem cdse_copy_and_its_dictionary :
  forall base_dir,
    let st := copy_cdse_responses_into_one_dir base_dir in
    (forall path f,
       In (path, f) (written st)
       <-> exists date_str e,
             In (date_str, e) base_dir
             /\ find_response e = ResponseFile f
             /\ path = flat_name date_str)
    /\ (forall date_str,
          In date_str (map fst (tiff_files st))
          <-> exists e,
                In (date_str, e) base_dir
                /\ response_exists (find_response e) = true)
    /\ (forall date_str path,
          In (date_str, path) (tiff_files st) -> path = flat_name date_str).
Proof.
  intros tree st. unfold st, copy_cdse_responses_into_one_dir.
  destruct (copy_cdse_fold (sorted_by_name tree)
              {| tiff_files := []; written := [] |}) as [Hw [Hk Hv]].
  cbv zeta in *. cbn [written tiff_files map] in *.
  split; [|split].
  - intros path f. rewrite Hw. cbn [In fst snd]. split.
    + intros [[]|[[name e] [Hin [Hr Hp]]]]. cbn [fst snd] in *.
      exists name, e. split; [|split; assumption].
      apply sorted_by_name_In_iff. exact Hin.
    + intros [name [e [Hin [Hr Hp]]]]. right. exists (name, e).
      split; [apply sorted_by_name_In_iff; exact Hin|].
      split; assumption.
  - intro k. rewrite Hk. cbn [In]. split.
    + intros [[]|[[name e] [Hin [Hr Hp]]]]. cbn [fst snd] in *. subst k.
      exists e. split; [apply sorted_by_name_In_iff; exact Hin | exact Hr].
    + intros [e [Hin Hr]]. right. exists (k, e).
      split; [apply sorted_by_name_In_iff; exact Hin|].
      split; [exact Hr | reflexivity].
  - apply Hv. intros k v [].
Qed.

Lemma cdse_copy_and_its_dictionary_witness :
  In "2021-04-02"%string
    (map fst (tiff_files (copy_cdse_responses_into_one_dir sample_download)))
  /\ ~ In (flat_name "2021-04-02")
        (map fst (written (copy_cdse_responses_into_one_dir sample_download)))
  /\ In (flat_name "notes", Unreadable)
       (written (copy_cdse_responses_into_one_dir sample_download)).
Proof.
  destruct (cdse_copy_and_its_dictionary sample_download) as [Hw [Hk _]].
  split; [|split].
  - apply Hk. eexists. split; [right; left; reflexivity | reflexivity].
  - vm_compute. intros [H|[H|[]]]; discriminate H.
  - apply Hw. eexists _, _.
    split; [left; reflexivity | split; reflexivity].
Defined.

(** X17: on the same download folder, the files that [copy_daily_tiffs]
    writes are the files of the directories named after a date whose only
    sub-directory holds a file [response.tiff], and each of them is also
    written, under the same name, by
    [copy_cdse_responses_into_one_dir]. *)
Theorem daily_copy_is_the_dated_part_of_the_cdse_copy :
  forall download_folder path f,
    (In (path, f) (written (copy_daily_tiffs download_folder))
     <-> exists date_str e date,
           In (date_str, e) download_folder
           /\ strptime_Y_m_d date_str = Ok date
           /\ find_response e = ResponseFile f
           /\ path = flat_name date_str)
    /\ (In (path, f) (written (copy_daily_tiffs download_folder)) ->
        In (path, f)
          (written (copy_cdse_responses_into_one_dir download_folder))).
Proof.
  intros tree path f.
  unfold copy_daily_tiffs, copy_cdse_responses_into_one_dir.
  destruct (copy_daily_fold (sorted_by_name tree)
              {| tiff_files := []; written := [] |}) as [Hd _].
  destruct (copy_cdse_fold (sorted_by_name tree)
              {| tiff_files := []; written := [] |}) as [Hc _].
  cbv zeta in *. rewrite Hd. cbn [written In fst snd]. split; [split|].
  - intros [[]|[[name e] [Hin [[[date Hdate] Hr] Hp]]]].
    cbn [fst snd] in *. exists name, e, date.
    split; [apply sorted_by_name_In_iff; exact Hin|].
    split; [exact Hdate|]. split; [exact Hr | exact Hp].
  - intros [name [e [date [Hin [Hdate [Hr Hp]]]]]].
    right. exists (name, e). cbn [fst snd].
    split; [apply sorted_by_name_In_iff; exact Hin|].
    split; [|exact Hp]. split; [exists date; exact Hdate | exact Hr].
  - intros [[]|[[name e] [Hin [[_ Hr] Hp]]]]. cbn [fst snd] in *.
    apply Hc. right. exists (name, e). cbn [fst snd].
    split; [exact Hin | split; assumption].
Qed.

(** ** The periods of the city step *)

Lemma period_of_daily_name :
  forall y m d,
    1 <= y <= 9999 -> 1 <= m <= 12 -> 1 <= d <= 31 ->
    period_of_filename (padded_daily_name y m d) = format_period "_" y m.
Proof.
  intros y m d Hy Hm Hd.
  destruct (date_field_ok_spec _ _ _ (year_fields_ok y Hy)) as [_ [Ny Dy]].
  destruct (date_field_ok_spec _ _ _ (month_fields_ok m Hm)) as [_ [Nm Dm]].
  destruct (date_field_ok_spec _ _ _ (day_fields_ok d Hd)) as [_ [Nd Dd]].
  destruct (field_ok_spec 4 y (years_ok y Hy)) as [_ [_ [Sy [Ly _]]]].
  destruct (field_ok_spec 2 m (months_ok m Hm)) as [_ [_ [Sm [Lm _]]]].
  destruct (field_ok_spec 2 d (days_ok d Hd)) as [_ [_ [Sd [Ld _]]]].
  unfold padded_daily_name, flat_name.
  set (body := (zfill 4 y ++ "-" ++ zfill 2 m ++ "-" ++ zfill 2 d)%string).
  assert (Hb : body
               = (zfill 4 y ++ String "-" (zfill 2 m ++ String "-" (zfill 2 d)))
                 %string) by reflexivity.
  assert (Hn : contains "n" (body ++ ".tif") = false).
  { rewrite Hb, !contains_app. cbn [contains Ascii.eqb Bool.eqb].
    rewrite !contains_app. cbn [contains Ascii.eqb Bool.eqb].
    rewrite Ny, Nm, Nd. reflexivity. }
  assert (Hdot : contains "." body = false).
  { rewrite Hb, !contains_app. cbn [contains Ascii.eqb Bool.eqb].
    rewrite !contains_app. cbn [contains Ascii.eqb Bool.eqb].
    rewrite Dy, Dm, Dd. reflexivity. }
  unfold period_of_filename.
  rewrite (replace_leading "n" "o2_data_" "" (body ++ ".tif") Hn).
  cbn [append]. rewrite (replace_trailing "." "tif" body Hdot).
  assert (Hdash : contains "-" body = true).
  { rewrite Hb, contains_app. cbn [contains Ascii.eqb Bool.eqb].
    apply orb_true_r. }
  assert (Hlen : String.length body = 10%nat).
  { rewrite Hb, string_length_app. cbn [String.length].
    rewrite string_length_app. cbn [String.length].
    rewrite Ly, Lm, Ld. reflexivity. }
  rewrite Hdash, Hlen. cbn [andb Nat.leb].
  rewrite Hb, (split_app_sep "-" _ _ Sy), (split_app_sep "-" _ _ Sm).
  reflexivity.
Qed.

(** X18: the period that the city step derives from the name
    [no2_data_YYYY-MM-DD.tif] of a daily file is the month of the file in
    the form [YYYY_MM]: its two fields
    are read back as the year and the month, and for a year of four
    digits it is the key under which the monthly aggregation files the
    composite of that month. *)
Theorem daily_file_gives_its_month :
  forall y m d,
    1 <= y <= 9999 -> 1 <= m <= 12 -> 1 <= d <= 31 ->
    let period_str := period_of_filename (padded_daily_name y m d) in
    period_str = format_period "_" y m
    /\ parse_year_month period_str = Ok (y, m)
    /\ (1000 <= y ->
        period_str = year_month_key {| year := y; month := m; day := d |}).
Proof.
  intros y m d Hy Hm Hd period_str. unfold period_str.
  rewrite (period_of_daily_name y m d Hy Hm Hd).
  destruct (split_period_str y m Hy Hm) as [Hs [Hiy Him]].
  split; [reflexivity|]. split.
  - unfold parse_year_month. rewrite Hs, Hiy, Him. reflexivity.
  - intro H4. unfold year_month_key, format_period. cbn [year month].
    rewrite four_digit_years by lia. reflexivity.
Qed.

Lemma daily_file_gives_its_month_witness :
  period_of_filename (padded_daily_name 2021 4 7) = "2021_04"%string
  /\ parse_year_month (period_of_filename (padded_daily_name 2021 4 7))
     = Ok (2021, 4)
  /\ (1000 <= 2021 ->
      period_of_filename (padded_daily_name 2021 4 7)
      = year_month_key {| year := 2021; month := 4; day := 7 |}).
Proof.
  apply (daily_file_gives_its_month 2021 4 7); lia.
Defined.

Lemma insert_string_In :
  forall x l y, In y (insert_string x l) <-> y = x \/ In y l.
Proof.
  intros x l y; induction l as [|z l IH]; cbn [insert_string In].
  - split; [intros [H|[]]; left; congruence | intros [H|[]]; left; congruence].
  - destruct (String.leb z x); cbn [In]; [rewrite IH|];
      split; intros H; repeat destruct H as [H|H]; auto.
Qed.

Lemma insert_string_NoDup :
  forall x l, ~ In x l -> NoDup l -> NoDup (insert_string x l).
Proof.
  intros x l; induction l as [|z l IH]; intros Hx Hl; cbn [insert_string].
  - constructor; [intros [] | constructor].
  - destruct (String.leb z x).
    + inversion Hl as [|? ? Hz Hl']; subst. constructor.
      * rewrite insert_string_In. intros [H|H]; [|exact (Hz H)].
        apply Hx. left. exact H.
      * apply IH; [|exact Hl']. intro H. apply Hx. right. exact H.
    + constructor; assumption.
Qed.

Lemma insert_string_ascending :
  forall x l, ascending l -> ascending (insert_string x l).
Proof.
  intros x l; induction l as [|z l IH]; intro Hl; cbn [insert_string].
  - exact I.
  - destruct (String.leb z x) eqn:E.
    + destruct l as [|w l].
      * cbn [insert_string ascending]. split; [exact E | exact I].
      * destruct Hl as [Hzw Hl]. specialize (IH Hl).
        cbn [insert_string] in *. destruct (String.leb w x).
        -- split; [exact Hzw | exact IH].
        -- split; [exact E | exact IH].
    + split; [|exact Hl].
      destruct (String.leb_total x z) as [H|H]; [exact H | congruence].
Qed.

Lemma sort_strings :
  forall l acc,
    NoDup acc -> ascending acc -> NoDup l ->
    (forall x, In x l -> ~ In x acc) ->
    let r := fold_left (fun acc x => insert_string x acc) l acc in
    NoDup r /\ ascending r /\ forall x, In x r <-> In x l \/ In x acc.
Proof.
  induction l as [|a l IH]; intros acc Hacc Hasc Hl Hd; cbn [fold_left].
  - cbv zeta. split; [exact Hacc|]. split; [exact Hasc|].
    intro x. cbn [In]. tauto.
  - inversion Hl as [|? ? Ha Hl']; subst.
    destruct (IH (insert_string a acc)) as [H1 [H2 H3]].
    + apply insert_string_NoDup; [|exact Hacc]. apply Hd. left. reflexivity.
    + apply insert_string_ascending. exact Hasc.
    + exact Hl'.
    + intros x Hx. rewrite insert_string_In. intros [H|H].
      * subst x. exact (Ha Hx).
      * apply (Hd x); [right; exact Hx | exact H].
    + cbv zeta in *. split; [exact H1|]. split; [exact H2|].
      intro x. rewrite H3, insert_string_In. cbn [In].
      split; intros H; repeat destruct H as [H|H]; auto.
Qed.

(** X19: the periods that the city step loops over are those of the files
    of the daily folder named [no2_data_*.tif], each one once however
    many files of the folder give it, in ascending order. *)
Theorem date_periods_are_a_sorted_set :
  forall no2_daily_folder,
    NoDup (date_periods no2_daily_folder)
    /\ ascending (date_periods no2_daily_folder)
    /\ forall period_str,
         In period_str (date_periods no2_daily_folder)
         <-> exists filename,
               In filename no2_daily_folder
               /\ startswith "no2_data_" filename = true
               /\ endswith ".tif" filename = true
               /\ period_str = period_of_filename filename.
Proof.
  intro folder. unfold date_periods.
  destruct (sort_strings
              (nodup string_dec
                 (map period_of_filename (filter listed_daily folder))) [])
    as [H1 [H2 H3]].
  - constructor.
  - exact I.
  - apply NoDup_nodup.
  - intros x _ [].
  - cbv zeta in *. split; [exact H1|]. split; [exact H2|].
    intro p. rewrite H3, nodup_In, in_map_iff. cbn [In]. split.
    + intros [[f [Hp Hf]]|[]]. apply filter_In in Hf as [Hin Hl].
      unfold listed_daily in Hl. apply andb_true_iff in Hl as [Hs He].
      exists f. repeat split; try assumption. symmetry. exact Hp.
    + intros [f [Hin [Hs [He Hp]]]]. left. exists f.
      split; [symmetry; exact Hp|]. apply filter_In.
      split; [exact Hin|]. unfold listed_daily. rewrite Hs, He. reflexivity.
Qed.

(** X20: a file of the daily folder named [no2_data_<s>.tif] for an [s]
    without dash or underscore (and without the characters that start the
    two stripped parts) is skipped by the monthly aggregation, which finds
    no date in its name, but it is listed by the city step, its period is
    [s] itself, and the assembly of a timepoint for that period raises
    ValueError when it unpacks the period. *)
Theorem stray_daily_file_stops_the_city_step :
  forall stdtr format_3f format_2f city_name geometry incidence_value
         s no2_daily_folder no2_monthly_folder,
    contains "_" s = false -> contains "-" s = false ->
    contains "n" s = false -> contains "." s = false ->
    date_of_filename (flat_name s) = Raise ValueError
    /\ listed_daily (flat_name s) = true
    /\ period_of_filename (flat_name s) = s
    /\ city_timepoint stdtr format_3f format_2f city_name geometry
         incidence_value (period_of_filename (flat_name s))
         no2_daily_folder no2_monthly_folder
       = Raise ValueError.
Proof.
  intros stdtr f3 f2 name geom inc s dfld mfld Hu Hd Hn Hdot.
  assert (Hn' : contains "n" (s ++ ".tif") = false)
    by (rewrite contains_app, Hn; reflexivity).
  assert (Hstrip : str_replace ".tif" ""
                     (str_replace "no2_data_" "" (flat_name s)) = s).
  { unfold flat_name.
    rewrite (replace_leading "n" "o2_data_" "" (s ++ ".tif") Hn').
    cbn [append]. apply (replace_trailing "." "tif" s Hdot). }
  assert (Hp : period_of_filename (flat_name s) = s).
  { unfold period_of_filename. rewrite Hstrip, Hd. reflexivity. }
  split; [|split; [|split]].
  - unfold date_of_filename. rewrite Hstrip. unfold strptime_Y_m_d.
    rewrite (split_no_sep "-" _ Hd). reflexivity.
  - unfold listed_daily, flat_name, startswith. rewrite prefix_app.
    replace ("no2_data_" ++ s ++ ".tif")%string
      with (("no2_data_" ++ s) ++ ".tif")%string by (apply append_assoc).
    rewrite endswith_app. reflexivity.
  - exact Hp.
  - rewrite Hp. unfold city_timepoint.
    rewrite (split_no_sep "_" _ Hu). reflexivity.
Qed.

Lemma stray_daily_file_stops_the_city_step_witness :
  date_of_filename (flat_name "latest") = Raise ValueError
  /\ listed_daily (flat_name "latest") = true
  /\ period_of_filename (flat_name "latest") = "latest"%string
  /\ city_timepoint (fun _ _ => fzero) (fun _ => ""%string)
       (fun _ => ""%string) "Berlin" whole_grid fzero
       (period_of_filename (flat_name "latest")) empty_folder empty_folder
     = Raise ValueError.
Proof.
  apply stray_daily_file_stops_the_city_step; reflexivity.
Defined.
